(** * DocBrown: the repository analysis pipeline and its cache

    A shallow embedding of [internal/analyzer] (scanner, detector, metadata
    extractor), of [internal/cache] (the staleness cache) and of the parts
    of [internal/orchestrator] that use them, followed by the properties of
    the specification that concern them and by further properties of the
    same code.

    Go strings are byte sequences and are modelled as [string]; a map keyed
    by strings is a [gmap string _]; the operating system is an explicit
    snapshot that every function reading the disk takes as an argument; the
    clock is an explicit instant. *)

From Stdlib Require Import ZArith String Ascii List Bool Lia.
From stdpp Require Import base option gmap strings list.

Import ListNotations.
Local Open Scope string_scope.
Local Open Scope list_scope.

(** ** Errors

    Go's [error] values are modelled by their message; [(v, err)] results
    by [result]. *)

Definition error := string.

Inductive result (A : Type) : Type :=
| Ok (a : A)
| Err (e : error).

Arguments Ok {A} a.
Arguments Err {A} e.

Definition isOk {A} (r : result A) : bool :=
  match r with Ok _ => true | Err _ => false end.

(** ** Package [strings] (ASCII fragment)

    Executable models of the standard-library functions the analysed code
    calls.  Case mapping and white space are those of ASCII: [TrimSpace],
    [Fields] and [ToLower] are the functions of Go on strings whose bytes
    are all below 128, and leave alone the white space and the letters of
    Unicode that Go would also treat in other strings. *)

Definition strings_HasPrefix (s pre : string) : bool := String.prefix pre s.

Definition strings_HasSuffix (s suf : string) : bool :=
  let n := String.length s in
  let m := String.length suf in
  (m <=? n)%nat && String.eqb (String.substring (n - m) m s) suf.

Fixpoint strings_Contains (s substr : string) : bool :=
  String.prefix substr s ||
  match s with
  | EmptyString => false
  | String _ s' => strings_Contains s' substr
  end.

Definition isSpace (a : ascii) : bool :=
  let n := nat_of_ascii a in
  ((9 <=? n)%nat && (n <=? 13)%nat) || (n =? 32)%nat.

Fixpoint inCutset (cutset : string) (a : ascii) : bool :=
  match cutset with
  | EmptyString => false
  | String c rest => Ascii.eqb c a || inCutset rest a
  end.

Fixpoint trimLeftFunc (f : ascii -> bool) (s : string) : string :=
  match s with
  | EmptyString => EmptyString
  | String a s' => if f a then trimLeftFunc f s' else s
  end.

Fixpoint trimRightFunc (f : ascii -> bool) (s : string) : string :=
  match s with
  | EmptyString => EmptyString
  | String a s' =>
      match trimRightFunc f s' with
      | EmptyString => if f a then EmptyString else String a EmptyString
      | t => String a t
      end
  end.

Definition strings_TrimSpace (s : string) : string :=
  trimRightFunc isSpace (trimLeftFunc isSpace s).

Definition strings_Trim (s cutset : string) : string :=
  trimRightFunc (inCutset cutset) (trimLeftFunc (inCutset cutset) s).

Fixpoint dropString (n : nat) (s : string) : string :=
  match n, s with
  | O, _ => s
  | S n', String _ s' => dropString n' s'
  | S _, EmptyString => EmptyString
  end.

Definition strings_TrimPrefix (s pre : string) : string :=
  if strings_HasPrefix s pre then dropString (String.length pre) s else s.

(** [splitGo sep skip cur s]: [cur] is the piece being read, reversed;
    [skip] counts the bytes of a separator still to be passed over. *)
Fixpoint splitGo (sep : string) (skip : nat) (cur : string) (s : string)
  : list string :=
  match s with
  | EmptyString => [String.rev cur]
  | String a s' =>
      match skip with
      | S k => splitGo sep k cur s'
      | O =>
          if String.prefix sep s
          then String.rev cur :: splitGo sep (String.length sep - 1) EmptyString s'
          else splitGo sep O (String a cur) s'
      end
  end.

Fixpoint explode (s : string) : list string :=
  match s with
  | EmptyString => []
  | String a s' => String a EmptyString :: explode s'
  end.

Definition strings_Split (s sep : string) : list string :=
  match sep with
  | EmptyString => explode s
  | _ => splitGo sep O EmptyString s
  end.

Fixpoint fieldsGo (cur : string) (s : string) : list string :=
  match s with
  | EmptyString =>
      match cur with EmptyString => [] | _ => [String.rev cur] end
  | String a s' =>
      if isSpace a
      then match cur with
           | EmptyString => fieldsGo EmptyString s'
           | _ => String.rev cur :: fieldsGo EmptyString s'
           end
      else fieldsGo (String a cur) s'
  end.

Definition strings_Fields (s : string) : list string := fieldsGo EmptyString s.

Definition toLowerAscii (a : ascii) : ascii :=
  let n := nat_of_ascii a in
  if (65 <=? n)%nat && (n <=? 90)%nat then ascii_of_nat (n + 32) else a.

Fixpoint strings_ToLower (s : string) : string :=
  match s with
  | EmptyString => EmptyString
  | String a s' => String (toLowerAscii a) (strings_ToLower s')
  end.

Definition strings_Join (elems : list string) (sep : string) : string :=
  String.concat sep elems.

(** ** Package [path/filepath] (Unix separator) *)

Definition nonEmpty (s : string) : bool := negb (String.eqb s "").

(** The elements of a path: the pieces between slashes, empty ones dropped. *)
Definition pathElems (p : string) : list string :=
  List.filter nonEmpty (strings_Split p "/").

(** One step of [Clean]: [acc] is the stack of kept elements, top first. *)
Definition cleanStep (rooted : bool) (acc : list string) (e : string)
  : list string :=
  if String.eqb e "." then acc
  else if String.eqb e ".." then
    match acc with
    | top :: rest => if String.eqb top ".." then e :: acc else rest
    | [] => if rooted then [] else [e]
    end
  else e :: acc.

Definition filepath_Clean (p : string) : string :=
  let rooted := strings_HasPrefix p "/" in
  let kept := List.rev (List.fold_left (cleanStep rooted) (pathElems p) []) in
  let body := strings_Join kept "/" in
  if rooted then "/" +:+ body
  else if String.eqb body "" then "." else body.

Definition filepath_Join (elems : list string) : string :=
  match List.filter nonEmpty elems with
  | [] => ""
  | es => filepath_Clean (strings_Join es "/")
  end.

Definition isSlash (a : ascii) : bool := Ascii.eqb a "/"%char.

(** The part of [s] after its last slash, and the part up to and including
    it ([filepath.Split]). *)
Fixpoint afterLastSlash (s : string) : string :=
  match s with
  | EmptyString => EmptyString
  | String a s' =>
      if strings_Contains s' "/" then afterLastSlash s'
      else if isSlash a then s' else s
  end.

Definition throughLastSlash (s : string) : string :=
  String.substring 0 (String.length s - String.length (afterLastSlash s)) s.

Definition filepath_Base (p : string) : string :=
  match p with
  | EmptyString => "."
  | _ =>
      match trimRightFunc isSlash p with
      | EmptyString => "/"
      | q => afterLastSlash q
      end
  end.

Definition filepath_Dir (p : string) : string :=
  filepath_Clean (throughLastSlash p).

(** The suffix of the last element from its final dot on. *)
Fixpoint fromLastDot (s : string) : string :=
  match s with
  | EmptyString => EmptyString
  | String a s' =>
      if strings_Contains s' "." then fromLastDot s'
      else if Ascii.eqb a "."%char then s else EmptyString
  end.

Definition filepath_Ext (p : string) : string := fromLastDot (afterLastSlash p).

Fixpoint stripCommon (bs ts : list string) : list string * list string :=
  match bs, ts with
  | b :: bs', t :: ts' =>
      if String.eqb b t then stripCommon bs' ts' else (bs, ts)
  | _, _ => (bs, ts)
  end.

Definition filepath_Rel (basepath targpath : string) : result string :=
  let base := filepath_Clean basepath in
  let targ := filepath_Clean targpath in
  if String.eqb targ base then Ok "."
  else
    let base := if String.eqb base "." then "" else base in
    if negb (Bool.eqb (strings_HasPrefix base "/") (strings_HasPrefix targ "/"))
    then Err ("Rel: can't make " +:+ targpath +:+ " relative to " +:+ basepath)
    else
      let '(bs, ts) := stripCommon (pathElems base) (pathElems targ) in
      match bs with
      | [] => Ok (strings_Join ts "/")
      | b :: _ =>
          if String.eqb b ".."
          then Err ("Rel: can't make " +:+ targpath +:+ " relative to " +:+ basepath)
          else Ok (strings_Join (List.map (fun _ => "..") bs ++ ts) "/")
      end.

(** The value left in [v] by [v, _ := f()]: the zero value on error. *)
Definition orEmpty (r : result string) : string :=
  match r with Ok s => s | Err _ => "" end.

(** ** Package [time]

    An instant is a count of nanoseconds; a [Duration] is a signed 64-bit
    count of nanoseconds, and [Time.Sub] saturates at its bounds. *)

Definition Time := Z.
Definition Duration := Z.

Definition maxDuration : Duration := (2 ^ 63 - 1)%Z.
Definition minDuration : Duration := (- 2 ^ 63)%Z.

Definition time_Sub (t u : Time) : Duration :=
  let d := (t - u)%Z in
  if (maxDuration <? d)%Z then maxDuration
  else if (d <? minDuration)%Z then minDuration
  else d.

(** [time.Since(t)] when the clock reads [now]. *)
Definition time_Since (now t : Time) : Duration := time_Sub now t.

(** ** Packages [crypto/sha256] and [encoding/hex]

    The digest [hashFiles] and [hashComponent] compute: SHA-256 (FIPS 180-4)
    of the bytes written, rendered as 64 lower-case hexadecimal digits.
    Words are 32-bit numbers held in [N]. *)

Module sha256.

Local Open Scope N_scope.

Definition mask32 : N := 4294967295.

Definition add32 (a b : N) : N := N.land (a + b) mask32.

Definition rotr (n x : N) : N :=
  N.lor (N.shiftr x n) (N.land (N.shiftl x (32 - n)) mask32).

Definition not32 (x : N) : N := N.lxor x mask32.

Definition Ch (x y z : N) : N := N.lxor (N.land x y) (N.land (not32 x) z).

Definition Maj (x y z : N) : N :=
  N.lxor (N.lxor (N.land x y) (N.land x z)) (N.land y z).

Definition bigSigma0 (x : N) : N :=
  N.lxor (N.lxor (rotr 2 x) (rotr 13 x)) (rotr 22 x).

Definition bigSigma1 (x : N) : N :=
  N.lxor (N.lxor (rotr 6 x) (rotr 11 x)) (rotr 25 x).

Definition smallSigma0 (x : N) : N :=
  N.lxor (N.lxor (rotr 7 x) (rotr 18 x)) (N.shiftr x 3).

Definition smallSigma1 (x : N) : N :=
  N.lxor (N.lxor (rotr 17 x) (rotr 19 x)) (N.shiftr x 10).

(** The round constants and the initial hash value. *)
Definition K : list N :=
  [1116352408; 1899447441; 3049323471; 3921009573; 961987163; 1508970993; 2453635748; 2870763221; 3624381080; 310598401; 607225278; 1426881987; 1925078388; 2162078206; 2614888103; 3248222580; 3835390401; 4022224774; 264347078; 604807628; 770255983; 1249150122; 1555081692; 1996064986; 2554220882; 2821834349; 2952996808; 3210313671; 3336571891; 3584528711; 113926993; 338241895; 666307205; 773529912; 1294757372; 1396182291; 1695183700; 1986661051; 2177026350; 2456956037; 2730485921; 2820302411; 3259730800; 3345764771; 3516065817; 3600352804; 4094571909; 275423344; 430227734; 506948616; 659060556; 883997877; 958139571; 1322822218; 1537002063; 1747873779; 1955562222; 2024104815; 2227730452; 2361852424; 2428436474; 2756734187; 3204031479; 3329325298].

Definition State : Type := N * N * N * N * N * N * N * N.

Definition initial : State :=
  (1779033703, 3144134277, 1013904242, 2773480762,
   1359893119, 2600822924, 528734635, 1541459225).

(** The message followed by the bit 1, zero bits, and its length in bits
    as a 64-bit big-endian number, a multiple of 64 bytes in all. *)
Definition be64 (n : N) : list N :=
  List.map (fun i => N.land (N.shiftr n (8 * i)) 255) [7; 6; 5; 4; 3; 2; 1; 0].

Definition pad (msg : list N) : list N :=
  let len := length msg in
  let zeros := ((64 - ((len + 9) mod 64)) mod 64)%nat in
  msg ++ [128] ++ List.repeat 0 zeros ++ be64 (8 * N.of_nat len).

Fixpoint blocks (n : nat) (bytes : list N) : list (list N) :=
  match n with
  | O => []
  | S n' => List.firstn 64 bytes :: blocks n' (List.skipn 64 bytes)
  end.

Fixpoint words (n : nat) (bytes : list N) : list N :=
  match n, bytes with
  | S n', b0 :: b1 :: b2 :: b3 :: rest =>
      N.lor (N.lor (N.shiftl b0 24) (N.shiftl b1 16))
            (N.lor (N.shiftl b2 8) b3)
      :: words n' rest
  | _, _ => []
  end.

(** The message schedule, latest word first. *)
Fixpoint extend (n : nat) (w : list N) : list N :=
  match n with
  | O => w
  | S n' =>
      let next :=
        add32 (add32 (smallSigma1 (nth 1 w 0)) (nth 6 w 0))
              (add32 (smallSigma0 (nth 14 w 0)) (nth 15 w 0)) in
      extend n' (next :: w)
  end.

Definition schedule (block : list N) : list N :=
  List.rev (extend 48 (List.rev (words 16 block))).

Definition round (st : State) (kw : N * N) : State :=
  let '(a, b, c, d, e, f, g, h) := st in
  let '(k, w) := kw in
  let t1 := add32 (add32 (add32 h (bigSigma1 e)) (add32 (Ch e f g) k)) w in
  let t2 := add32 (bigSigma0 a) (Maj a b c) in
  (add32 t1 t2, a, b, c, add32 d t1, e, f, g).

Definition compress (st : State) (block : list N) : State :=
  let '(a, b, c, d, e, f, g, h) := st in
  let '(a', b', c', d', e', f', g', h') :=
    List.fold_left round (List.combine K (schedule block)) st in
  (add32 a a', add32 b b', add32 c c', add32 d d',
   add32 e e', add32 f f', add32 g g', add32 h h').

Definition hexDigit (n : N) : ascii :=
  match String.get (N.to_nat n) "0123456789abcdef" with
  | Some a => a
  | None => "0"%char
  end.

(** The eight hexadecimal digits of a word. *)
Definition hexWord (x : N) : string :=
  List.fold_right
    (fun i s => String (hexDigit (N.land (N.shiftr x (4 * i)) 15)) s)
    EmptyString [7; 6; 5; 4; 3; 2; 1; 0].

(** [hex.EncodeToString(h.Sum(nil))] for a hasher [h] that has been written
    the bytes of [s]. *)
Definition Sum_hex (s : string) : string :=
  let bytes := pad (List.map N_of_ascii (list_ascii_of_string s)) in
  let '(a, b, c, d, e, f, g, h) :=
    List.fold_left compress (blocks (length bytes / 64) bytes) initial in
  String.concat "" (List.map hexWord [a; b; c; d; e; f; g; h]).

End sha256.

(** * Package [cache] *)

Module cache.

(** What [os.Open] followed by [io.Copy] delivers for a path: [None] when
    the file cannot be opened, otherwise the bytes copied. *)
Definition Disk := string -> option string.

Record ComponentCache := {
  Hash : string;
  FilesHash : string;
  LastGenerated : Time;
  Files : list string
}.

Record Cache := {
  Version : string;
  LastRun : Time;
  Components : gmap string ComponentCache
}.

Record Manager := {
  cachePath : string;
  cache : Cache;
  enabled : bool;
  ttl : Duration
}.

Definition withComponents (m : Manager) (cs : gmap string ComponentCache)
  : Manager :=
  {| cachePath := cachePath m;
     cache := {| Version := Version (cache m);
                 LastRun := LastRun (cache m);
                 Components := cs |};
     enabled := enabled m;
     ttl := ttl m |}.

Definition NewManager (path : string) (on : bool) (d : Duration) : Manager :=
  {| cachePath := path;
     cache := {| Version := "1.0"; LastRun := 0%Z; Components := ∅ |};
     enabled := on;
     ttl := d |}.

(** A value of the [map[string]interface{}] that [GetStats] returns. *)
Inductive StatValue :=
| VBool (b : bool)
| VTime (t : Time)
| VInt (n : Z).

(** The cache as [NewManager] and [Clear] make it. *)
Definition emptyCache : Cache :=
  {| Version := "1.0"; LastRun := 0%Z; Components := ∅ |}.

(** The two calls [Clear] makes on the operating system, over a state
    [World] of the disk: [os.Remove] and [os.IsNotExist]. *)
Record RemoveOps (World : Type) := {
  os_Remove : World -> string -> World * option error;
  os_IsNotExist : error -> bool
}.

Arguments os_Remove {World} _ _ _.
Arguments os_IsNotExist {World} _ _.

(** [Clear]: the manager and the disk it leaves, and the error returned. *)
Definition Clear {World : Type} (ops : RemoveOps World) (m : Manager)
    (w : World) : Manager * World * option error :=
  if negb (enabled m) then (m, w, None)
  else
    let m := {| cachePath := cachePath m; cache := emptyCache;
                enabled := enabled m; ttl := ttl m |} in
    let '(w', err) := os_Remove ops w (cachePath m) in
    match err with
    | Some e =>
        if negb (os_IsNotExist ops e)
        then (m, w', Some ("failed to remove cache: " +:+ e))
        else (m, w', None)
    | None => (m, w', None)
    end.

Section Digest.

(** [hex.EncodeToString(h.Sum(nil))] for a SHA-256 hasher [h] that has been
    written the given bytes: the function [sha256.Sum_hex].  The functions
    of the package use nothing of it but its value, so they are written
    for any function in its place. *)
Variable sha256_hex : string -> string.

(** One iteration of the loop of [hashFiles]: [h] holds the bytes written
    to the hasher so far. *)
Definition hashStep (disk : Disk) (h : string) (file : string) : string :=
  let h := h +:+ file in
  match disk file with
  | Some content => h +:+ content
  | None => h
  end.

Definition hashFiles (disk : Disk) (files : list string) : string :=
  sha256_hex (List.fold_left (hashStep disk) files "").

Definition hashComponent (disk : Disk) (name : string) (files : list string)
  : string :=
  sha256_hex (name +:+ hashFiles disk files).

Definition IsStale (m : Manager) (disk : Disk) (now : Time)
    (componentName : string) (files : list string) : bool :=
  if negb (enabled m) then true
  else
    match Components (cache m) !! componentName with
    | None => true
    | Some cached =>
        if (ttl m <? time_Since now (LastGenerated cached))%Z then true
        else
          let currentHash := hashFiles disk files in
          if negb (String.eqb currentHash (FilesHash cached)) then true
          else false
    end.

Definition Update (m : Manager) (disk : Disk) (now : Time)
    (componentName : string) (files : list string) : Manager :=
  if negb (enabled m) then m
  else
    withComponents m
      (<[componentName :=
           {| Hash := hashComponent disk componentName files;
              FilesHash := hashFiles disk files;
              LastGenerated := now;
              Files := files |}]> (Components (cache m))).

(** The second loop of [GetChangedComponents]: [i] counts the calls of
    [IsStale] made so far, the call numbered [i] reads the clock at
    [clock i]. *)
Fixpoint changedLoop (m : Manager) (disk : Disk) (clock : nat -> Time)
    (i : nat) (components : list (string * list string))
    (changed : list string) : list string :=
  match components with
  | [] => changed
  | (name, files) :: rest =>
      let changed :=
        if IsStale m disk (clock i) name files then changed ++ [name]
        else changed in
      changedLoop m disk clock (S i) rest changed
  end.

(** [GetChangedComponents]: the argument lists the entries of the map
    [components] in the order the [range] visits them. *)
Definition GetChangedComponents (m : Manager) (disk : Disk)
    (clock : nat -> Time) (components : list (string * list string))
  : list string :=
  if negb (enabled m) then
    List.fold_left (fun result '(name, _) => result ++ [name]) components []
  else changedLoop m disk clock 0 components [].

(** The loop of [GetStats] over the entries of the cache, in the order
    the [range] visits them; the call of [IsStale] numbered [i] reads the
    clock at [clock i]. *)
Fixpoint statsLoop (m : Manager) (disk : Disk) (clock : nat -> Time)
    (i : nat) (visit : list (string * ComponentCache))
    (unchanged stale : Z) : Z * Z :=
  match visit with
  | [] => (unchanged, stale)
  | (name, cached) :: rest =>
      if IsStale m disk (clock i) name (Files cached)
      then statsLoop m disk clock (S i) rest unchanged (stale + 1)%Z
      else statsLoop m disk clock (S i) rest (unchanged + 1)%Z stale
  end.

(** [GetStats]; [visit] lists the entries of [m.cache.Components] in the
    order the [range] visits them. *)
Definition GetStats (m : Manager) (disk : Disk) (clock : nat -> Time)
    (visit : list (string * ComponentCache)) : gmap string StatValue :=
  if negb (enabled m) then {[ "enabled" := VBool false ]}
  else
    let '(unchanged, stale) := statsLoop m disk clock 0 visit 0%Z 0%Z in
    <["enabled" := VBool true]>
      (<["last_run" := VTime (LastRun (cache m))]>
         (<["components" := VInt (Z.of_nat (size (Components (cache m))))]>
            (<["unchanged" := VInt unchanged]>
               (<["stale" := VInt stale]> ∅)))).

(** The bytes one listed file contributes to the hasher after its path. *)
Definition fileBytes (disk : Disk) (file : string) : string :=
  match disk file with Some content => content | None => "" end.

(** The whole byte stream written to the hasher. *)
Fixpoint hashInput (disk : Disk) (files : list string) : string :=
  match files with
  | [] => ""
  | file :: rest => file +:+ fileBytes disk file +:+ hashInput disk rest
  end.

End Digest.

End cache.

(** * Package [os] and [filepath.Walk] *)

Module os.

Record FileInfo := { IsDir : bool; Size : Z }.

Record DirEntry := { Name : string; EntryIsDir : bool }.

(** What [os.Lstat] finds at a path at the instant of a walk, together with
    what the walk will find below it: a directory carries the outcome of
    reading its names (in the sorted order [Walk] visits them) and, for each
    name, the outcome of its [Lstat].  A symbolic link, broken or not, is a
    [File]: [Lstat] does not follow it. *)
#[warnings="-register-all"]
Inductive Node :=
| File (size : Z)
| Dir (listing : result (list (string * result Node))).

Definition info (n : Node) : FileInfo :=
  match n with
  | File size => {| IsDir := false; Size := size |}
  | Dir _ => {| IsDir := true; Size := 0 |}
  end.

(** The answers of the operating system to the calls the analyzer makes. *)
Record Snapshot := {
  Stat : string -> result FileInfo;
  Lstat : string -> result Node;
  ReadFile : string -> result string;
  (** [os.ReadDir]: the entries read, and the error if reading stopped. *)
  ReadDir : string -> list DirEntry * option error;
  (** [filepath.Glob], its error (a malformed pattern) dropped. *)
  Glob : string -> list string
}.

(** What a [filepath.WalkFunc] is called with besides the path:
    [(info, nil)], [(info, err)] when the names of a directory cannot be
    read, [(nil, err)] when [Lstat] fails. *)
Inductive WalkArg :=
| Entry (fi : FileInfo)
| DirUnreadable (fi : FileInfo) (err : error)
| LstatFailed (err : error).

(** What a [filepath.WalkFunc] returns: [nil], [filepath.SkipDir], or
    another error. *)
Inductive WalkRet :=
| Continue
| SkipDir
| Fail (err : error).

Section Walk.

Context {St : Type}.
Variable walkFn : string -> WalkArg -> St -> St * WalkRet.

(** [filepath.walk]: the callback's mutable captures are the state [St]. *)
Fixpoint walk (path : string) (n : Node) (st : St) {struct n} : St * WalkRet :=
  match n with
  | File _ => walkFn path (Entry (info n)) st
  | Dir (Err err) => walkFn path (DirUnreadable (info n) err) st
  | Dir (Ok names) =>
      let '(st1, err1) := walkFn path (Entry (info n)) st in
      match err1 with
      | Continue =>
          (fix loop (names : list (string * result Node)) (st : St)
             : St * WalkRet :=
             match names with
             | [] => (st, Continue)
             | (name, Err err) :: rest =>
                 let filename := filepath_Join [path; name] in
                 let '(st', r) := walkFn filename (LstatFailed err) st in
                 match r with
                 | Fail e => (st', Fail e)
                 | _ => loop rest st'
                 end
             | (name, Ok child) :: rest =>
                 let filename := filepath_Join [path; name] in
                 let '(st', r) := walk filename child st in
                 match r with
                 | Continue => loop rest st'
                 | SkipDir =>
                     if IsDir (info child) then loop rest st'
                     else (st', SkipDir)
                 | Fail e => (st', Fail e)
                 end
             end) names st1
      | _ => (st1, err1)
      end
  end.

(** [filepath.Walk(root, walkFn)]: the final state and the error returned. *)
Definition Walk (fs : Snapshot) (root : string) (st : St)
  : St * option error :=
  let '(st', r) :=
    match Lstat fs root with
    | Err err => walkFn root (LstatFailed err) st
    | Ok n => walk root n st
    end in
  match r with
  | Fail e => (st', Some e)
  | _ => (st', None)
  end.

End Walk.

End os.

(** * Package [analyzer] *)

Module analyzer.

(** ** Types *)

Record Dependency := {
  DepName : string;
  DepVersion : string;
  DepType : string
}.

Record Endpoint := {
  EpMethod : string;
  EpPath : string;
  EpDescription : string
}.

Record Component := {
  Name : string;
  Type_ : string;
  Language : string;
  Path : string;
  Files : list string;
  Description : string;
  HasTests : bool;
  Dependencies : list Dependency;
  Endpoints : list Endpoint;
  EntryPoint : string
}.

Record FileInfo := {
  FiPath : string;
  FiSize : Z;
  FiLanguage : string;
  FiIsTest : bool
}.

Record RepoStructure := {
  RootPath : string;
  Components : list Component;
  FileTree : string;
  Languages : gmap string Z;
  TotalFiles : Z
}.

(** The struct decoded from a package manifest; a decoded object is listed
    in the order a [range] over the Go map visits it. *)
Record PackageJSON := {
  PkgDependencies : list (string * string);
  PkgDevDependencies : list (string * string)
}.

(** The parts of the Go library and run time taken as given: pattern
    matching on file names, the regular-expression engine (a pattern is
    passed as its source text), the JSON decoder for [PackageJSON], and the
    order in which a map is ranged over. *)
Class Library := {
  filepath_Match : string -> string -> bool;
  regexp_FindStringSubmatch : string -> string -> list string;
  regexp_FindAllStringSubmatch : string -> string -> list (list string);
  json_Unmarshal : string -> PackageJSON * option error;
  (** The order of a [range] over a Go map, which the language leaves open
      and which may change from one range to the next: the [i]-th range of
      a run visits the keys by increasing [rangeRank i]. *)
  rangeRank : nat -> string -> nat
}.

(** A component with every field at its zero value. *)
Definition zeroComponent : Component :=
  {| Name := ""; Type_ := ""; Language := ""; Path := ""; Files := [];
     Description := ""; HasTests := false; Dependencies := [];
     Endpoints := []; EntryPoint := "" |}.

Definition setName (c : Component) (v : string) : Component :=
  {| Name := v; Type_ := Type_ c; Language := Language c; Path := Path c;
     Files := Files c; Description := Description c; HasTests := HasTests c;
     Dependencies := Dependencies c; Endpoints := Endpoints c;
     EntryPoint := EntryPoint c |}.

Definition setType (c : Component) (v : string) : Component :=
  {| Name := Name c; Type_ := v; Language := Language c; Path := Path c;
     Files := Files c; Description := Description c; HasTests := HasTests c;
     Dependencies := Dependencies c; Endpoints := Endpoints c;
     EntryPoint := EntryPoint c |}.

Definition setLanguage (c : Component) (v : string) : Component :=
  {| Name := Name c; Type_ := Type_ c; Language := v; Path := Path c;
     Files := Files c; Description := Description c; HasTests := HasTests c;
     Dependencies := Dependencies c; Endpoints := Endpoints c;
     EntryPoint := EntryPoint c |}.

Definition setPath (c : Component) (v : string) : Component :=
  {| Name := Name c; Type_ := Type_ c; Language := Language c; Path := v;
     Files := Files c; Description := Description c; HasTests := HasTests c;
     Dependencies := Dependencies c; Endpoints := Endpoints c;
     EntryPoint := EntryPoint c |}.

Definition setFiles (c : Component) (v : list string) : Component :=
  {| Name := Name c; Type_ := Type_ c; Language := Language c; Path := Path c;
     Files := v; Description := Description c; HasTests := HasTests c;
     Dependencies := Dependencies c; Endpoints := Endpoints c;
     EntryPoint := EntryPoint c |}.

Definition setDescription (c : Component) (v : string) : Component :=
  {| Name := Name c; Type_ := Type_ c; Language := Language c; Path := Path c;
     Files := Files c; Description := v; HasTests := HasTests c;
     Dependencies := Dependencies c; Endpoints := Endpoints c;
     EntryPoint := EntryPoint c |}.

Definition setHasTests (c : Component) (v : bool) : Component :=
  {| Name := Name c; Type_ := Type_ c; Language := Language c; Path := Path c;
     Files := Files c; Description := Description c; HasTests := v;
     Dependencies := Dependencies c; Endpoints := Endpoints c;
     EntryPoint := EntryPoint c |}.

Definition setDependencies (c : Component) (v : list Dependency) : Component :=
  {| Name := Name c; Type_ := Type_ c; Language := Language c; Path := Path c;
     Files := Files c; Description := Description c; HasTests := HasTests c;
     Dependencies := v; Endpoints := Endpoints c;
     EntryPoint := EntryPoint c |}.

Definition setEndpoints (c : Component) (v : list Endpoint) : Component :=
  {| Name := Name c; Type_ := Type_ c; Language := Language c; Path := Path c;
     Files := Files c; Description := Description c; HasTests := HasTests c;
     Dependencies := Dependencies c; Endpoints := v;
     EntryPoint := EntryPoint c |}.

Record Scanner := {
  Scanner_rootPath : string;
  excludePatterns : list string
}.

Record Detector := { Detector_rootPath : string }.

Record MetadataExtractor := { Extractor_rootPath : string }.

Definition NewScanner (rootPath : string) (patterns : list string) : Scanner :=
  {| Scanner_rootPath := rootPath; excludePatterns := patterns |}.

Definition NewDetector (rootPath : string) : Detector :=
  {| Detector_rootPath := rootPath |}.

Definition NewMetadataExtractor (rootPath : string) : MetadataExtractor :=
  {| Extractor_rootPath := rootPath |}.

(** ** scanner.go *)

Definition testPatterns : list string :=
  ["_test.go"; "_test.py"; ".test.js"; ".test.ts"; ".spec.js"; ".spec.ts";
   "Test.java"].

Definition isTestFile (path : string) : bool :=
  let base := filepath_Base path in
  existsb (strings_HasSuffix base) testPatterns
  || strings_Contains path "/test/" || strings_Contains path "/tests/".

Definition languageMap : list (string * string) :=
  [(".go", "go"); (".py", "python"); (".js", "javascript");
   (".ts", "typescript"); (".jsx", "javascript"); (".tsx", "typescript");
   (".java", "java"); (".rs", "rust"); (".rb", "ruby"); (".php", "php");
   (".c", "c"); (".cpp", "cpp"); (".cs", "csharp"); (".kt", "kotlin");
   (".swift", "swift"); (".sh", "shell")].

Definition detectLanguage (path : string) : string :=
  let ext := strings_ToLower (filepath_Ext path) in
  match List.find (fun kv => String.eqb (fst kv) ext) languageMap with
  | Some (_, lang) => lang
  | None => ""
  end.

(** The double quote and the line feed, as one-byte strings. *)
Definition dq : string := String (ascii_of_nat 34) EmptyString.
Definition nl : string := String (ascii_of_nat 10) EmptyString.

Definition alwaysExclude : list string :=
  [".git"; ".docbrown"; "node_modules"; "vendor"; ".venv"; "venv";
   "__pycache__"; "dist"; "build"; "target"; ".next"; ".cache"].

Section Code.

Context {lib : Library}.
Variable fs : os.Snapshot.

Definition shouldExclude (s : Scanner) (path : string) : bool :=
  let relPath := orEmpty (filepath_Rel (Scanner_rootPath s) path) in
  existsb (strings_Contains relPath) alwaysExclude
  || existsb (fun pattern => filepath_Match pattern relPath) (excludePatterns s).

(** What the callback of [Scan] has accumulated: [files],
    [structure.Languages] and [structure.TotalFiles]. *)
Definition ScanState : Type := list FileInfo * gmap string Z * Z.

Definition countLanguage (languages : gmap string Z) (language : string)
  : gmap string Z :=
  <[language := (default 0 (languages !! language) + 1)%Z]> languages.

(** The function literal handed to [filepath.Walk] in [Scan]. *)
Definition scanFn (s : Scanner) (path : string) (arg : os.WalkArg)
    (st : ScanState) : ScanState * os.WalkRet :=
  match arg with
  | os.DirUnreadable _ err => (st, os.Fail err)
  | os.LstatFailed err => (st, os.Fail err)
  | os.Entry info =>
      if shouldExclude s path then
        if os.IsDir info then (st, os.SkipDir) else (st, os.Continue)
      else if os.IsDir info then (st, os.Continue)
      else
        let relPath := orEmpty (filepath_Rel (Scanner_rootPath s) path) in
        let language := detectLanguage path in
        let isTest := isTestFile path in
        let fileInfo :=
          {| FiPath := relPath; FiSize := os.Size info;
             FiLanguage := language; FiIsTest := isTest |} in
        let '(files, languages, total) := st in
        let languages :=
          if nonEmpty language then countLanguage languages language
          else languages in
        ((files ++ [fileInfo], languages, (total + 1)%Z), os.Continue)
  end.

(** [k] put into [l], a list in increasing rank, before the first key whose
    rank is not smaller. *)
Fixpoint insertByRank (rank : string -> nat) (k : string) (l : list string)
  : list string :=
  match l with
  | [] => [k]
  | k' :: l' =>
      if (rank k <=? rank k')%nat then k :: l
      else k' :: insertByRank rank k l'
  end.

(** The keys in the order the [i]-th range visits them. *)
Definition rangeOrder (i : nat) (keys : list string) : list string :=
  List.fold_right (insertByRank (rangeRank i)) [] keys.

(** The map [dirs] of [generateFileTree]: directory to the base names of
    its files, in the order of [files]. *)
Definition groupFile (dirs : gmap string (list string)) (file : FileInfo)
  : gmap string (list string) :=
  let dir := filepath_Dir (FiPath file) in
  let dir := if String.eqb dir "." then "" else dir in
  <[dir := default [] (dirs !! dir) ++ [filepath_Base (FiPath file)]]> dirs.

(** The first loop of [generateFileTree], over all the files. *)
Definition groupFiles (files : list FileInfo) : gmap string (list string) :=
  List.fold_left groupFile files ∅.

(** The keys of [dirs], as the map lists them. *)
Definition treeKeys (dirs : gmap string (list string)) : list string :=
  List.map fst (map_to_list dirs).

(** What [printDir] works on: the text built so far and the number of
    ranges begun. *)
Definition PrintState : Type := string * nat.

(** The first loop of [printDir]: one line for each file of the directory. *)
Definition writeFiles (indent : string) (files : list string) (sb : string)
  : string :=
  List.fold_left
    (fun sb file => sb +:+ (indent +:+ "├── " +:+ file +:+ nl)) files sb.

(** The body of the second loop of [printDir], at key [d]; [printDir'] is
    the call of [printDir] on a subdirectory. *)
Definition visitDir (printDir' : string -> string -> PrintState -> PrintState)
    (dir indent : string) (st : PrintState) (d : string) : PrintState :=
  if strings_HasPrefix d dir && negb (String.eqb d dir) then
    match strings_Split (strings_TrimPrefix d dir) "/" with
    | part :: _ =>
        if negb (String.eqb part "") then
          let '(sb, ranges) := st in
          printDir' d (indent +:+ "│   ")
            (sb +:+ (indent +:+ "├── " +:+ part +:+ "/" +:+ nl), ranges)
        else st
    | [] => st
    end
  else st.

(** The closure [printDir].  It calls itself on a key of which [dir] is a
    proper prefix, so on a longer one each time: [fuel] bounds the depth of
    the calls, and one more than the length of the longest key is enough. *)
Fixpoint printDir (dirs : gmap string (list string)) (fuel : nat)
    (dir indent : string) (st : PrintState) : PrintState :=
  match fuel with
  | O => st
  | S fuel' =>
      let '(sb, ranges) := st in
      let sb :=
        match dirs !! dir with
        | Some files => writeFiles indent files sb
        | None => sb
        end in
      List.fold_left (visitDir (printDir dirs fuel') dir indent)
        (rangeOrder ranges (treeKeys dirs)) (sb, S ranges)
  end.

(** The length of the longest key. *)
Definition longestKey (keys : list string) : nat :=
  List.fold_right (fun k n => Nat.max (String.length k) n) O keys.

(** The line of the root, then [printDir] from the root. *)
Definition generateFileTree (files : list FileInfo) : string :=
  let dirs := groupFiles files in
  let sb := "." +:+ nl in
  fst (printDir dirs (S (longestKey (treeKeys dirs))) "" "" (sb, O)).

Definition Scan (s : Scanner) : result RepoStructure :=
  let '((files, languages, total), err) :=
    os.Walk (scanFn s) fs (Scanner_rootPath s) ([], ∅, 0%Z) in
  match err with
  | Some e => Err ("failed to scan repository: " +:+ e)
  | None =>
      Ok {| RootPath := Scanner_rootPath s;
            Components := [];
            FileTree := generateFileTree files;
            Languages := languages;
            TotalFiles := total |}
  end.

(** ** detector.go *)

Definition fileExists (d : Detector) (path : string) : bool :=
  let fullPath := filepath_Join [Detector_rootPath d; path] in
  isOk (os.Stat fs fullPath).

Definition dirHasFile (dir pattern : string) : bool :=
  let matches := os.Glob fs (filepath_Join [dir; pattern]) in
  (0 <? length matches)%nat.

Definition dirContains (dir substring : string) : bool :=
  let files := fst (os.ReadDir fs dir) in
  existsb (fun file => strings_Contains (strings_ToLower (os.Name file)) substring)
          files.

Definition sourceExts : list string :=
  [".go"; ".py"; ".js"; ".ts"; ".jsx"; ".tsx"; ".java"; ".rs"; ".rb"; ".php";
   ".c"; ".cpp"].

Definition isSourceFile (path : string) : bool :=
  let ext := strings_ToLower (filepath_Ext path) in
  existsb (String.eqb ext) sourceExts.

Definition detectGoComponentType (d : Detector) : string :=
  if fileExists d "cmd" || fileExists d "main.go" then "service" else "library".

Definition detectPythonComponentType (d : Detector) : string :=
  if fileExists d "Dockerfile" then "service" else "library".

Definition detectNodeComponentType (d : Detector) : string :=
  if fileExists d "Dockerfile" then "service" else "library".

Definition extractGoModuleName (d : Detector) : string :=
  filepath_Base (Detector_rootPath d).

Definition extractPythonPackageName (d : Detector) : string :=
  filepath_Base (Detector_rootPath d).

Definition extractNodePackageName (d : Detector) : string :=
  filepath_Base (Detector_rootPath d).

Definition analyzeDirectory (d : Detector) (dir : string) : option Component :=
  let comp := setName (setPath zeroComponent dir) (filepath_Base dir) in
  let comp :=
    if dirHasFile dir "*.go" then setLanguage comp "go"
    else if dirHasFile dir "*.py" then setLanguage comp "python"
    else if dirHasFile dir "*.ts" || dirHasFile dir "*.js"
         then setLanguage comp "typescript"
    else if dirHasFile dir "*.rs" then setLanguage comp "rust"
    else if dirHasFile dir "*.java" then setLanguage comp "java"
    else if dirHasFile dir "*.rb" then setLanguage comp "ruby"
    else if dirHasFile dir "*.cs" then setLanguage comp "csharp"
    else comp in
  let comp :=
    if dirHasFile dir "Dockerfile" then setType comp "service"
    else if dirHasFile dir "package.json" then
      if dirContains dir "react" || dirContains dir "vue"
         || dirContains dir "angular"
      then setType comp "frontend"
      else setType comp "service"
    else setType comp "library" in
  Some comp.

Definition monorepoPatterns : list string :=
  ["services/*"; "apps/*"; "packages/*"; "libs/*"].

Definition detectMonorepo (d : Detector) : list Component :=
  List.flat_map
    (fun pattern =>
       let dirs := os.Glob fs (filepath_Join [Detector_rootPath d; pattern]) in
       List.flat_map
         (fun dir =>
            match os.Stat fs dir with
            | Ok info =>
                if os.IsDir info then
                  match analyzeDirectory d dir with
                  | Some comp => [comp]
                  | None => []
                  end
                else []
            | Err _ => []
            end)
         dirs)
    monorepoPatterns.

Definition detectSingleComponent (d : Detector) : option Component :=
  let comp := setPath zeroComponent "." in
  if fileExists d "go.mod" then
    let comp := setLanguage comp "go" in
    let comp := setType comp (detectGoComponentType d) in
    Some (setName comp (extractGoModuleName d))
  else if fileExists d "setup.py" || fileExists d "pyproject.toml" then
    let comp := setLanguage comp "python" in
    let comp := setType comp (detectPythonComponentType d) in
    Some (setName comp (extractPythonPackageName d))
  else if fileExists d "package.json" then
    let comp := setLanguage comp "javascript" in
    let comp := setType comp (detectNodeComponentType d) in
    Some (setName comp (extractNodePackageName d))
  else if fileExists d "Cargo.toml" then
    let comp := setLanguage comp "rust" in
    let comp := setType comp "service" in
    Some (setName comp (filepath_Base (Detector_rootPath d)))
  else if fileExists d "pom.xml" || fileExists d "build.gradle"
          || fileExists d "build.gradle.kts" then
    let comp := setLanguage comp "java" in
    let comp := setType comp "service" in
    Some (setName comp (filepath_Base (Detector_rootPath d)))
  else if fileExists d "Gemfile" then
    let comp := setLanguage comp "ruby" in
    let comp :=
      if fileExists d "config/routes.rb" then setType comp "service"
      else setType comp "library" in
    Some (setName comp (filepath_Base (Detector_rootPath d)))
  else if dirHasFile "." "*.csproj" || fileExists d "*.sln" then
    let comp := setLanguage comp "csharp" in
    let comp := setType comp "service" in
    Some (setName comp (filepath_Base (Detector_rootPath d)))
  else None.

Definition entryPoints : list string := ["cmd/*"; "src/main.*"; "main.*"].

Definition detectByDirectory (d : Detector) : list Component :=
  List.flat_map
    (fun pattern =>
       let matches := os.Glob fs (filepath_Join [Detector_rootPath d; pattern]) in
       List.flat_map
         (fun m =>
            match analyzeDirectory d (filepath_Dir m) with
            | Some comp => [comp]
            | None => []
            end)
         matches)
    entryPoints.

(** The function literal handed to [filepath.Walk] in
    [collectComponentFiles]; the state is [files]. *)
Definition collectFn (d : Detector) (filePath : string) (arg : os.WalkArg)
    (files : list string) : list string * os.WalkRet :=
  match arg with
  | os.DirUnreadable _ _ => (files, os.Continue)
  | os.LstatFailed _ => (files, os.Continue)
  | os.Entry info =>
      if os.IsDir info then
        let base := filepath_Base filePath in
        if String.eqb base "node_modules" || String.eqb base "vendor"
           || String.eqb base ".git"
        then (files, os.SkipDir)
        else (files, os.Continue)
      else if isSourceFile filePath then
        let relPath := orEmpty (filepath_Rel (Detector_rootPath d) filePath) in
        (files ++ [relPath], os.Continue)
      else (files, os.Continue)
  end.

Definition collectComponentFiles (d : Detector) (path : string) : list string :=
  fst (os.Walk (collectFn d) fs path []).

(** The function literal of [hasTests]; the state is the flag. *)
Definition hasTestsFn (filePath : string) (arg : os.WalkArg) (found : bool)
  : bool * os.WalkRet :=
  if isTestFile filePath then (true, os.SkipDir) else (found, os.Continue).

Definition hasTests (d : Detector) (path : string) : bool :=
  fst (os.Walk hasTestsFn fs path false).

Definition Detector_extractGoDependencies (d : Detector) (path : string)
  : list Dependency := [].

Definition Detector_extractPythonDependencies (d : Detector) (path : string)
  : list Dependency := [].

Definition Detector_extractNodeDependencies (d : Detector) (path : string)
  : list Dependency := [].

Definition Detector_extractDependencies (d : Detector) (comp : Component)
  : list Dependency :=
  if String.eqb (Language comp) "go"
  then Detector_extractGoDependencies d (Path comp)
  else if String.eqb (Language comp) "python"
  then Detector_extractPythonDependencies d (Path comp)
  else if String.eqb (Language comp) "javascript"
          || String.eqb (Language comp) "typescript"
  then Detector_extractNodeDependencies d (Path comp)
  else [].

Definition generateDescription (comp : Component) : string :=
  "A " +:+ Language comp +:+ " " +:+ Type_ comp +:+ " component".

Definition enrichComponent (d : Detector) (comp : Component)
    (structure : RepoStructure) : Component :=
  let comp := setFiles comp (collectComponentFiles d (Path comp)) in
  let comp := setHasTests comp (hasTests d (Path comp)) in
  let comp := setDependencies comp (Detector_extractDependencies d comp) in
  if String.eqb (Description comp) ""
  then setDescription comp (generateDescription comp)
  else comp.

(** The components chosen by the three strategies, before enrichment. *)
Definition detectStrategies (d : Detector) : list Component :=
  let components := [] ++ detectMonorepo d in
  let components :=
    if (length components =? 0)%nat then
      match detectSingleComponent d with
      | Some comp => components ++ [comp]
      | None => components
      end
    else components in
  let components :=
    if (length components =? 0)%nat
    then components ++ detectByDirectory d
    else components in
  components.

Definition DetectComponents (d : Detector) (structure : RepoStructure)
  : result (list Component) :=
  let components := detectStrategies d in
  let components :=
    List.map (fun comp => enrichComponent d comp structure) components in
  Ok components.

(** ** metadata.go *)

Definition external (name version : string) : Dependency :=
  {| DepName := name; DepVersion := version; DepType := "external" |}.

(** [filepath.Join(path, name)], replaced by [name] when [path] is the
    current directory: the opening lines of every extractor. *)
Definition manifestPath (path name : string) : string :=
  if String.eqb path "." then name else filepath_Join [path; name].

(** The body of the loop over the lines of go.mod; the state is
    [inRequire] and [deps]. *)
Definition goModLine (st : bool * list Dependency) (line : string)
  : bool * list Dependency :=
  let '(inRequire, deps) := st in
  let line := strings_TrimSpace line in
  if strings_HasPrefix line "require (" then (true, deps)
  else if inRequire && String.eqb line ")" then (false, deps)
  else if strings_HasPrefix line "require " || inRequire then
    let parts := strings_Fields (strings_TrimPrefix line "require ") in
    if (2 <=? length parts)%nat
    then (inRequire, deps ++ [external (nth 0 parts "") (nth 1 parts "")])
    else (inRequire, deps)
  else (inRequire, deps).

Definition extractGoDependencies (m : MetadataExtractor) (path : string)
  : list Dependency :=
  let goModPath := manifestPath path "go.mod" in
  match os.ReadFile fs goModPath with
  | Err _ => []
  | Ok content =>
      let lines := strings_Split content nl in
      snd (List.fold_left goModLine lines (false, []))
  end.

Definition requirementsLine (deps : list Dependency) (line : string)
  : list Dependency :=
  let line := strings_TrimSpace line in
  if String.eqb line "" || strings_HasPrefix line "#" then deps
  else
    let matches :=
      regexp_FindStringSubmatch "^([a-zA-Z0-9_-]+)([>=<~!]+)?(.*)$" line in
    if (2 <=? length matches)%nat then
      let name := nth 1 matches "" in
      let version := if (4 <=? length matches)%nat then nth 3 matches "" else "" in
      deps ++ [external name version]
    else deps.

(** The body shared by the loops over pyproject.toml and Cargo.toml, which
    differ in how a line is recognised as the header of the section; the
    state is [inDeps] and [deps]. *)
Definition sectionLine (isHeader : string -> bool)
    (st : bool * list Dependency) (line : string) : bool * list Dependency :=
  let '(inDeps, deps) := st in
  let line := strings_TrimSpace line in
  if isHeader line then (true, deps)
  else if inDeps && strings_HasPrefix line "[" then (false, deps)
  else if inDeps && strings_Contains line "=" then
    let parts := strings_Split line "=" in
    if (2 <=? length parts)%nat then
      let name := strings_TrimSpace (nth 0 parts "") in
      let version :=
        strings_Trim (strings_TrimSpace (nth 1 parts "")) (dq +:+ "'") in
      (inDeps, deps ++ [external name version])
    else (inDeps, deps)
  else (inDeps, deps).

Definition pyprojectHeader (line : string) : bool :=
  strings_Contains line "[tool.poetry.dependencies]"
  || strings_Contains line "[project.dependencies]".

Definition cargoHeader (line : string) : bool :=
  strings_HasPrefix line "[dependencies]".

Definition extractPythonDependencies (m : MetadataExtractor) (path : string)
  : list Dependency :=
  let reqPath := manifestPath path "requirements.txt" in
  match os.ReadFile fs reqPath with
  | Ok content =>
      let lines := strings_Split content nl in
      List.fold_left requirementsLine lines []
  | Err _ =>
      let pyprojectPath := manifestPath path "pyproject.toml" in
      match os.ReadFile fs pyprojectPath with
      | Err _ => []
      | Ok content =>
          let lines := strings_Split content nl in
          snd (List.fold_left (sectionLine pyprojectHeader) lines (false, []))
      end
  end.

Definition extractNodeDependencies (m : MetadataExtractor) (path : string)
  : list Dependency :=
  let pkgPath := manifestPath path "package.json" in
  match os.ReadFile fs pkgPath with
  | Err _ => []
  | Ok content =>
      match json_Unmarshal content with
      | (_, Some _) => []
      | (pkg, None) =>
          List.fold_left
            (fun deps '(name, version) => deps ++ [external name version])
            (PkgDependencies pkg) []
      end
  end.

Definition extractRustDependencies (m : MetadataExtractor) (path : string)
  : list Dependency :=
  let cargoPath := manifestPath path "Cargo.toml" in
  match os.ReadFile fs cargoPath with
  | Err _ => []
  | Ok content =>
      let lines := strings_Split content nl in
      snd (List.fold_left (sectionLine cargoHeader) lines (false, []))
  end.

(** [m[i]] for a match [m]: group [i] of a regular-expression match. *)
Definition group (i : nat) (m : list string) : string := nth i m "".

(** The loop [for i := 0; i < len(groups) && i < len(artifacts); i++] of
    the Maven branch; [fuel] bounds the iterations and is given the value
    [len(groups)], which the loop condition never lets [i] reach. *)
Fixpoint pomLoop (fuel i : nat) (groups artifacts versions : list (list string))
    (deps : list Dependency) : list Dependency :=
  match fuel with
  | O => deps
  | S fuel' =>
      if (i <? length groups)%nat && (i <? length artifacts)%nat then
        let version :=
          if (i <? length versions)%nat then group 1 (nth i versions [])
          else "" in
        pomLoop fuel' (S i) groups artifacts versions
          (deps ++ [external (group 1 (nth i groups []) +:+ ":"
                              +:+ group 1 (nth i artifacts [])) version])
      else deps
  end.

Definition gradleLine (deps : list Dependency) (line : string)
  : list Dependency :=
  let line := strings_TrimSpace line in
  if strings_Contains line "implementation" || strings_Contains line "compile"
  then
    let matches :=
      regexp_FindStringSubmatch
        ("['" +:+ dq +:+ "]([^:]+):([^:]+):([^'" +:+ dq +:+ "]+)['" +:+ dq +:+ "]")
        line in
    if (4 <=? length matches)%nat
    then deps ++ [external (group 1 matches +:+ ":" +:+ group 2 matches)
                           (group 3 matches)]
    else deps
  else deps.

Definition extractJavaDependencies (m : MetadataExtractor) (path : string)
  : list Dependency :=
  let pomPath := manifestPath path "pom.xml" in
  match os.ReadFile fs pomPath with
  | Ok text =>
      let groups := regexp_FindAllStringSubmatch "<groupId>([^<]+)</groupId>" text in
      let artifacts :=
        regexp_FindAllStringSubmatch "<artifactId>([^<]+)</artifactId>" text in
      let versions := regexp_FindAllStringSubmatch "<version>([^<]+)</version>" text in
      pomLoop (length groups) 0 groups artifacts versions []
  | Err _ =>
      let gradlePath := manifestPath path "build.gradle" in
      match os.ReadFile fs gradlePath with
      | Err _ => []
      | Ok content =>
          let lines := strings_Split content nl in
          List.fold_left gradleLine lines []
      end
  end.

Definition gemLine (deps : list Dependency) (line : string)
  : list Dependency :=
  let line := strings_TrimSpace line in
  if strings_HasPrefix line "gem " then
    let matches :=
      regexp_FindStringSubmatch
        ("gem\s+['" +:+ dq +:+ "]([^'" +:+ dq +:+ "]+)['" +:+ dq
         +:+ "]\s*,?\s*['" +:+ dq +:+ "]?([^'" +:+ dq +:+ "]*)['" +:+ dq +:+ "]?")
        line in
    if (2 <=? length matches)%nat then
      let name := group 1 matches in
      let version := if (3 <=? length matches)%nat then group 2 matches else "" in
      deps ++ [external name version]
    else deps
  else deps.

Definition extractRubyDependencies (m : MetadataExtractor) (path : string)
  : list Dependency :=
  let gemfilePath := manifestPath path "Gemfile" in
  match os.ReadFile fs gemfilePath with
  | Err _ => []
  | Ok content =>
      let lines := strings_Split content nl in
      List.fold_left gemLine lines []
  end.

Definition packageReferences (deps : list Dependency) (text : string)
  : list Dependency :=
  let matches :=
    regexp_FindAllStringSubmatch
      ("<PackageReference\s+Include=" +:+ dq +:+ "([^" +:+ dq +:+ "]+)" +:+ dq
       +:+ "\s+Version=" +:+ dq +:+ "([^" +:+ dq +:+ "]+)" +:+ dq)
      text in
  List.fold_left
    (fun deps mt =>
       if (3 <=? length mt)%nat
       then deps ++ [external (group 1 mt) (group 2 mt)]
       else deps)
    matches deps.

Definition csprojEntry (path : string) (deps : list Dependency)
    (file : os.DirEntry) : list Dependency :=
  if negb (os.EntryIsDir file) && strings_HasSuffix (os.Name file) ".csproj"
  then
    let csprojPath := filepath_Join [path; os.Name file] in
    match os.ReadFile fs csprojPath with
    | Err _ => deps
    | Ok content => packageReferences deps content
    end
  else deps.

Definition extractCSharpDependencies (m : MetadataExtractor) (path : string)
  : list Dependency :=
  match os.ReadDir fs path with
  | (_, Some _) => []
  | (files, None) => List.fold_left (csprojEntry path) files []
  end.

Definition ExtractDependencies (m : MetadataExtractor) (comp : Component)
  : list Dependency :=
  let lang := Language comp in
  if String.eqb lang "go" then extractGoDependencies m (Path comp)
  else if String.eqb lang "python" then extractPythonDependencies m (Path comp)
  else if String.eqb lang "javascript" || String.eqb lang "typescript"
  then extractNodeDependencies m (Path comp)
  else if String.eqb lang "rust" then extractRustDependencies m (Path comp)
  else if String.eqb lang "java" then extractJavaDependencies m (Path comp)
  else if String.eqb lang "ruby" then extractRubyDependencies m (Path comp)
  else if String.eqb lang "csharp" then extractCSharpDependencies m (Path comp)
  else [].

Definition endpointPatterns : list string :=
  [ "\.Handle\(" +:+ dq +:+ "([^" +:+ dq +:+ "]+)" +:+ dq;
    "\.HandleFunc\(" +:+ dq +:+ "([^" +:+ dq +:+ "]+)" +:+ dq;
    "router\.([A-Z]+)\(" +:+ dq +:+ "([^" +:+ dq +:+ "]+)" +:+ dq;
    "app\.get\(" +:+ dq +:+ "([^" +:+ dq +:+ "]+)" +:+ dq;
    "app\.post\(" +:+ dq +:+ "([^" +:+ dq +:+ "]+)" +:+ dq;
    "app\.put\(" +:+ dq +:+ "([^" +:+ dq +:+ "]+)" +:+ dq;
    "app\.delete\(" +:+ dq +:+ "([^" +:+ dq +:+ "]+)" +:+ dq;
    "@app\.get\(" +:+ dq +:+ "([^" +:+ dq +:+ "]+)" +:+ dq +:+ "\)";
    "@app\.post\(" +:+ dq +:+ "([^" +:+ dq +:+ "]+)" +:+ dq +:+ "\)" ].

Definition endpointOfMatch (endpoints : list Endpoint) (mt : list string)
  : list Endpoint :=
  if (2 <=? length mt)%nat then
    let path := group 1 mt in
    let whole := group 0 mt in
    let method :=
      if strings_Contains whole "post" || strings_Contains whole "POST"
      then "POST"
      else if strings_Contains whole "put" || strings_Contains whole "PUT"
      then "PUT"
      else if strings_Contains whole "delete" || strings_Contains whole "DELETE"
      then "DELETE"
      else "GET" in
    endpoints ++ [{| EpMethod := method; EpPath := path;
                     EpDescription := method +:+ " endpoint" |}]
  else endpoints.

Definition extractEndpoints (m : MetadataExtractor) (comp : Component)
  : list Endpoint :=
  List.fold_left
    (fun endpoints file =>
       match os.ReadFile fs file with
       | Err _ => endpoints
       | Ok text =>
           List.fold_left
             (fun endpoints pattern =>
                List.fold_left endpointOfMatch
                  (regexp_FindAllStringSubmatch pattern text) endpoints)
             endpointPatterns endpoints
       end)
    (Files comp) [].

Definition ExtractMetadata (m : MetadataExtractor) (comp : Component)
  : Component :=
  setEndpoints comp (extractEndpoints m comp).

(** ** analyzer.go *)

Record Analyzer := {
  Analyzer_rootPath : string;
  Analyzer_excludePatterns : list string;
  scanner : Scanner;
  detector : Detector;
  metadata : MetadataExtractor
}.

Definition NewAnalyzer (rootPath : string) (patterns : list string) : Analyzer :=
  {| Analyzer_rootPath := rootPath;
     Analyzer_excludePatterns := patterns;
     scanner := NewScanner rootPath patterns;
     detector := NewDetector rootPath;
     metadata := NewMetadataExtractor rootPath |}.

Definition setComponents (s : RepoStructure) (cs : list Component)
  : RepoStructure :=
  {| RootPath := RootPath s; Components := cs; FileTree := FileTree s;
     Languages := Languages s; TotalFiles := TotalFiles s |}.

(** [Analyze], without its progress messages. *)
Definition Analyze (a : Analyzer) : result RepoStructure :=
  match Scan (scanner a) with
  | Err e => Err ("scan failed: " +:+ e)
  | Ok structure =>
      match DetectComponents (detector a) structure with
      | Err e => Err ("component detection failed: " +:+ e)
      | Ok components =>
          let components :=
            List.map
              (fun comp =>
                 let comp :=
                   setDependencies comp (ExtractDependencies (metadata a) comp) in
                 ExtractMetadata (metadata a) comp)
              components in
          Ok (setComponents structure components)
      end
  end.

End Code.

End analyzer.

(** * Package [llm]: the type handed to the model *)

Module llm.

Record FileContent := { Path : string; Content : string }.

End llm.

(** * Package [orchestrator]: the use of the cache and of the files *)

Module orchestrator.

(** The field of [Orchestrator] the functions below read. *)
Record Orchestrator := { cacheManager : cache.Manager }.

Section Cache.

Variable sha256_hex : string -> string.

(** The loop of [getComponentsToGenerate]: the call of [IsStale] numbered
    [i] reads the clock at [clock i]. *)
Fixpoint staleLoop (o : Orchestrator) (disk : cache.Disk)
    (clock : nat -> Time) (i : nat) (rest : list analyzer.Component)
    (components : list analyzer.Component) : list analyzer.Component :=
  match rest with
  | [] => components
  | comp :: rest =>
      let components :=
        if cache.IsStale sha256_hex (cacheManager o) disk (clock i)
             (analyzer.Name comp) (analyzer.Files comp)
        then components ++ [comp]
        else components in
      staleLoop o disk clock (S i) rest components
  end.

Definition getComponentsToGenerate (o : Orchestrator) (disk : cache.Disk)
    (clock : nat -> Time) (structure : analyzer.RepoStructure)
  : list analyzer.Component :=
  staleLoop o disk clock 0 (analyzer.Components structure) [].

(** Step 8 of [ExecuteGenerate]: the loop that updates the cache for the
    components generated; iteration [i] reads the clock at [clock i]. *)
Fixpoint updateGenerated (o : Orchestrator) (disk : cache.Disk)
    (clock : nat -> Time) (i : nat) (componentsToGen : list analyzer.Component)
  : Orchestrator :=
  match componentsToGen with
  | [] => o
  | comp :: rest =>
      let o := {| cacheManager :=
                    cache.Update sha256_hex (cacheManager o) disk (clock i)
                      (analyzer.Name comp) (analyzer.Files comp) |} in
      updateGenerated o disk clock (S i) rest
  end.

End Cache.

(** The helper [contains]. *)
Definition contains (s substr : string) : bool :=
  (0 <? String.length s)%nat && (0 <? String.length substr)%nat
  && (String.eqb s substr
      || ((String.length substr <=? String.length s)%nat
          && (String.eqb (String.substring 0 (String.length substr) s) substr
              || String.eqb
                   (String.substring (String.length s - String.length substr)
                      (String.length substr) s)
                   substr))).

Definition maxFiles : nat := 20.

Definition priorityPatterns : list string :=
  ["main."; "README"; "index."; "app."; "server."; "routes"; "handler";
   "controller"; "api"].

(** The inner loop of [selectKeyFiles] over the patterns: whether the file
    is appended to [priority]. *)
Fixpoint isPriority (file : string) (patterns : list string) : bool :=
  match patterns with
  | [] => false
  | pattern :: rest =>
      if contains file pattern then true else isPriority file rest
  end.

(** The body of the first loop; the state is [priority] and [others]. *)
Definition classify (st : list string * list string) (file : string)
  : list string * list string :=
  let '(priority, others) := st in
  if isPriority file priorityPatterns then (priority ++ [file], others)
  else (priority, others ++ [file]).

Section Files.

Variable fs : os.Snapshot.

Definition readFileContent (path : string) : result string :=
  match os.ReadFile fs path with
  | Err err => Err err
  | Ok content =>
      if (50000 <? Z.of_nat (String.length content))%Z
      then Ok (String.substring 0 (Z.to_nat 50000) content)
      else Ok content
  end.

(** The second and the third loop of [selectKeyFiles], which differ in
    the list they range over. *)
Fixpoint takeFiles (files : list string) (keyFiles : list llm.FileContent)
  : list llm.FileContent :=
  match files with
  | [] => keyFiles
  | file :: rest =>
      if (maxFiles <=? length keyFiles)%nat then keyFiles
      else
        match readFileContent file with
        | Ok content =>
            takeFiles rest
              (keyFiles ++ [{| llm.Path := file; llm.Content := content |}])
        | Err _ => takeFiles rest keyFiles
        end
  end.

Definition selectKeyFiles (o : Orchestrator) (comp : analyzer.Component)
  : list llm.FileContent :=
  let '(priority, others) :=
    List.fold_left classify (analyzer.Files comp) ([], []) in
  let keyFiles := takeFiles priority [] in
  takeFiles others keyFiles.

End Files.

End orchestrator.

(** * Notions used to state the properties *)

Section Notions.

Context {lib : analyzer.Library}.
Variable fs : os.Snapshot.

(** The manifest signatures of the single-component strategy, in the order
    of priority the specification gives them, each with the language it
    stands for and whether the repository root shows it. *)
Definition signatures (d : analyzer.Detector) : list (string * bool) :=
  [ ("go", analyzer.fileExists fs d "go.mod");
    ("python", analyzer.fileExists fs d "setup.py"
               || analyzer.fileExists fs d "pyproject.toml");
    ("javascript", analyzer.fileExists fs d "package.json");
    ("rust", analyzer.fileExists fs d "Cargo.toml");
    ("java", analyzer.fileExists fs d "pom.xml"
             || analyzer.fileExists fs d "build.gradle"
             || analyzer.fileExists fs d "build.gradle.kts");
    ("ruby", analyzer.fileExists fs d "Gemfile");
    ("csharp", analyzer.dirHasFile fs "." "*.csproj"
               || analyzer.fileExists fs d "*.sln") ].

(** The language of the first signature present, if any. *)
Definition firstSignature (d : analyzer.Detector) : option string :=
  option_map fst (List.find snd (signatures d)).

(** The error the walk of [Scan] meets first, if it meets one: a directory
    whose names cannot be read, or an entry that cannot be examined, unless
    it lies below a directory the scan leaves out. *)
Fixpoint firstError (s : analyzer.Scanner) (path : string) (n : os.Node)
  : option error :=
  match n with
  | os.File _ => None
  | os.Dir (Err err) => Some err
  | os.Dir (Ok names) =>
      if analyzer.shouldExclude s path then None
      else
        (fix each (names : list (string * result os.Node)) : option error :=
           match names with
           | [] => None
           | (name, Err err) :: _ => Some err
           | (name, Ok child) :: rest =>
               match firstError s (filepath_Join [path; name]) child with
               | Some err => Some err
               | None => each rest
               end
           end) names
  end.

(** The files a component of the given language is read from. *)
Definition manifestFiles (language : string) : list string :=
  if String.eqb language "go" then ["go.mod"]
  else if String.eqb language "python" then ["requirements.txt"; "pyproject.toml"]
  else if String.eqb language "javascript" || String.eqb language "typescript"
  then ["package.json"]
  else if String.eqb language "rust" then ["Cargo.toml"]
  else if String.eqb language "java" then ["pom.xml"; "build.gradle"]
  else if String.eqb language "ruby" then ["Gemfile"]
  else [].

(** The project files a C# component is read from: found by listing its
    directory. *)
Definition projectFiles (path : string) : list os.DirEntry :=
  List.filter
    (fun file => negb (os.EntryIsDir file)
                 && strings_HasSuffix (os.Name file) ".csproj")
    (fst (os.ReadDir fs path)).

(** No manifest of the component can be read: none of the files named for
    its language and, for a C# component, none of the project files of its
    directory, which cannot be listed or holds no project file that can be
    read. *)
Definition manifestsMissing (comp : analyzer.Component) : Prop :=
  (forall name, In name (manifestFiles (analyzer.Language comp)) ->
     isOk (os.ReadFile fs (analyzer.manifestPath (analyzer.Path comp) name)) = false)
  /\ (analyzer.Language comp = "csharp" ->
      snd (os.ReadDir fs (analyzer.Path comp)) <> None
      \/ Forall
           (fun file =>
              isOk (os.ReadFile fs
                      (filepath_Join [analyzer.Path comp; os.Name file]))
              = false)
           (projectFiles (analyzer.Path comp))).

End Notions.

(** The dependency the Maven branch forms at position [i] of the matches. *)
Definition pomDependency (groups artifacts versions : list (list string))
    (i : nat) : analyzer.Dependency :=
  analyzer.external
    (analyzer.group 1 (nth i groups []) +:+ ":"
     +:+ analyzer.group 1 (nth i artifacts []))
    (if (i <? length versions)%nat then analyzer.group 1 (nth i versions [])
     else "").

(** The digest does not collide on the two byte streams: it gives them the
    same value only if they are the same stream.  A digest of fixed length
    cannot have this property for every pair of streams; it is asked of one
    pair at a time. *)
Definition noCollision (digest : string -> string) (a b : string) : Prop :=
  digest a = digest b -> a = b.

(** The error carried by the return value of a walk callback, if any. *)
Definition retError (r : os.WalkRet) : option error :=
  match r with os.Fail err => Some err | _ => None end.

(** A name as a directory lists it: not empty, without a slash, and neither
    of the two dot entries. *)
Definition plainName (name : string) : bool :=
  nonEmpty name && negb (strings_Contains name "/")
  && negb (String.eqb name ".") && negb (String.eqb name "..").

(** A relative path made of plain names. *)
Definition plainRelative (p : string) : Prop :=
  exists elems,
    elems <> [] /\ forallb plainName elems = true /\ p = strings_Join elems "/".

(** Every name listed in the node, at any depth, satisfies [okName]. *)
Fixpoint namesIn (okName : string -> bool) (n : os.Node) : bool :=
  match n with
  | os.File _ => true
  | os.Dir (Err _) => true
  | os.Dir (Ok names) =>
      (fix each (l : list (string * result os.Node)) : bool :=
         match l with
         | [] => true
         | (name, r) :: rest =>
             okName name
             && match r with Ok child => namesIn okName child | Err _ => true end
             && each rest
         end) names
  end.

(** What [collectComponentFiles] records for a source file it visits at a
    path [p] with the property [Q]: the form of [p] relative to the
    detector's root. *)
Definition recordedBy (root : string) (Q : string -> Prop) (f : string) : Prop :=
  exists p, Q p /\ analyzer.isSourceFile p = true
            /\ f = orEmpty (filepath_Rel root p).

(** ** Notions of the further properties *)

Section FurtherNotions.

Context {lib : analyzer.Library}.
Variable fs : os.Snapshot.

(** The files the walk of [Scan] has recorded when it ends. *)
Definition scanned (s : analyzer.Scanner) : list analyzer.FileInfo :=
  fst (fst (fst (os.Walk (analyzer.scanFn s) fs (analyzer.Scanner_rootPath s)
                   ([], ∅, 0%Z)))).

(** How many of the files have the given language. *)
Definition filesOf (language : string) (files : list analyzer.FileInfo) : nat :=
  length (List.filter
            (fun f => String.eqb (analyzer.FiLanguage f) language) files).

(** The statistics [Scan] keeps agree with the files recorded: the total is
    their number, and the count of a language is the number of files of
    that language, with no entry for a language without files and none
    for the empty language. *)
Definition countsAgree (st : analyzer.ScanState) : Prop :=
  let '(files, languages, total) := st in
  total = Z.of_nat (length files)
  /\ forall language,
       languages !! language
       = if String.eqb language "" || (filesOf language files =? 0)%nat
         then None
         else Some (Z.of_nat (filesOf language files)).

(** What [Scan] records for a path [p] it keeps. *)
Definition keptBy (s : analyzer.Scanner) (f : analyzer.FileInfo) : Prop :=
  exists p,
    analyzer.shouldExclude s p = false
    /\ analyzer.FiPath f
       = orEmpty (filepath_Rel (analyzer.Scanner_rootPath s) p)
    /\ analyzer.FiLanguage f = analyzer.detectLanguage p
    /\ analyzer.FiIsTest f = analyzer.isTestFile p.

End FurtherNotions.

(** A recorded file that lies in the scanned root itself, not in a
    directory below it. *)
Definition atRoot (f : analyzer.FileInfo) : bool :=
  String.eqb (filepath_Dir (analyzer.FiPath f)) ".".

(** The line of the file tree for an entry of the root. *)
Definition treeLine (name : string) : string :=
  "├── " +:+ name +:+ analyzer.nl.

(** The lines of the files in the root, in the order they were recorded. *)
Definition rootLines (files : list analyzer.FileInfo) : string :=
  String.concat ""
    (List.map (fun f => treeLine (filepath_Base (analyzer.FiPath f)))
       (List.filter atRoot files)).

(** Every path a walk from [path] calls its function with when nothing is
    skipped: the entry itself and, below a directory whose names can be
    read, every entry at any depth, examined or not. *)
Fixpoint entriesOf (path : string) (n : os.Node) : list string :=
  path ::
  match n with
  | os.Dir (Ok names) =>
      (fix each (l : list (string * result os.Node)) : list string :=
         match l with
         | [] => []
         | (name, Ok child) :: rest =>
             entriesOf (filepath_Join [path; name]) child ++ each rest
         | (name, Err _) :: rest =>
             filepath_Join [path; name] :: each rest
         end) names
  | _ => []
  end.

(** The component types and languages the detector knows; a directory none
    of whose files is recognised has the empty language. *)
Definition componentTypes : list string := ["service"; "library"; "frontend"].

Definition componentLanguages : list string :=
  ["go"; "python"; "javascript"; "typescript"; "rust"; "java"; "ruby";
   "csharp"; ""].

(** A component as a detection strategy leaves it, before enrichment. *)
Definition asDetected (comp : analyzer.Component) : Prop :=
  In (analyzer.Type_ comp) componentTypes
  /\ In (analyzer.Language comp) componentLanguages
  /\ analyzer.Description comp = ""
  /\ analyzer.Dependencies comp = []
  /\ analyzer.Endpoints comp = []
  /\ analyzer.EntryPoint comp = "".

(** ** A go.mod file as the go command writes it *)

Definition tab : string := String (ascii_of_nat 9) EmptyString.

(** A printable ASCII character other than the space. *)
Definition printable (a : ascii) : bool :=
  let n := nat_of_ascii a in (33 <=? n)%nat && (n <=? 126)%nat.

Fixpoint allChars (f : ascii -> bool) (s : string) : bool :=
  match s with
  | EmptyString => true
  | String a s' => f a && allChars f s'
  end.

(** A text of ASCII bytes only.  On such a text the white space that
    [strings.TrimSpace] and [strings.Fields] look for is the white space
    of ASCII; in other texts Go also takes the white space of Unicode,
    the no-break space among it, which the model of package [strings]
    leaves alone. *)
Definition asciiText (s : string) : bool :=
  allChars (fun a => (nat_of_ascii a <? 128)%nat) s.

(** A character that can stand inside a line: any but the line feed. *)
Definition inLine (a : ascii) : bool := negb (Ascii.eqb (ascii_of_nat 10) a).

(** A module path or a version: not empty, of printable characters. *)
Definition word (w : string) : bool := nonEmpty w && allChars printable w.

Record Requirement := {
  ReqPath : string;
  ReqVersion : string;
  ReqIndirect : bool
}.

(** The line of a requirement inside a require block. *)
Definition requireLine (r : Requirement) : string :=
  tab +:+ ReqPath r +:+ " " +:+ ReqVersion r
  +:+ (if ReqIndirect r then " // indirect" else "").

(** The text made of the given lines, each ended by a line feed. *)
Fixpoint unlines (lines : list string) : string :=
  match lines with
  | [] => ""
  | line :: rest => line +:+ analyzer.nl +:+ unlines rest
  end.

Definition goMod (module_ goVersion : string) (reqs : list Requirement)
  : string :=
  unlines (["module " +:+ module_; ""; "go " +:+ goVersion; ""; "require ("]
           ++ List.map requireLine reqs ++ [")"]).

(** A requirement the parser can read back: path and version are words,
    and the path is not the keyword. *)
Definition readable (r : Requirement) : bool :=
  word (ReqPath r) && word (ReqVersion r)
  && negb (String.eqb (ReqPath r) "require").

Definition dependencyOf (r : Requirement) : analyzer.Dependency :=
  analyzer.external (ReqPath r) (ReqVersion r).

(** The languages [detectLanguage] knows for which [ExtractDependencies]
    has no manifest to read, and the empty language. *)
Definition languagesWithoutManifest : list string :=
  ["php"; "c"; "cpp"; "kotlin"; "swift"; "shell"; ""].

Definition httpMethods : list string := ["GET"; "POST"; "PUT"; "DELETE"].

(** What [selectKeyFiles] reads for one file: its entry, or nothing when
    the file cannot be read. *)
Definition keyFileOf (fs : os.Snapshot) (file : string)
  : list llm.FileContent :=
  match orchestrator.readFileContent fs file with
  | Ok content => [{| llm.Path := file; llm.Content := content |}]
  | Err _ => []
  end.

(** The files in the order [selectKeyFiles] considers them: those a
    priority pattern selects, then the others, each group in the order of
    the list. *)
Definition byPriority (files : list string) : list string :=
  List.filter (fun file => orchestrator.isPriority file
                             orchestrator.priorityPatterns) files
  ++ List.filter (fun file => negb (orchestrator.isPriority file
                                      orchestrator.priorityPatterns)) files.

(** A directory [collectComponentFiles] does not enter: one named
    node_modules, vendor or .git. *)
Definition skipped (path : string) : bool :=
  let base := filepath_Base path in
  String.eqb base "node_modules" || String.eqb base "vendor"
  || String.eqb base ".git".

(** The files at or below [path], in the order of the walk, leaving out
    what lies below a skipped directory or below a directory whose names
    cannot be read, and the entries that cannot be examined. *)
Fixpoint filesUnder (path : string) (n : os.Node) : list string :=
  match n with
  | os.File _ => [path]
  | os.Dir (Err _) => []
  | os.Dir (Ok names) =>
      if skipped path then []
      else
        (fix each (l : list (string * result os.Node)) : list string :=
           match l with
           | [] => []
           | (name, Ok child) :: rest =>
               filesUnder (filepath_Join [path; name]) child ++ each rest
           | (name, Err _) :: rest => each rest
           end) names
  end.

(** ** A Cargo.toml with plain version requirements *)

(** A character that can stand in a crate name or a version written
    between quotes: printable, and none of the equals sign, the opening
    bracket and the two quotes. *)
Definition plainChar (a : ascii) : bool :=
  printable a && negb (inCutset ("=[" +:+ analyzer.dq +:+ "'") a).

Definition plainWord (w : string) : bool :=
  nonEmpty w && allChars plainChar w.

Record Crate := { CrateName : string; CrateVersion : string }.

Definition crateLine (c : Crate) : string :=
  CrateName c +:+ " = " +:+ analyzer.dq +:+ CrateVersion c +:+ analyzer.dq.

Definition readableCrate (c : Crate) : bool :=
  plainWord (CrateName c) && plainWord (CrateVersion c).

(** The manifest of a package with its dependencies and, in a section of
    their own, its development dependencies. *)
Definition cargoToml (package : string) (crates devCrates : list Crate)
  : string :=
  unlines (["[package]"; "name = " +:+ analyzer.dq +:+ package +:+ analyzer.dq;
            ""; "[dependencies]"]
           ++ List.map crateLine crates
           ++ [""; "[dev-dependencies]"]
           ++ List.map crateLine devCrates).

Definition crateDependency (c : Crate) : analyzer.Dependency :=
  analyzer.external (CrateName c) (CrateVersion c).

(** * Inputs of the evaluated examples *)

(** A stand-in for the SHA-256 digest where an example is evaluated: the
    identity, the finest digest there is.  Byte streams it does not tell
    apart are told apart by no digest. *)
Definition exampleDigest : string -> string := fun bytes => bytes.

(** One day, in nanoseconds. *)
Definition oneDay : Duration := 86400000000000%Z.

Definition enabledManager : cache.Manager :=
  cache.NewManager ".docbrown/cache.yaml" true oneDay.

Definition disabledManager : cache.Manager :=
  cache.NewManager ".docbrown/cache.yaml" false oneDay.

Definition staleEntry : cache.ComponentCache :=
  {| cache.Hash := "old"; cache.FilesHash := "old";
     cache.LastGenerated := 0%Z; cache.Files := ["gone.go"] |}.

(** A disabled manager whose cache holds an entry (placed there through
    [GetCache], which hands out the mutable cache). *)
Definition disabledWithEntry : cache.Manager :=
  cache.withComponents disabledManager {[ "api" := staleEntry ]}.

Definition diskOf (table : list (string * string)) : cache.Disk :=
  fun path =>
    match List.find (fun kv => String.eqb (fst kv) path) table with
    | Some (_, content) => Some content
    | None => None
    end.

(** Two states of the same two files: between them four bytes move from
    the head of b.go to a.go. *)
Definition diskBefore : cache.Disk := diskOf [("a.go", ""); ("b.go", "b.go!")].
Definition diskAfter : cache.Disk := diskOf [("a.go", "b.go"); ("b.go", "!")].

(** One byte of a.go differs from [diskAfter]. *)
Definition diskEdited : cache.Disk := diskOf [("a.go", "b.gO"); ("b.go", "!")].

(** b.go is missing, and present but empty. *)
Definition diskMissing : cache.Disk := diskOf [("a.go", "package a")].
Definition diskEmpty : cache.Disk := diskOf [("a.go", "package a"); ("b.go", "")].

(** An enabled manager whose cache holds an entry written at instant 0. *)
Definition enabledWithEntry : cache.Manager :=
  cache.withComponents enabledManager {[ "api" := staleEntry ]}.

(** ** A directory tree and the snapshot it determines

    The examples describe a repository as a tree of named entries, rooted
    at the current directory, and derive from it every answer of the
    operating system, so that the answers agree with one another. *)

#[warnings="-register-all"]
Inductive Tree :=
| TFile (content : string)
| TDir (entries : list (string * Tree))
| TLocked.

Definition ENOENT : error := "no such file or directory".
Definition EACCES : error := "permission denied".
Definition EISDIR : error := "is a directory".

(** The entry reached from [t] by the given path elements. *)
Fixpoint treeAt (t : Tree) (elems : list string) : option Tree :=
  match elems with
  | [] => Some t
  | e :: rest =>
      match t with
      | TDir entries =>
          (fix search (l : list (string * Tree)) : option Tree :=
             match l with
             | [] => None
             | (name, child) :: l' =>
                 if String.eqb name e then treeAt child rest else search l'
             end) entries
      | _ => None
      end
  end.

(** Paths are resolved from the current directory; one that is rooted or
    climbs above it names nothing in the tree. *)
Definition resolve (root : Tree) (path : string) : option Tree :=
  let p := filepath_Clean path in
  if strings_HasPrefix p "/" || strings_HasPrefix p ".." then None
  else if String.eqb p "." then Some root
  else treeAt root (pathElems p).

Fixpoint nodeOf (t : Tree) : os.Node :=
  match t with
  | TFile content => os.File (Z.of_nat (String.length content))
  | TLocked => os.Dir (Err EACCES)
  | TDir entries =>
      os.Dir (Ok ((fix each (l : list (string * Tree)) :=
                     match l with
                     | [] => []
                     | (name, child) :: l' => (name, Ok (nodeOf child)) :: each l'
                     end) entries))
  end.

Definition isTDir (t : Tree) : bool :=
  match t with TFile _ => false | _ => true end.

(** A file-name pattern with at most one star against a name. *)
Definition matchName (pattern name : string) : bool :=
  match strings_Split pattern "*" with
  | [literal] => String.eqb literal name
  | [pre; suf] =>
      strings_HasPrefix name pre && strings_HasSuffix name suf
      && (String.length pre + String.length suf <=? String.length name)%nat
  | _ => false
  end.

(** [filepath.Glob] for a pattern whose directory part has no wildcard. *)
Definition globTree (root : Tree) (pattern : string) : list string :=
  let dir := filepath_Dir pattern in
  let file := filepath_Base pattern in
  match resolve root dir with
  | Some (TDir entries) =>
      List.map (fun e => filepath_Join [dir; fst e])
               (List.filter (fun e => matchName file (fst e)) entries)
  | _ => []
  end.

Definition snapshotOf (root : Tree) : os.Snapshot :=
  {| os.Stat := fun path =>
       match resolve root path with
       | Some t => Ok (os.info (nodeOf t))
       | None => Err ("stat " +:+ path +:+ ": " +:+ ENOENT)
       end;
     os.Lstat := fun path =>
       match resolve root path with
       | Some t => Ok (nodeOf t)
       | None => Err ("lstat " +:+ path +:+ ": " +:+ ENOENT)
       end;
     os.ReadFile := fun path =>
       match resolve root path with
       | Some (TFile content) => Ok content
       | Some _ => Err ("read " +:+ path +:+ ": " +:+ EISDIR)
       | None => Err ("open " +:+ path +:+ ": " +:+ ENOENT)
       end;
     os.ReadDir := fun path =>
       match resolve root path with
       | Some (TDir entries) =>
           (List.map (fun e => {| os.Name := fst e;
                                  os.EntryIsDir := isTDir (snd e) |})
                     entries, None)
       | Some TLocked => ([], Some ("open " +:+ path +:+ ": " +:+ EACCES))
       | Some (TFile _) => ([], Some ("readdirent " +:+ path +:+ ": not a directory"))
       | None => ([], Some ("open " +:+ path +:+ ": " +:+ ENOENT))
       end;
     os.Glob := globTree root |}.

(** ** The library on the inputs of the examples *)

Fixpoint untilLt (s : string) : string :=
  match s with
  | EmptyString => EmptyString
  | String a s' => if Ascii.eqb a "<"%char then EmptyString else String a (untilLt s')
  end.

(** The leftmost, non-overlapping matches of [opening ([^<]+) closing];
    [skip] counts the bytes of the last match still to be passed over. *)
Fixpoint tagScan (opening closing : string) (skip : nat) (s : string)
  : list (list string) :=
  match s with
  | EmptyString => []
  | String _ s' =>
      match skip with
      | S k => tagScan opening closing k s'
      | O =>
          let inner := untilLt (dropString (String.length opening) s) in
          let tail :=
            dropString (String.length opening + String.length inner) s in
          if String.prefix opening s && nonEmpty inner && String.prefix closing tail
          then [opening +:+ inner +:+ closing; inner]
               :: tagScan opening closing
                    (String.length opening + String.length inner
                     + String.length closing - 1) s'
          else tagScan opening closing O s'
      end
  end.

Definition tagMatches (tag text : string) : list (list string) :=
  tagScan ("<" +:+ tag +:+ ">") ("</" +:+ tag +:+ ">") O text.

(** The library as far as the examples call it: file-name patterns without
    wildcards, the three tag patterns of the Maven branch, the JSON decoder
    on one object and on text that is none, and a map ranged over in the
    order of its keys as listed. *)
Definition exampleLibrary : analyzer.Library :=
  {| analyzer.filepath_Match := fun pattern name => String.eqb pattern name;
     analyzer.regexp_FindStringSubmatch := fun _ _ => [];
     analyzer.regexp_FindAllStringSubmatch := fun pattern text =>
       if String.eqb pattern "<groupId>([^<]+)</groupId>"
       then tagMatches "groupId" text
       else if String.eqb pattern "<artifactId>([^<]+)</artifactId>"
       then tagMatches "artifactId" text
       else if String.eqb pattern "<version>([^<]+)</version>"
       then tagMatches "version" text
       else [];
     analyzer.json_Unmarshal := fun content =>
       if String.eqb content "{}"
       then ({| analyzer.PkgDependencies := [];
                analyzer.PkgDevDependencies := [] |}, None)
       else ({| analyzer.PkgDependencies := [];
                analyzer.PkgDevDependencies := [] |},
             Some "invalid character 'n' looking for beginning of object key string");
     analyzer.rangeRank := fun _ _ => O |}.

(** ** Repositories *)

Definition emptyStructure : analyzer.RepoStructure :=
  {| analyzer.RootPath := "."; analyzer.Components := [];
     analyzer.FileTree := ""; analyzer.Languages := ∅;
     analyzer.TotalFiles := 0%Z |}.

Definition here : analyzer.Detector := analyzer.NewDetector ".".
Definition extractor : analyzer.MetadataExtractor :=
  analyzer.NewMetadataExtractor ".".

(** A component of the given language rooted at the current directory. *)
Definition componentIn (language : string) : analyzer.Component :=
  analyzer.setLanguage (analyzer.setPath analyzer.zeroComponent ".") language.

(** A Go module with one source file at its root. *)
Definition repoSingle : Tree :=
  TDir [("go.mod", TFile "module example.com/app");
        ("main.go", TFile "package main")].

(** The same module with a service directory beside its manifest. *)
Definition repoBoth : Tree :=
  TDir [("go.mod", TFile "module example.com/app");
        ("services",
         TDir [("a", TDir [("Dockerfile", TFile "FROM scratch");
                           ("main.go", TFile "package main")])])].

(** A root holding the manifests of three languages. *)
Definition repoMany : Tree :=
  TDir [("Cargo.toml", TFile "[package]");
        ("go.mod", TFile "module example.com/app");
        ("package.json", TFile "{}")].

(** A root that can be read, holding a directory that cannot. *)
Definition repoLocked : Tree :=
  TDir [("main.go", TFile "package main"); ("private", TLocked)].

Definition pomText : string :=
  "<dependency><groupId>org.a</groupId><artifactId>core</artifactId>"
  +:+ "<version>1.0</version></dependency>"
  +:+ "<dependency><groupId>org.b</groupId><artifactId>util</artifactId>"
  +:+ "</dependency>".

Definition repoMaven : Tree := TDir [("pom.xml", TFile pomText)].

(** A crate manifest that is not TOML: the string on its last line is not
    closed. *)
Definition cargoText : string :=
  "[dependencies]" +:+ analyzer.nl +:+ "serde = " +:+ analyzer.dq +:+ "1.0".

Definition repoCargo : Tree := TDir [("Cargo.toml", TFile cargoText)].

(** A package manifest that is not JSON. *)
Definition repoNode : Tree := TDir [("package.json", TFile "{ not json")].

Definition fsSingle : os.Snapshot := snapshotOf repoSingle.
Definition fsBoth : os.Snapshot := snapshotOf repoBoth.
Definition fsMany : os.Snapshot := snapshotOf repoMany.
Definition fsLocked : os.Snapshot := snapshotOf repoLocked.
Definition fsMaven : os.Snapshot := snapshotOf repoMaven.
Definition fsCargo : os.Snapshot := snapshotOf repoCargo.
Definition fsNode : os.Snapshot := snapshotOf repoNode.

(** The component the monorepo strategy finds in [repoBoth], enriched. *)
Definition serviceA : analyzer.Component :=
  {| analyzer.Name := "a"; analyzer.Type_ := "service";
     analyzer.Language := "go"; analyzer.Path := "services/a";
     analyzer.Files := ["services/a/main.go"];
     analyzer.Description := "A go service component";
     analyzer.HasTests := false; analyzer.Dependencies := [];
     analyzer.Endpoints := []; analyzer.EntryPoint := "" |}.

(** The component the single-component strategy finds in [repoSingle],
    enriched. *)
Definition rootModule : analyzer.Component :=
  {| analyzer.Name := "."; analyzer.Type_ := "service";
     analyzer.Language := "go"; analyzer.Path := ".";
     analyzer.Files := ["main.go"];
     analyzer.Description := "A go service component";
     analyzer.HasTests := false; analyzer.Dependencies := [];
     analyzer.Endpoints := []; analyzer.EntryPoint := "" |}.

(** ** Inputs of the further examples *)

(** The disk as [Clear] sees it, the files present by path: removing a
    file that is there succeeds, removing one that is not fails. *)
Definition removeOps : cache.RemoveOps (gmap string string) :=
  {| cache.os_Remove := fun w path =>
       match w !! path with
       | Some _ => (delete path w, None)
       | None => (w, Some ("remove " +:+ path +:+ ": " +:+ ENOENT))
       end;
     cache.os_IsNotExist := fun e => strings_HasSuffix e ENOENT |}.

(** A disk that refuses every removal. *)
Definition lockedOps : cache.RemoveOps (gmap string string) :=
  {| cache.os_Remove := fun w path =>
       (w, Some ("remove " +:+ path +:+ ": " +:+ EACCES));
     cache.os_IsNotExist := fun e => strings_HasSuffix e ENOENT |}.

Definition cacheFile : gmap string string :=
  {[ ".docbrown/cache.yaml" := "version: 1.0" ]}.

Definition orchestratorOf (m : cache.Manager) : orchestrator.Orchestrator :=
  {| orchestrator.cacheManager := m |}.

Definition apiComponent : analyzer.Component :=
  analyzer.setFiles (analyzer.setName analyzer.zeroComponent "api") ["a.go"].

Definition webComponent : analyzer.Component :=
  analyzer.setFiles (analyzer.setName analyzer.zeroComponent "web") ["b.go"].

(** A second component named api, read from another file. *)
Definition apiTwin : analyzer.Component :=
  analyzer.setFiles (analyzer.setName analyzer.zeroComponent "api") ["b.go"].

Definition structureTwo : analyzer.RepoStructure :=
  analyzer.setComponents emptyStructure [apiComponent; webComponent].

Definition structureTwins : analyzer.RepoStructure :=
  analyzer.setComponents emptyStructure [apiComponent; apiTwin].

(** The scanner of the current directory, without configured patterns. *)
Definition scannerHere : analyzer.Scanner := analyzer.NewScanner "." [].

(** What [Scan] records for a file at [path] of no size. *)
Definition fileAt (path : string) : analyzer.FileInfo :=
  {| analyzer.FiPath := path; analyzer.FiSize := 0%Z;
     analyzer.FiLanguage := analyzer.detectLanguage path;
     analyzer.FiIsTest := analyzer.isTestFile path |}.

(** What [Scan] returns for [repoSingle]: go.mod has no language. *)
Definition scanOfSingle : analyzer.RepoStructure :=
  {| analyzer.RootPath := "."; analyzer.Components := [];
     analyzer.FileTree := unlines ["."; "├── go.mod"; "├── main.go"];
     analyzer.Languages := {[ "go" := 1%Z ]};
     analyzer.TotalFiles := 2%Z |}.

(** Two requirements, the second an indirect one. *)
Definition requirementsOfApp : list Requirement :=
  [ {| ReqPath := "github.com/spf13/cobra"; ReqVersion := "v1.8.0";
       ReqIndirect := false |};
    {| ReqPath := "golang.org/x/sys"; ReqVersion := "v0.15.0";
       ReqIndirect := true |} ].

Definition repoGoMod : Tree :=
  TDir [("go.mod", TFile (goMod "example.com/app" "1.21" requirementsOfApp));
        ("main.go", TFile "package main")].

Definition fsGoMod : os.Snapshot := snapshotOf repoGoMod.

(** A crate with two dependencies and one development dependency. *)
Definition repoCrates : Tree :=
  TDir [("Cargo.toml",
         TFile (cargoToml "app"
                  [ {| CrateName := "serde"; CrateVersion := "1.0" |};
                    {| CrateName := "tokio"; CrateVersion := "1.35" |} ]
                  [ {| CrateName := "criterion"; CrateVersion := "0.5" |} ]));
        ("src", TDir [("main.rs", TFile "fn main() {}")])].

Definition fsCrates : os.Snapshot := snapshotOf repoCrates.

(** * Properties *)

(** ** The library models on the examples of the Go documentation *)

Example Join_examples :
  filepath_Join ["a"; "b/c"] = "a/b/c"
  /\ filepath_Join ["a/b"; "../../../xyz"] = "../xyz"
  /\ filepath_Join ["a"; ""] = "a"
  /\ filepath_Join [""; ""] = ""
  /\ filepath_Join ["."; "go.mod"] = "go.mod".
Proof. repeat split. Qed.

Example Clean_examples :
  filepath_Clean "a//c" = "a/c"
  /\ filepath_Clean "a/c/." = "a/c"
  /\ filepath_Clean "a/c/b/.." = "a/c"
  /\ filepath_Clean "/../a/c" = "/a/c"
  /\ filepath_Clean "/../a/b/../././/c" = "/a/c"
  /\ filepath_Clean "" = ".".
Proof. repeat split. Qed.

Example Base_examples :
  filepath_Base "/foo/bar/baz.js" = "baz.js"
  /\ filepath_Base "/foo/bar/baz/" = "baz"
  /\ filepath_Base "dev.txt" = "dev.txt"
  /\ filepath_Base "" = "."
  /\ filepath_Base "/" = "/".
Proof. repeat split. Qed.

Example Dir_examples :
  filepath_Dir "/foo/bar/baz.js" = "/foo/bar"
  /\ filepath_Dir "/foo/bar/baz/" = "/foo/bar/baz"
  /\ filepath_Dir "dev.txt" = "."
  /\ filepath_Dir "../todo.txt" = ".."
  /\ filepath_Dir ".." = "."
  /\ filepath_Dir "/" = "/"
  /\ filepath_Dir "" = ".".
Proof. repeat split. Qed.

Example Ext_examples :
  filepath_Ext "index" = ""
  /\ filepath_Ext "index.js" = ".js"
  /\ filepath_Ext "main.test.js" = ".js".
Proof. repeat split. Qed.

Example Rel_examples :
  filepath_Rel "/a" "/a/b/c" = Ok "b/c"
  /\ filepath_Rel "/a" "/b/c" = Ok "../b/c"
  /\ isOk (filepath_Rel "/a" "./b/c") = false
  /\ filepath_Rel "." "services/a/main.go" = Ok "services/a/main.go".
Proof. repeat split. Qed.

Example Split_examples :
  strings_Split "a,b,c" "," = ["a"; "b"; "c"]
  /\ strings_Split "a man a plan a canal panama" "a "
     = [""; "man "; "plan "; "canal panama"]
  /\ strings_Split " xyz " "" = [" "; "x"; "y"; "z"; " "]
  /\ strings_Split "" "Bernardo O'Higgins" = [""].
Proof. repeat split. Qed.

Example strings_examples :
  strings_Fields "  foo bar  baz   " = ["foo"; "bar"; "baz"]
  /\ strings_TrimSpace "  Hello, Gophers  " = "Hello, Gophers"
  /\ strings_HasSuffix "Amigo" "go" = true
  /\ strings_HasSuffix "Amigo" "Ami" = false
  /\ strings_Contains "seafood" "foo" = true
  /\ strings_Contains "seafood" "bar" = false
  /\ strings_Contains "" "" = true
  /\ strings_ToLower "Hello THERE" = "hello there".
Proof. repeat split. Qed.

(** SHA-256 on the examples of FIPS 180-4: the empty message, a message of
    one block and a message of two. *)
Example sha256_examples :
  sha256.Sum_hex ""
  = "e3b0c44298fc1c149afbf4c8996fb92427ae41e4649b934ca495991b7852b855"
  /\ sha256.Sum_hex "abc"
     = "ba7816bf8f01cfea414140de5dae2223b00361a396177a9cb410ff61f20015ad"
  /\ sha256.Sum_hex "abcdbcdecdefdefgefghfghighijhijkijkljklmklmnlmnomnopnopq"
     = "248d6a61d20638b8e5c026930c3e6039a33ce45964ff2167f6ecedd419db06c1".
Proof. repeat split; vm_compute; reflexivity. Qed.

(** ** Strings *)

#[local] Arguments String.append !_ _ / : simpl nomatch.

Lemma string_app_assoc (a b c : string) : (a +:+ b) +:+ c = a +:+ (b +:+ c).
Proof. induction a as [|x a IH]; simpl; [reflexivity | now rewrite IH]. Qed.

Lemma string_app_nil_r (a : string) : a +:+ "" = a.
Proof. induction a as [|x a IH]; simpl; [reflexivity | now rewrite IH]. Qed.

Lemma string_length_app (a b : string) :
  String.length (a +:+ b) = (String.length a + String.length b)%nat.
Proof. induction a as [|x a IH]; simpl; [reflexivity | now rewrite IH]. Qed.

Lemma string_app_inv_head (a x y : string) : a +:+ x = a +:+ y -> x = y.
Proof.
  induction a as [|c a IH]; simpl; intros H; [exact H |].
  injection H as H. auto.
Qed.

(** Two decompositions of one string whose heads have the same length have
    the same heads. *)
Lemma string_app_same_length (a b x y : string) :
  String.length a = String.length b -> a +:+ x = b +:+ y -> a = b.
Proof.
  revert b. induction a as [|c a IH]; intros [|d b] Hlen H; simpl in *;
    try discriminate; [reflexivity |].
  injection H as -> H. injection Hlen as Hlen. f_equal. eauto.
Qed.

(** ** The cache *)

Section CacheProperties.

Variable sha256_hex : string -> string.

Abbreviation hashFiles := (cache.hashFiles sha256_hex).
Abbreviation hashComponent := (cache.hashComponent sha256_hex).
Abbreviation IsStale := (cache.IsStale sha256_hex).
Abbreviation Update := (cache.Update sha256_hex).

Lemma fold_hashStep disk files acc :
  List.fold_left (cache.hashStep disk) files acc
  = acc +:+ cache.hashInput disk files.
Proof.
  revert acc. induction files as [|file rest IH]; intros acc; simpl.
  - now rewrite string_app_nil_r.
  - rewrite IH. unfold cache.hashStep, cache.fileBytes.
    destruct (disk file) as [content|].
    + now rewrite !string_app_assoc.
    + now rewrite !string_app_assoc.
Qed.

(** The digest is that of the concatenation, in list order, of each path
    followed by the bytes of its file. *)
Lemma hashFiles_hashInput disk files :
  hashFiles disk files = sha256_hex (cache.hashInput disk files).
Proof. unfold cache.hashFiles. now rewrite fold_hashStep. Qed.

Lemma hashInput_app disk l1 l2 :
  cache.hashInput disk (l1 ++ l2)
  = cache.hashInput disk l1 +:+ cache.hashInput disk l2.
Proof.
  induction l1 as [|f l1 IH]; simpl; [reflexivity |].
  now rewrite IH, !string_app_assoc.
Qed.

Lemma hashInput_ext disk disk' files :
  (forall f, In f files -> cache.fileBytes disk' f = cache.fileBytes disk f) ->
  cache.hashInput disk' files = cache.hashInput disk files.
Proof.
  induction files as [|f rest IH]; intros H; simpl; [reflexivity |].
  rewrite (H f) by (left; reflexivity).
  rewrite IH; [reflexivity |]. intros g Hg. apply H. now right.
Qed.

Lemma lookup_Update_enabled m disk now name files :
  cache.enabled m = true ->
  cache.Components (cache.cache (Update m disk now name files)) !! name
  = Some {| cache.Hash := hashComponent disk name files;
            cache.FilesHash := hashFiles disk files;
            cache.LastGenerated := now;
            cache.Files := files |}.
Proof.
  intros Hen. unfold cache.Update. rewrite Hen. simpl.
  apply lookup_insert_eq.
Qed.

Lemma enabled_Update m disk now name files :
  cache.enabled (Update m disk now name files) = cache.enabled m.
Proof.
  unfold cache.Update. destruct (cache.enabled m) eqn:E; simpl; congruence.
Qed.

Lemma ttl_Update m disk now name files :
  cache.ttl (Update m disk now name files) = cache.ttl m.
Proof. unfold cache.Update. now destruct (cache.enabled m). Qed.

(** C1. [IsStale] evaluates its conditions in order and answers at the first
    one that holds: caching disabled gives true; otherwise no entry under
    the component name gives true; otherwise a time since the entry's
    [LastGenerated] above the TTL gives true; otherwise a recomputed digest
    different from the stored one gives true; otherwise the answer is
    false.  Each line holds whatever the later conditions would say. *)
Theorem IsStale_decision (m : cache.Manager) (disk : cache.Disk) (now : Time)
    (name : string) (files : list string) :
  (cache.enabled m = false -> IsStale m disk now name files = true)
  /\ (cache.enabled m = true ->
      cache.Components (cache.cache m) !! name = None ->
      IsStale m disk now name files = true)
  /\ (forall cached,
      cache.enabled m = true ->
      cache.Components (cache.cache m) !! name = Some cached ->
      (cache.ttl m < time_Since now (cache.LastGenerated cached))%Z ->
      IsStale m disk now name files = true)
  /\ (forall cached,
      cache.enabled m = true ->
      cache.Components (cache.cache m) !! name = Some cached ->
      (time_Since now (cache.LastGenerated cached) <= cache.ttl m)%Z ->
      hashFiles disk files <> cache.FilesHash cached ->
      IsStale m disk now name files = true)
  /\ (forall cached,
      cache.enabled m = true ->
      cache.Components (cache.cache m) !! name = Some cached ->
      (time_Since now (cache.LastGenerated cached) <= cache.ttl m)%Z ->
      hashFiles disk files = cache.FilesHash cached ->
      IsStale m disk now name files = false).
Proof.
  unfold cache.IsStale. repeat split.
  - intros ->. reflexivity.
  - intros -> ->. reflexivity.
  - intros cached -> -> Hexp. simpl.
    apply Z.ltb_lt in Hexp. now rewrite Hexp.
  - intros cached -> -> Hfresh Hdiff. simpl.
    apply Z.ltb_ge in Hfresh. rewrite Hfresh.
    apply String.eqb_neq in Hdiff. now rewrite Hdiff.
  - intros cached -> -> Hfresh Hsame. simpl.
    apply Z.ltb_ge in Hfresh. rewrite Hfresh.
    apply String.eqb_eq in Hsame. now rewrite Hsame.
Qed.

(** The answer of [IsStale] right after [Update] depends only on whether
    the two digests agree, once caching is on and the entry is fresh. *)
Lemma IsStale_Update_digest m disk disk' now now' name files files' :
  hashFiles disk' files' <> hashFiles disk files ->
  IsStale (Update m disk now name files) disk' now' name files' = true.
Proof.
  intros Hdiff. unfold cache.IsStale.
  rewrite enabled_Update.
  destruct (cache.enabled m) eqn:Hen; simpl; [| reflexivity].
  rewrite lookup_Update_enabled by assumption. simpl.
  destruct (_ <? _)%Z; [reflexivity |].
  apply String.eqb_neq in Hdiff. now rewrite Hdiff.
Qed.

Lemma IsStale_Update_same_stream m disk disk' now now' name files files' :
  cache.enabled m = true ->
  (time_Since now' now <= cache.ttl m)%Z ->
  cache.hashInput disk' files' = cache.hashInput disk files ->
  IsStale (Update m disk now name files) disk' now' name files' = false.
Proof.
  intros Hen Hfresh Hsame. unfold cache.IsStale.
  rewrite enabled_Update, Hen. simpl.
  rewrite lookup_Update_enabled by assumption. simpl.
  rewrite ttl_Update.
  apply Z.ltb_ge in Hfresh. rewrite Hfresh.
  rewrite !hashFiles_hashInput, Hsame.
  now rewrite String.eqb_refl.
Qed.

(** *** Which changes move the byte stream *)

Lemma hashInput_insert_length disk l1 q l2 :
  String.length (cache.hashInput disk (l1 ++ q :: l2))
  = (String.length (cache.hashInput disk (l1 ++ l2))
     + String.length q + String.length (cache.fileBytes disk q))%nat.
Proof.
  rewrite !hashInput_app. simpl. rewrite !string_length_app. lia.
Qed.

Lemma nonempty_length (q : string) : q <> "" -> (0 < String.length q)%nat.
Proof. destruct q; [congruence | simpl; lia]. Qed.

Lemma hashInput_insert_differs disk l1 q l2 :
  q <> "" ->
  cache.hashInput disk (l1 ++ q :: l2) <> cache.hashInput disk (l1 ++ l2).
Proof.
  intros Hq Heq. apply nonempty_length in Hq.
  pose proof (hashInput_insert_length disk l1 q l2) as Hlen.
  rewrite Heq in Hlen. lia.
Qed.

(** When one file goes from [c] to [c'] and the others stay, the length of
    the stream moves by the difference, once per occurrence in the list. *)
Lemma hashInput_changed_length disk disk' p files :
  (forall q, In q files -> q <> p ->
             cache.fileBytes disk' q = cache.fileBytes disk q) ->
  (String.length (cache.hashInput disk' files)
   + count_occ String.string_dec files p * String.length (cache.fileBytes disk p)
   = String.length (cache.hashInput disk files)
     + count_occ String.string_dec files p * String.length (cache.fileBytes disk' p))%nat.
Proof.
  induction files as [|f rest IH]; intros Hother; [reflexivity |].
  assert (IH' := IH (fun q Hq => Hother q (or_intror Hq))).
  cbn [cache.hashInput count_occ]. rewrite !string_length_app.
  destruct (String.string_dec f p) as [-> | Hne].
  - lia.
  - rewrite (Hother f (or_introl eq_refl) Hne). lia.
Qed.

Lemma hashInput_changed_differs disk disk' p files :
  In p files ->
  cache.fileBytes disk' p <> cache.fileBytes disk p ->
  (forall q, In q files -> q <> p ->
             cache.fileBytes disk' q = cache.fileBytes disk q) ->
  cache.hashInput disk' files <> cache.hashInput disk files.
Proof.
  intros Hin Hchg Hother Heq.
  destruct (Nat.eq_dec (String.length (cache.fileBytes disk' p))
                       (String.length (cache.fileBytes disk p))) as [Hlen | Hlen].
  - (* same size: the first occurrence of [p] shows the difference *)
    clear -Hin Hchg Hother Heq Hlen.
    induction files as [|f rest IH]; [destruct Hin |].
    cbn [cache.hashInput] in Heq. apply string_app_inv_head in Heq.
    destruct (String.string_dec f p) as [-> | Hne].
    + apply Hchg. eapply string_app_same_length; eauto.
    + rewrite (Hother f (or_introl eq_refl) Hne) in Heq.
      apply string_app_inv_head in Heq.
      destruct Hin as [-> | Hin]; [congruence |].
      apply IH; [exact Hin | | exact Heq].
      intros q Hq. apply Hother. now right.
  - (* different sizes: the streams have different lengths *)
    pose proof (hashInput_changed_length disk disk' p files Hother) as Hcount.
    rewrite Heq in Hcount.
    assert (0 < count_occ String.string_dec files p)%nat
      by (now apply count_occ_In).
    nia.
Qed.

(** The answer right after [Update], once caching is on and the entry is
    fresh: stale exactly when the digest has moved. *)
Lemma IsStale_Update_iff m disk disk' now now' name files files' :
  cache.enabled m = true ->
  (time_Since now' now <= cache.ttl m)%Z ->
  IsStale (Update m disk now name files) disk' now' name files' = true
  <-> sha256_hex (cache.hashInput disk' files')
      <> sha256_hex (cache.hashInput disk files).
Proof.
  intros Hen Hfresh. unfold cache.IsStale.
  rewrite enabled_Update, Hen. simpl.
  rewrite lookup_Update_enabled by assumption. simpl.
  rewrite ttl_Update.
  apply Z.ltb_ge in Hfresh. rewrite Hfresh.
  rewrite !hashFiles_hashInput.
  destruct (String.eqb_spec (sha256_hex (cache.hashInput disk' files'))
              (sha256_hex (cache.hashInput disk files))) as [Heq | Hne];
    cbn [negb]; split; intros H; congruence.
Qed.

(** C2 (amended).  With caching enabled and the time elapsed since the
    update at most the TTL, [IsStale] right after [Update], on the same list
    and the same file contents, is false; and on any list and contents it
    is true exactly when the digest of the byte stream differs from the
    digest stored.  So [IsStale] after [Update] is true when the bytes of
    exactly one listed file have changed and every other file is as it was,
    and when a non-empty path has been inserted into, or removed from, the
    list with the file contents as they were, provided the digest does not
    collide on the two byte streams at hand, the one of the update and the
    one of the call. *)
Theorem IsStale_after_Update
    (m : cache.Manager) (disk : cache.Disk) (now now' : Time)
    (name : string) (files : list string) :
  (cache.enabled m = true ->
   (time_Since now' now <= cache.ttl m)%Z ->
   IsStale (Update m disk now name files) disk now' name files = false
   /\ forall disk' files',
        IsStale (Update m disk now name files) disk' now' name files' = true
        <-> sha256_hex (cache.hashInput disk' files')
            <> sha256_hex (cache.hashInput disk files))
  /\ (forall disk' p,
      In p files ->
      cache.fileBytes disk' p <> cache.fileBytes disk p ->
      (forall q, In q files -> q <> p ->
                 cache.fileBytes disk' q = cache.fileBytes disk q) ->
      noCollision sha256_hex (cache.hashInput disk' files)
        (cache.hashInput disk files) ->
      IsStale (Update m disk now name files) disk' now' name files = true)
  /\ (forall l1 q l2,
      files = l1 ++ l2 -> q <> "" ->
      noCollision sha256_hex (cache.hashInput disk (l1 ++ q :: l2))
        (cache.hashInput disk files) ->
      IsStale (Update m disk now name files) disk now' name (l1 ++ q :: l2) = true)
  /\ (forall l1 q l2,
      files = l1 ++ q :: l2 -> q <> "" ->
      noCollision sha256_hex (cache.hashInput disk (l1 ++ l2))
        (cache.hashInput disk files) ->
      IsStale (Update m disk now name files) disk now' name (l1 ++ l2) = true).
Proof.
  split; [| split; [| split]].
  - intros Hen Hfresh. split.
    + now apply IsStale_Update_same_stream.
    + intros disk' files'. now apply IsStale_Update_iff.
  - intros disk' p Hin Hchg Hother Hdigest. apply IsStale_Update_digest.
    rewrite !hashFiles_hashInput. intros Heq. apply Hdigest in Heq.
    revert Heq. now apply hashInput_changed_differs with (p := p).
  - intros l1 q l2 -> Hq Hdigest. apply IsStale_Update_digest.
    rewrite !hashFiles_hashInput. intros Heq. apply Hdigest in Heq.
    revert Heq. now apply hashInput_insert_differs.
  - intros l1 q l2 -> Hq Hdigest. apply IsStale_Update_digest.
    rewrite !hashFiles_hashInput. intros Heq. apply Hdigest in Heq.
    symmetry in Heq. revert Heq. now apply hashInput_insert_differs.
Qed.

(** C9 (amended).  With caching enabled, [Update] replaces whatever the
    cache holds under the component name by an entry made of the freshly
    computed digests, the current instant and the file list; the other
    entries stay, and nothing of a prior entry under that name survives.
    With caching disabled, [Update] changes nothing. *)
Theorem Update_overwrites (m : cache.Manager) (disk : cache.Disk) (now : Time)
    (name : string) (files : list string) :
  (cache.enabled m = true ->
   cache.Components (cache.cache (Update m disk now name files)) !! name
   = Some {| cache.Hash := hashComponent disk name files;
             cache.FilesHash := hashFiles disk files;
             cache.LastGenerated := now;
             cache.Files := files |}
   /\ (forall other, other <> name ->
       cache.Components (cache.cache (Update m disk now name files)) !! other
       = cache.Components (cache.cache m) !! other)
   /\ (forall prior,
       Update (cache.withComponents m
                 (<[name := prior]> (cache.Components (cache.cache m))))
              disk now name files
       = Update m disk now name files))
  /\ (cache.enabled m = false -> Update m disk now name files = m).
Proof.
  split.
  - intros Hen. split; [now apply lookup_Update_enabled |]. split.
    + intros other Hne. unfold cache.Update. rewrite Hen. simpl.
      now apply lookup_insert_ne.
    + intros prior. unfold cache.Update. simpl. rewrite Hen. simpl.
      unfold cache.withComponents. simpl. now rewrite insert_insert_eq.
  - intros Hoff. unfold cache.Update. now rewrite Hoff.
Qed.

(** C10.  [hashFiles] returns a digest for every file list: it is the digest
    of the paths in list order, each followed by the bytes of its file and
    by nothing when the file cannot be opened.  Hence a listed file that is
    missing or unreadable gives the same digest as the same file present
    and empty, and [IsStale] answers the same in the two states. *)
Theorem hashFiles_unreadable_as_empty (m : cache.Manager)
    (disk disk' : cache.Disk) (now : Time) (name : string)
    (files : list string) (p : string) :
  disk p = None ->
  disk' p = Some "" ->
  (forall q, q <> p -> disk' q = disk q) ->
  hashFiles disk files = sha256_hex (cache.hashInput disk files)
  /\ hashFiles disk files = hashFiles disk' files
  /\ IsStale m disk now name files = IsStale m disk' now name files.
Proof.
  intros Hmiss Hempty Hother.
  assert (Hsame : hashFiles disk' files = hashFiles disk files).
  { rewrite !hashFiles_hashInput. f_equal. apply hashInput_ext.
    intros f _. unfold cache.fileBytes.
    destruct (String.string_dec f p) as [-> | Hne].
    - now rewrite Hmiss, Hempty.
    - now rewrite (Hother f Hne). }
  split; [apply hashFiles_hashInput |]. split; [now symmetry |].
  unfold cache.IsStale. now rewrite Hsame.
Qed.

End CacheProperties.

(** *** The cache on concrete inputs *)

Lemma diskOf_cons (k v : string) (table : list (string * string)) (q : string) :
  diskOf ((k, v) :: table) q
  = if String.eqb k q then Some v else diskOf table q.
Proof. unfold diskOf. cbn [List.find fst]. now destruct (String.eqb k q). Defined.

Lemma IsStale_decision_witness :
  cache.IsStale exampleDigest disabledManager diskBefore 1000%Z "api"
    ["a.go"; "b.go"] = true
  /\ cache.IsStale exampleDigest enabledManager diskBefore 1000%Z "api"
       ["a.go"; "b.go"] = true
  /\ cache.IsStale exampleDigest enabledWithEntry diskBefore (2 * oneDay)%Z "api"
       ["a.go"; "b.go"] = true
  /\ cache.IsStale exampleDigest enabledWithEntry diskBefore 1000%Z "api"
       ["a.go"; "b.go"] = true
  /\ cache.IsStale exampleDigest
       (cache.Update exampleDigest enabledManager diskBefore 1000%Z "api"
          ["a.go"; "b.go"])
       diskBefore 2000%Z "api" ["a.go"; "b.go"] = false.
Proof.
  split; [| split; [| split; [| split]]].
  - apply (proj1 (IsStale_decision exampleDigest disabledManager diskBefore
                    1000%Z "api" ["a.go"; "b.go"])).
    reflexivity.
  - apply (proj1 (proj2 (IsStale_decision exampleDigest enabledManager
                           diskBefore 1000%Z "api" ["a.go"; "b.go"])));
      reflexivity.
  - apply (proj1 (proj2 (proj2 (IsStale_decision exampleDigest enabledWithEntry
                                  diskBefore (2 * oneDay)%Z "api"
                                  ["a.go"; "b.go"]))) staleEntry);
      reflexivity.
  - apply (proj1 (proj2 (proj2 (proj2 (IsStale_decision exampleDigest
                                         enabledWithEntry diskBefore 1000%Z
                                         "api" ["a.go"; "b.go"])))) staleEntry);
      [reflexivity | reflexivity | vm_compute; discriminate
      | vm_compute; discriminate].
  - apply (proj2 (proj2 (proj2 (proj2 (IsStale_decision exampleDigest
             (cache.Update exampleDigest enabledManager diskBefore 1000%Z "api"
                ["a.go"; "b.go"])
             diskBefore 2000%Z "api" ["a.go"; "b.go"]))))
             {| cache.Hash := "apia.gob.gob.go!";
                cache.FilesHash := "a.gob.gob.go!";
                cache.LastGenerated := 1000%Z;
                cache.Files := ["a.go"; "b.go"] |});
      [reflexivity | reflexivity | vm_compute; discriminate | reflexivity].
Defined.

(** Whatever the digest function, moving bytes from the head of one listed
    file to the tail of the file listed before it goes unnoticed: the byte
    stream handed to the hasher is the same. *)
Lemma moved_bytes_not_stale (sha256_hex : string -> string) :
  cache.IsStale sha256_hex
    (cache.Update sha256_hex enabledManager diskBefore 1000%Z "api"
       ["a.go"; "b.go"])
    diskAfter 2000%Z "api" ["a.go"; "b.go"] = false.
Proof.
  apply IsStale_Update_same_stream; [reflexivity | vm_compute; discriminate
                                    | reflexivity].
Qed.

(** C2 as stated fails twice, with SHA-256 as the digest.  With caching
    disabled, [IsStale] right after [Update] on the same list and contents
    is true.  With caching enabled, a.go and b.go both change between
    [diskBefore] and [diskAfter], and [IsStale] is false. *)
Lemma IsStale_after_Update_counterexample :
  cache.IsStale sha256.Sum_hex
    (cache.Update sha256.Sum_hex disabledManager diskBefore 1000%Z "api"
       ["a.go"; "b.go"])
    diskBefore 2000%Z "api" ["a.go"; "b.go"] = true
  /\ cache.enabled enabledManager = true
  /\ (time_Since 2000 1000 <= cache.ttl enabledManager)%Z
  /\ diskBefore "a.go" = Some ""
  /\ diskAfter "a.go" = Some "b.go"
  /\ diskBefore "b.go" = Some "b.go!"
  /\ diskAfter "b.go" = Some "!"
  /\ cache.IsStale sha256.Sum_hex
       (cache.Update sha256.Sum_hex enabledManager diskBefore 1000%Z "api"
          ["a.go"; "b.go"])
       diskAfter 2000%Z "api" ["a.go"; "b.go"] = false.
Proof.
  split; [reflexivity |]. split; [reflexivity |].
  split; [vm_compute; discriminate |].
  do 4 (split; [reflexivity |]).
  apply moved_bytes_not_stale.
Qed.

Lemma diskEdited_elsewhere (q : string) :
  q <> "a.go" -> cache.fileBytes diskEdited q = cache.fileBytes diskAfter q.
Proof.
  intros Hq. unfold cache.fileBytes, diskEdited, diskAfter.
  rewrite !diskOf_cons.
  destruct (String.eqb_spec "a.go" q); [congruence | reflexivity].
Defined.

(** With SHA-256 as the digest: the same contents are fresh; one edited
    byte, an added path and a removed path are each noticed, the digests
    of the streams at hand being different. *)
Lemma IsStale_after_Update_witness :
  cache.IsStale sha256.Sum_hex
    (cache.Update sha256.Sum_hex enabledManager diskAfter 1000%Z "api"
       ["a.go"; "b.go"])
    diskAfter 2000%Z "api" ["a.go"; "b.go"] = false
  /\ cache.IsStale sha256.Sum_hex
       (cache.Update sha256.Sum_hex enabledManager diskAfter 1000%Z "api"
          ["a.go"; "b.go"])
       diskEdited 2000%Z "api" ["a.go"; "b.go"] = true
  /\ cache.IsStale sha256.Sum_hex
       (cache.Update sha256.Sum_hex enabledManager diskAfter 1000%Z "api"
          ["a.go"; "b.go"])
       diskAfter 2000%Z "api" ["a.go"; "c.go"; "b.go"] = true
  /\ cache.IsStale sha256.Sum_hex
       (cache.Update sha256.Sum_hex enabledManager diskAfter 1000%Z "api"
          ["a.go"; "b.go"])
       diskAfter 2000%Z "api" ["a.go"] = true.
Proof.
  pose proof (IsStale_after_Update sha256.Sum_hex
                enabledManager diskAfter 1000%Z 2000%Z "api" ["a.go"; "b.go"])
    as (Hsame & Hedit & Hadd & Hdel).
  split; [| split; [| split]].
  - apply Hsame; [reflexivity | vm_compute; discriminate].
  - apply (Hedit diskEdited "a.go");
      [left; reflexivity | vm_compute; discriminate
      | exact (fun q _ => diskEdited_elsewhere q)
      | intros Heq; vm_compute in Heq; discriminate Heq].
  - apply (Hadd ["a.go"] "c.go" ["b.go"]);
      [reflexivity | discriminate
      | intros Heq; vm_compute in Heq; discriminate Heq].
  - apply (Hdel ["a.go"] "b.go" []);
      [reflexivity | discriminate
      | intros Heq; vm_compute in Heq; discriminate Heq].
Defined.

(** C9 as stated fails when caching is disabled: the entry held under the
    name survives [Update], and a cache without one is given none. *)
Lemma Update_overwrites_counterexample :
  cache.Components
    (cache.cache (cache.Update exampleDigest disabledWithEntry diskBefore
                    1000%Z "api" ["a.go"; "b.go"])) !! "api"
  = Some staleEntry
  /\ cache.Components
       (cache.cache (cache.Update exampleDigest disabledManager diskBefore
                       1000%Z "api" ["a.go"; "b.go"])) !! "api"
     = None.
Proof. split; reflexivity. Qed.

Lemma Update_overwrites_witness :
  cache.Components
    (cache.cache (cache.Update exampleDigest enabledWithEntry diskBefore
                    1000%Z "api" ["a.go"; "b.go"])) !! "api"
  = Some {| cache.Hash := "apia.gob.gob.go!";
            cache.FilesHash := "a.gob.gob.go!";
            cache.LastGenerated := 1000%Z;
            cache.Files := ["a.go"; "b.go"] |}
  /\ cache.Update exampleDigest disabledWithEntry diskBefore 1000%Z "api"
       ["a.go"; "b.go"] = disabledWithEntry.
Proof.
  split.
  - apply (proj1 (Update_overwrites exampleDigest enabledWithEntry diskBefore
                    1000%Z "api" ["a.go"; "b.go"])).
    reflexivity.
  - apply (proj2 (Update_overwrites exampleDigest disabledWithEntry diskBefore
                    1000%Z "api" ["a.go"; "b.go"])).
    reflexivity.
Defined.

Lemma diskEmpty_elsewhere (q : string) :
  q <> "b.go" -> diskEmpty q = diskMissing q.
Proof.
  intros Hq. unfold diskEmpty, diskMissing.
  rewrite !diskOf_cons.
  destruct (String.eqb_spec "a.go" q); [reflexivity |].
  destruct (String.eqb_spec "b.go" q); [congruence | reflexivity].
Defined.

Lemma hashFiles_unreadable_as_empty_witness :
  cache.hashFiles exampleDigest diskMissing ["a.go"; "b.go"]
  = cache.hashFiles exampleDigest diskEmpty ["a.go"; "b.go"]
  /\ cache.IsStale exampleDigest enabledWithEntry diskMissing 1000%Z "api"
       ["a.go"; "b.go"]
     = cache.IsStale exampleDigest enabledWithEntry diskEmpty 1000%Z "api"
         ["a.go"; "b.go"].
Proof.
  apply (hashFiles_unreadable_as_empty exampleDigest enabledWithEntry
           diskMissing diskEmpty 1000%Z "api" ["a.go"; "b.go"] "b.go");
    [reflexivity | reflexivity | exact diskEmpty_elsewhere].
Defined.

(** ** The detector *)

Section DetectorProperties.

Variable fs : os.Snapshot.

(** C7.  The single-component strategy answers with the language of the
    first manifest signature present at the root, in the fixed order Go,
    Python, Node, Rust, Java, Ruby, C#, whatever later signatures are
    present too; it answers with one component, rooted at the current
    directory, or with none when no signature is present, and has no error
    to return. *)
Theorem detectSingleComponent_priority (d : analyzer.Detector) :
  option_map analyzer.Language (analyzer.detectSingleComponent fs d)
  = firstSignature fs d
  /\ (forall comp, analyzer.detectSingleComponent fs d = Some comp ->
      analyzer.Path comp = ".").
Proof.
  unfold firstSignature, signatures, analyzer.detectSingleComponent.
  cbn [List.find snd fst option_map].
  destruct (analyzer.fileExists fs d "go.mod");
    [split; [reflexivity | now intros comp [= <-]] |].
  destruct (analyzer.fileExists fs d "setup.py" || analyzer.fileExists fs d "pyproject.toml");
    [split; [reflexivity | now intros comp [= <-]] |].
  destruct (analyzer.fileExists fs d "package.json");
    [split; [reflexivity | now intros comp [= <-]] |].
  destruct (analyzer.fileExists fs d "Cargo.toml");
    [split; [reflexivity | now intros comp [= <-]] |].
  destruct (analyzer.fileExists fs d "pom.xml" || analyzer.fileExists fs d "build.gradle"
            || analyzer.fileExists fs d "build.gradle.kts");
    [split; [reflexivity | now intros comp [= <-]] |].
  destruct (analyzer.fileExists fs d "Gemfile").
  { destruct (analyzer.fileExists fs d "config/routes.rb");
      (split; [reflexivity | now intros comp [= <-]]). }
  destruct (analyzer.dirHasFile fs "." "*.csproj" || analyzer.fileExists fs d "*.sln");
    [split; [reflexivity | now intros comp [= <-]] |].
  split; [reflexivity | discriminate].
Qed.

Lemma analyzeDirectory_some (d : analyzer.Detector) (dir : string) :
  exists comp, analyzer.analyzeDirectory fs d dir = Some comp.
Proof. unfold analyzer.analyzeDirectory. eauto. Qed.

(** A directory matched by a monorepo pattern makes the monorepo strategy
    yield a component. *)
Lemma detectMonorepo_nonempty (d : analyzer.Detector) pattern dir info :
  In pattern analyzer.monorepoPatterns ->
  In dir (os.Glob fs (filepath_Join [analyzer.Detector_rootPath d; pattern])) ->
  os.Stat fs dir = Ok info ->
  os.IsDir info = true ->
  analyzer.detectMonorepo fs d <> [].
Proof.
  intros Hpat Hdir Hstat Hisdir Hnil.
  destruct (analyzeDirectory_some d dir) as [comp Hcomp].
  assert (Hin : In comp (analyzer.detectMonorepo fs d)).
  { unfold analyzer.detectMonorepo.
    apply in_flat_map. exists pattern. split; [exact Hpat |].
    apply in_flat_map. exists dir. split; [exact Hdir |].
    rewrite Hstat, Hisdir, Hcomp. now left. }
  rewrite Hnil in Hin. destruct Hin.
Qed.

(** C3.  Detection tries the monorepo strategy, then the single-component
    strategy, then the entry-point strategy, and keeps the result of the
    first that yields a component: the second is consulted only when the
    first yields none, the third only when both yield none.  A root with a
    directory under a monorepo pattern gets the monorepo result whatever
    manifest lies at the root. *)
Theorem DetectComponents_strategy_order (d : analyzer.Detector)
    (structure : analyzer.RepoStructure) :
  let enrich := fun comp => analyzer.enrichComponent fs d comp structure in
  (analyzer.detectMonorepo fs d <> [] ->
   analyzer.DetectComponents fs d structure
   = Ok (List.map enrich (analyzer.detectMonorepo fs d)))
  /\ (forall comp,
      analyzer.detectMonorepo fs d = [] ->
      analyzer.detectSingleComponent fs d = Some comp ->
      analyzer.DetectComponents fs d structure = Ok [enrich comp])
  /\ (analyzer.detectMonorepo fs d = [] ->
      analyzer.detectSingleComponent fs d = None ->
      analyzer.DetectComponents fs d structure
      = Ok (List.map enrich (analyzer.detectByDirectory fs d)))
  /\ (forall pattern dir info,
      In pattern analyzer.monorepoPatterns ->
      In dir (os.Glob fs (filepath_Join [analyzer.Detector_rootPath d; pattern])) ->
      os.Stat fs dir = Ok info ->
      os.IsDir info = true ->
      analyzer.DetectComponents fs d structure
      = Ok (List.map enrich (analyzer.detectMonorepo fs d))).
Proof.
  intros enrich.
  assert (Hmono : analyzer.detectMonorepo fs d <> [] ->
                  analyzer.DetectComponents fs d structure
                  = Ok (List.map enrich (analyzer.detectMonorepo fs d))).
  { intros Hne. unfold analyzer.DetectComponents, analyzer.detectStrategies.
    cbn [app]. destruct (analyzer.detectMonorepo fs d) as [|c cs];
      [congruence | reflexivity]. }
  split; [exact Hmono |]. split; [| split].
  - intros comp Hnil Hone.
    unfold analyzer.DetectComponents, analyzer.detectStrategies.
    rewrite Hnil, Hone. reflexivity.
  - intros Hnil Hnone.
    unfold analyzer.DetectComponents, analyzer.detectStrategies.
    rewrite Hnil, Hnone. reflexivity.
  - intros pattern dir info Hpat Hdir Hstat Hisdir.
    apply Hmono. eapply detectMonorepo_nonempty; eauto.
Qed.

End DetectorProperties.

(** ** The metadata extractor *)

Section ExtractorProperties.

Context {lib : analyzer.Library}.
Variable fs : os.Snapshot.

(** The loop of the Maven branch forms one dependency per position, from
    [i] up to the shorter of the two lists of matches. *)
Lemma pomLoop_positions groups artifacts versions fuel i deps :
  analyzer.pomLoop fuel i groups artifacts versions deps
  = deps ++ List.map (pomDependency groups artifacts versions)
              (List.seq i (Nat.min fuel
                             (Nat.min (length groups) (length artifacts) - i))).
Proof.
  revert i deps. induction fuel as [|fuel IH]; intros i deps.
  - cbn [analyzer.pomLoop Nat.min List.seq List.map]. now rewrite app_nil_r.
  - cbn [analyzer.pomLoop].
    destruct (Nat.ltb_spec i (length groups)) as [Hg | Hg];
      destruct (Nat.ltb_spec i (length artifacts)) as [Ha | Ha];
      cbn [andb].
    + rewrite IH.
      replace (Nat.min (length groups) (length artifacts) - i)%nat
        with (S (Nat.min (length groups) (length artifacts) - S i)) by lia.
      rewrite <- Nat.succ_min_distr. cbn [List.seq List.map].
      now rewrite <- app_assoc.
    + replace (Nat.min (length groups) (length artifacts) - i)%nat with 0%nat by lia.
      rewrite Nat.min_0_r. cbn [List.seq List.map]. now rewrite app_nil_r.
    + replace (Nat.min (length groups) (length artifacts) - i)%nat with 0%nat by lia.
      rewrite Nat.min_0_r. cbn [List.seq List.map]. now rewrite app_nil_r.
    + replace (Nat.min (length groups) (length artifacts) - i)%nat with 0%nat by lia.
      rewrite Nat.min_0_r. cbn [List.seq List.map]. now rewrite app_nil_r.
Qed.

Lemma extractJavaDependencies_pom (m : analyzer.MetadataExtractor)
    (path text : string) :
  os.ReadFile fs (analyzer.manifestPath path "pom.xml") = Ok text ->
  let groups :=
    analyzer.regexp_FindAllStringSubmatch "<groupId>([^<]+)</groupId>" text in
  let artifacts :=
    analyzer.regexp_FindAllStringSubmatch "<artifactId>([^<]+)</artifactId>" text in
  let versions :=
    analyzer.regexp_FindAllStringSubmatch "<version>([^<]+)</version>" text in
  analyzer.extractJavaDependencies fs m path
  = List.map (pomDependency groups artifacts versions)
      (List.seq 0 (Nat.min (length groups) (length artifacts))).
Proof.
  intros Hread groups artifacts versions.
  unfold analyzer.extractJavaDependencies. rewrite Hread.
  fold groups artifacts versions.
  rewrite pomLoop_positions. cbn [app]. f_equal. f_equal. lia.
Qed.

(** C8.  For a Maven manifest, the dependencies returned are as many as the
    shorter of the lists of groupId and artifactId matches, and the one at
    position [i] is named after the [i]-th groupId and the [i]-th
    artifactId, with the [i]-th version match as its version when there is
    one and the empty version otherwise. *)
Theorem extractJavaDependencies_positional (m : analyzer.MetadataExtractor)
    (path text : string) :
  os.ReadFile fs (analyzer.manifestPath path "pom.xml") = Ok text ->
  let groups :=
    analyzer.regexp_FindAllStringSubmatch "<groupId>([^<]+)</groupId>" text in
  let artifacts :=
    analyzer.regexp_FindAllStringSubmatch "<artifactId>([^<]+)</artifactId>" text in
  let versions :=
    analyzer.regexp_FindAllStringSubmatch "<version>([^<]+)</version>" text in
  let deps := analyzer.extractJavaDependencies fs m path in
  length deps = Nat.min (length groups) (length artifacts)
  /\ forall i, (i < Nat.min (length groups) (length artifacts))%nat ->
       exists dep,
         nth_error deps i = Some dep
         /\ analyzer.DepName dep
            = analyzer.group 1 (nth i groups []) +:+ ":"
              +:+ analyzer.group 1 (nth i artifacts [])
         /\ ((i < length versions)%nat ->
             analyzer.DepVersion dep = analyzer.group 1 (nth i versions []))
         /\ ((length versions <= i)%nat -> analyzer.DepVersion dep = "")
         /\ analyzer.DepType dep = "external".
Proof.
  intros Hread groups artifacts versions deps.
  pose proof (extractJavaDependencies_pom m path text Hread) as Hdeps.
  cbv zeta in Hdeps. fold groups artifacts versions deps in Hdeps.
  split.
  - rewrite Hdeps. now rewrite length_map, length_seq.
  - intros i Hi. exists (pomDependency groups artifacts versions i).
    split; [| split; [| split; [| split]]].
    + rewrite Hdeps, nth_error_map, nth_error_seq.
      destruct (Nat.ltb_spec i (Nat.min (length groups) (length artifacts)));
        [reflexivity | lia].
    + reflexivity.
    + intros Hv. unfold pomDependency. simpl.
      apply Nat.ltb_lt in Hv. now rewrite Hv.
    + intros Hv. unfold pomDependency. simpl.
      apply Nat.ltb_ge in Hv. now rewrite Hv.
    + reflexivity.
Qed.

End ExtractorProperties.

(** ** Walking a tree *)

(** Induction on a node, with the property available for every entry of a
    directory that could be examined. *)
Lemma Node_nested_ind (P : os.Node -> Prop)
    (HFile : forall size, P (os.File size))
    (HLocked : forall err, P (os.Dir (Err err)))
    (HDir : forall names,
        Forall (fun entry : string * result os.Node =>
                  match snd entry with Ok child => P child | Err _ => True end)
               names ->
        P (os.Dir (Ok names))) :
  forall n, P n.
Proof.
  fix rec 1. intros [size | [names | err]].
  - apply HFile.
  - apply HDir. induction names as [|[name [child | err]] rest IH].
    + constructor.
    + constructor; [apply rec | exact IH].
    + constructor; [exact I | exact IH].
  - apply HLocked.
Qed.

(** ** The scanner *)

Section ScannerProperties.

Context {lib : analyzer.Library}.
Variable fs : os.Snapshot.

#[local] Arguments filepath_Join : simpl never.
#[local] Arguments filepath_Rel : simpl never.
#[local] Arguments analyzer.shouldExclude : simpl never.
#[local] Arguments analyzer.detectLanguage : simpl never.
#[local] Arguments analyzer.isTestFile : simpl never.

Lemma scanFn_file s path size st :
  snd (analyzer.scanFn s path (os.Entry (os.info (os.File size))) st)
  = os.Continue.
Proof.
  unfold analyzer.scanFn. simpl.
  destruct (analyzer.shouldExclude s path); [reflexivity |].
  destruct st as [[files languages] total]. reflexivity.
Qed.

Lemma scanFn_dir s path listing st :
  analyzer.scanFn s path (os.Entry (os.info (os.Dir listing))) st
  = (st, if analyzer.shouldExclude s path then os.SkipDir else os.Continue).
Proof.
  unfold analyzer.scanFn. simpl.
  now destruct (analyzer.shouldExclude s path).
Qed.

(** The walk of [Scan] over a node fails exactly with the first error it
    meets, and never answers [SkipDir] for a file. *)
Lemma walk_scanFn_error s n :
  forall path st,
    retError (snd (os.walk (analyzer.scanFn s) path n st)) = firstError s path n
    /\ (os.IsDir (os.info n) = false ->
        snd (os.walk (analyzer.scanFn s) path n st) <> os.SkipDir).
Proof.
  induction n as [size | err | names IH] using Node_nested_ind; intros path st.
  - cbn [os.walk firstError]. rewrite scanFn_file. split; [reflexivity | discriminate].
  - cbn [os.walk firstError analyzer.scanFn snd retError].
    split; [reflexivity | discriminate].
  - split; [| discriminate].
    cbn [os.walk firstError]. rewrite scanFn_dir.
    destruct (analyzer.shouldExclude s path); [reflexivity |].
    revert st. induction IH as [|[name [child | err]] rest Hchild _ IHrest];
      intros st.
    + reflexivity.
    + cbn [snd] in Hchild.
      destruct (Hchild (filepath_Join [path; name]) st) as [Herr Hskip].
      destruct (os.walk (analyzer.scanFn s) (filepath_Join [path; name]) child st)
        as [st' r] eqn:Hwalk.
      cbn [snd] in Herr, Hskip. rewrite <- Herr.
      destruct r as [| | e]; cbn [retError].
      * apply IHrest.
      * destruct (os.IsDir (os.info child)) eqn:Hd; [apply IHrest |].
        now destruct Hskip.
      * reflexivity.
    + cbn [analyzer.scanFn]. reflexivity.
Qed.

(** C5 (amended).  [Scan] returns an error, wrapping it, as soon as the walk
    meets one: when the root cannot be examined, and equally when a
    directory below it cannot be read or an entry cannot be examined.  No
    such error is passed over; [Scan] returns a structure exactly when the
    walk meets none.  (An entry below a directory the scan leaves out is not
    visited and cannot fail the scan.) *)
Theorem Scan_fails_on_first_error (s : analyzer.Scanner) :
  (forall err,
     os.Lstat fs (analyzer.Scanner_rootPath s) = Err err ->
     analyzer.Scan fs s = Err ("failed to scan repository: " +:+ err))
  /\ (forall n err,
      os.Lstat fs (analyzer.Scanner_rootPath s) = Ok n ->
      firstError s (analyzer.Scanner_rootPath s) n = Some err ->
      analyzer.Scan fs s = Err ("failed to scan repository: " +:+ err))
  /\ (forall n,
      os.Lstat fs (analyzer.Scanner_rootPath s) = Ok n ->
      firstError s (analyzer.Scanner_rootPath s) n = None ->
      exists structure, analyzer.Scan fs s = Ok structure).
Proof.
  split; [| split].
  - intros err Hroot. unfold analyzer.Scan, os.Walk. rewrite Hroot.
    cbn [analyzer.scanFn]. reflexivity.
  - intros n err Hroot Hfirst. unfold analyzer.Scan, os.Walk. rewrite Hroot.
    destruct (walk_scanFn_error s n (analyzer.Scanner_rootPath s) ([], ∅, 0%Z))
      as [Herr _].
    rewrite Hfirst in Herr.
    destruct (os.walk _ _ _ _) as [[[files languages] total] r].
    cbn [snd] in Herr. destruct r; try discriminate.
    now injection Herr as ->.
  - intros n Hroot Hfirst. unfold analyzer.Scan, os.Walk. rewrite Hroot.
    destruct (walk_scanFn_error s n (analyzer.Scanner_rootPath s) ([], ∅, 0%Z))
      as [Herr _].
    rewrite Hfirst in Herr.
    destruct (os.walk _ _ _ _) as [[[files languages] total] r].
    cbn [snd] in Herr. destruct r; try discriminate; eauto.
Qed.

End ScannerProperties.

(** ** Missing and malformed manifests *)

Section DegradationProperties.

Context {lib : analyzer.Library}.
Variable fs : os.Snapshot.

Lemma unreadable (path : string) :
  isOk (os.ReadFile fs path) = false -> exists err, os.ReadFile fs path = Err err.
Proof. destruct (os.ReadFile fs path); [discriminate | eauto]. Qed.

Lemma fold_csprojEntry_none path files deps :
  Forall
    (fun file =>
       isOk (os.ReadFile fs (filepath_Join [path; os.Name file])) = false)
    (List.filter
       (fun file => negb (os.EntryIsDir file)
                    && strings_HasSuffix (os.Name file) ".csproj") files) ->
  List.fold_left (analyzer.csprojEntry fs path) files deps = deps.
Proof.
  revert deps. induction files as [|file rest IH]; intros deps Hnone;
    [reflexivity |].
  cbn [List.filter] in Hnone. cbn [List.fold_left].
  unfold analyzer.csprojEntry at 2.
  destruct (negb (os.EntryIsDir file)
            && strings_HasSuffix (os.Name file) ".csproj");
    [| now apply IH].
  apply List.Forall_cons_iff in Hnone as [Hfile Hrest]. cbv zeta.
  destruct (unreadable _ Hfile) as [err ->]. now apply IH.
Qed.

Lemma ExtractDependencies_missing (m : analyzer.MetadataExtractor)
    (comp : analyzer.Component) :
  manifestsMissing fs comp -> analyzer.ExtractDependencies fs m comp = [].
Proof.
  intros [Hfiles Hproject].
  unfold manifestFiles in Hfiles. unfold analyzer.ExtractDependencies.
  destruct (String.eqb (analyzer.Language comp) "go").
  { destruct (unreadable _ (Hfiles "go.mod" ltac:(now left))) as [err Herr].
    unfold analyzer.extractGoDependencies. now rewrite Herr. }
  destruct (String.eqb (analyzer.Language comp) "python").
  { destruct (unreadable _ (Hfiles "requirements.txt" ltac:(now left)))
      as [err Herr].
    destruct (unreadable _ (Hfiles "pyproject.toml" ltac:(right; now left)))
      as [err' Herr'].
    unfold analyzer.extractPythonDependencies. now rewrite Herr, Herr'. }
  destruct (String.eqb (analyzer.Language comp) "javascript"
            || String.eqb (analyzer.Language comp) "typescript").
  { destruct (unreadable _ (Hfiles "package.json" ltac:(now left))) as [err Herr].
    unfold analyzer.extractNodeDependencies. now rewrite Herr. }
  destruct (String.eqb (analyzer.Language comp) "rust").
  { destruct (unreadable _ (Hfiles "Cargo.toml" ltac:(now left))) as [err Herr].
    unfold analyzer.extractRustDependencies. now rewrite Herr. }
  destruct (String.eqb (analyzer.Language comp) "java").
  { destruct (unreadable _ (Hfiles "pom.xml" ltac:(now left))) as [err Herr].
    destruct (unreadable _ (Hfiles "build.gradle" ltac:(right; now left)))
      as [err' Herr'].
    unfold analyzer.extractJavaDependencies. now rewrite Herr, Herr'. }
  destruct (String.eqb (analyzer.Language comp) "ruby").
  { destruct (unreadable _ (Hfiles "Gemfile" ltac:(now left))) as [err Herr].
    unfold analyzer.extractRubyDependencies. now rewrite Herr. }
  destruct (String.eqb_spec (analyzer.Language comp) "csharp") as [Hcs | _];
    [| reflexivity].
  specialize (Hproject Hcs).
  unfold analyzer.extractCSharpDependencies.
  unfold projectFiles in Hproject.
  destruct (os.ReadDir fs (analyzer.Path comp)) as [files [err |]];
    [reflexivity |].
  cbn [fst snd] in Hproject. destruct Hproject as [Herr | Hnone];
    [congruence |].
  now apply fold_csprojEntry_none.
Qed.

Lemma extractNodeDependencies_rejected (m : analyzer.MetadataExtractor)
    (path content : string) pkg err :
  os.ReadFile fs (analyzer.manifestPath path "package.json") = Ok content ->
  analyzer.json_Unmarshal content = (pkg, Some err) ->
  analyzer.extractNodeDependencies fs m path = [].
Proof.
  intros Hread Hjson. unfold analyzer.extractNodeDependencies.
  now rewrite Hread, Hjson.
Qed.

(** C4 (amended).  Dependency extraction has no failure to report.  A
    component none of whose manifests can be read gets the empty list; so
    does a Node component whose package manifest the JSON decoder rejects.
    (The other manifests are scanned by line or by pattern: no content is
    rejected, and what the scan recognises is returned.)  The pipeline
    fails only if the scan does. *)
Theorem ExtractDependencies_degrades (m : analyzer.MetadataExtractor)
    (comp : analyzer.Component) :
  (manifestsMissing fs comp -> analyzer.ExtractDependencies fs m comp = [])
  /\ (forall content pkg err,
      analyzer.Language comp = "javascript"
      \/ analyzer.Language comp = "typescript" ->
      os.ReadFile fs (analyzer.manifestPath (analyzer.Path comp) "package.json")
      = Ok content ->
      analyzer.json_Unmarshal content = (pkg, Some err) ->
      analyzer.ExtractDependencies fs m comp = [])
  /\ (forall a structure,
      analyzer.Scan fs (analyzer.scanner a) = Ok structure ->
      exists analysed, analyzer.Analyze fs a = Ok analysed).
Proof.
  split; [apply ExtractDependencies_missing |]. split.
  - intros content pkg err Hlang Hread Hjson.
    unfold analyzer.ExtractDependencies.
    destruct Hlang as [-> | ->]; cbn [String.eqb Ascii.eqb Bool.eqb orb];
      eapply extractNodeDependencies_rejected; eauto.
  - intros a structure Hscan. unfold analyzer.Analyze. rewrite Hscan.
    unfold analyzer.DetectComponents. eauto.
Qed.

End DegradationProperties.

(** ** Paths made of plain names *)

Lemma prefix_empty (s : string) : String.prefix "" s = true.
Proof. now destruct s. Qed.

Lemma prefix_slash (a : ascii) (s : string) :
  String.prefix "/" (String a s) = Ascii.eqb "/" a.
Proof.
  cbn [String.prefix]. destruct (ascii_dec "/" a) as [<- | Hne].
  - now rewrite prefix_empty.
  - symmetry. now apply Ascii.eqb_neq.
Qed.

Lemma prefix_app (a b : string) : String.prefix a (a +:+ b) = true.
Proof.
  induction a as [|x a IH]; [apply prefix_empty |].
  cbn [String.append String.prefix].
  destruct (ascii_dec x x); [exact IH | congruence].
Qed.

Lemma contains_slash_cons (a : ascii) (e : string) :
  strings_Contains (String a e) "/" = false ->
  Ascii.eqb "/" a = false /\ strings_Contains e "/" = false.
Proof.
  cbn [strings_Contains]. rewrite prefix_slash.
  intros H. now apply orb_false_elim in H.
Qed.

Lemma rev_app_rev_app (e acc rest : string) :
  String.rev_app (String.rev_app e acc) rest
  = String.rev_app acc (e +:+ rest).
Proof.
  revert acc rest. induction e as [|a e IH]; intros acc rest; [reflexivity |].
  cbn [String.rev_app String.append]. now rewrite IH.
Qed.

Lemma rev_rev_app (e : string) :
  String.rev (String.rev_app e "") = e.
Proof.
  unfold String.rev. rewrite rev_app_rev_app. cbn [String.rev_app].
  apply string_app_nil_r.
Qed.

(** Reading a piece without a slash only extends the piece being read. *)
Lemma splitGo_piece (e cur s : string) :
  strings_Contains e "/" = false ->
  splitGo "/" 0 cur (e +:+ s) = splitGo "/" 0 (String.rev_app e cur) s.
Proof.
  revert cur. induction e as [|a e IH]; intros cur Hno; [reflexivity |].
  apply contains_slash_cons in Hno as [Ha He].
  cbn [String.append splitGo]. rewrite prefix_slash, Ha.
  cbn [String.rev_app]. now apply IH.
Qed.

Lemma splitGo_slash (cur s : string) :
  splitGo "/" 0 cur ("/" +:+ s) = String.rev cur :: splitGo "/" 0 "" s.
Proof.
  change ("/" +:+ s) with (String "/" s). cbn [splitGo].
  rewrite prefix_slash. reflexivity.
Qed.

Lemma splitGo_concat (e : string) (es : list string) (cur : string) :
  forallb (fun x => negb (strings_Contains x "/")) (e :: es) = true ->
  splitGo "/" 0 cur (String.concat "/" (e :: es))
  = String.rev (String.rev_app e cur) :: es.
Proof.
  revert e cur. induction es as [|e' es IH]; intros e cur Hno.
  - cbn [String.concat]. cbn [forallb] in Hno.
    apply andb_prop in Hno as [He _]. apply negb_true_iff in He.
    rewrite <- (string_app_nil_r e) at 1.
    rewrite splitGo_piece by assumption. reflexivity.
  - cbn [forallb] in Hno. apply andb_prop in Hno as [He Hrest].
    apply negb_true_iff in He.
    change (String.concat "/" (e :: e' :: es))
      with (e +:+ "/" +:+ String.concat "/" (e' :: es)).
    rewrite splitGo_piece by assumption. rewrite splitGo_slash.
    rewrite IH by exact Hrest. now rewrite rev_rev_app.
Qed.

Lemma plainName_facts (name : string) :
  plainName name = true ->
  name <> "" /\ strings_Contains name "/" = false
  /\ name <> "." /\ name <> "..".
Proof.
  unfold plainName, nonEmpty. intros H.
  apply andb_prop in H as [H Hdd]. apply andb_prop in H as [H Hd].
  apply andb_prop in H as [Hne Hslash].
  apply negb_true_iff in Hne, Hslash, Hd, Hdd.
  apply String.eqb_neq in Hne, Hd, Hdd. auto.
Qed.

Lemma plain_noSlash (es : list string) :
  forallb plainName es = true ->
  forallb (fun x => negb (strings_Contains x "/")) es = true.
Proof.
  induction es as [|e es IH]; [reflexivity |]. cbn [forallb].
  intros H. apply andb_prop in H as [He Hes].
  apply plainName_facts in He as (_ & -> & _). now rewrite IH.
Qed.

Lemma plain_nonEmpty (es : list string) :
  forallb plainName es = true -> List.filter nonEmpty es = es.
Proof.
  induction es as [|e es IH]; [reflexivity |]. cbn [forallb List.filter].
  intros H. apply andb_prop in H as [He Hes].
  apply plainName_facts in He as (Hne & _).
  unfold nonEmpty at 1. apply String.eqb_neq in Hne. rewrite Hne.
  cbn [negb]. now rewrite IH.
Qed.

(** The elements of a path of plain names are those names. *)
Lemma pathElems_plain (es : list string) :
  es <> [] -> forallb plainName es = true ->
  pathElems (strings_Join es "/") = es.
Proof.
  intros Hne Hplain. destruct es as [|e es]; [congruence |].
  unfold pathElems, strings_Join, strings_Split.
  rewrite splitGo_concat by now apply plain_noSlash.
  cbn [String.rev_app]. rewrite rev_rev_app. now apply plain_nonEmpty.
Qed.

Lemma cleanStep_plain (es acc : list string) :
  forallb plainName es = true ->
  List.fold_left (cleanStep false) es acc = List.rev es ++ acc.
Proof.
  revert acc. induction es as [|e es IH]; intros acc Hplain; [reflexivity |].
  cbn [forallb] in Hplain. apply andb_prop in Hplain as [He Hes].
  apply plainName_facts in He as (_ & _ & Hd & Hdd).
  apply String.eqb_neq in Hd, Hdd.
  cbn [List.fold_left]. unfold cleanStep at 2. rewrite Hd, Hdd.
  rewrite IH by assumption. cbn [List.rev]. now rewrite <- app_assoc.
Qed.

Lemma join_plain_head (e : string) (es : list string) :
  plainName e = true ->
  exists a rest, strings_Join (e :: es) "/" = String a rest
                 /\ Ascii.eqb "/" a = false.
Proof.
  intros He. apply plainName_facts in He as (Hne & Hslash & _).
  destruct e as [|a e]; [congruence |].
  apply contains_slash_cons in Hslash as [Ha _].
  unfold strings_Join. destruct es as [|e' es].
  - exists a, e. now split.
  - exists a, (e +:+ "/" +:+ String.concat "/" (e' :: es)). now split.
Qed.

Lemma join_plain_not_rooted (es : list string) :
  es <> [] -> forallb plainName es = true ->
  strings_HasPrefix (strings_Join es "/") "/" = false
  /\ strings_Join es "/" <> "".
Proof.
  intros Hne Hplain. destruct es as [|e es]; [congruence |].
  cbn [forallb] in Hplain. apply andb_prop in Hplain as [He _].
  destruct (join_plain_head e es He) as (a & rest & -> & Ha).
  unfold strings_HasPrefix. rewrite prefix_slash. now split.
Qed.

(** [Clean] leaves a path of plain names as it is. *)
Lemma Clean_plain (es : list string) :
  es <> [] -> forallb plainName es = true ->
  filepath_Clean (strings_Join es "/") = strings_Join es "/".
Proof.
  intros Hne Hplain.
  destruct (join_plain_not_rooted es Hne Hplain) as [Hroot Hbody].
  unfold filepath_Clean. rewrite Hroot.
  rewrite pathElems_plain by assumption.
  rewrite cleanStep_plain by assumption.
  rewrite app_nil_r, rev_involutive.
  apply String.eqb_neq in Hbody. now rewrite Hbody.
Qed.

Lemma concat_snoc (es : list string) (n : string) :
  es <> [] ->
  String.concat "/" (es ++ [n]) = String.concat "/" es +:+ "/" +:+ n.
Proof.
  induction es as [|e es IH]; [congruence |]. intros _.
  destruct es as [|e' es]; [reflexivity |].
  change (String.concat "/" ((e :: e' :: es) ++ [n]))
    with (e +:+ "/" +:+ String.concat "/" ((e' :: es) ++ [n])).
  rewrite IH by discriminate.
  change (String.concat "/" (e :: e' :: es))
    with (e +:+ "/" +:+ String.concat "/" (e' :: es)).
  now rewrite !string_app_assoc.
Qed.

Lemma concat_app (es more : list string) :
  es <> [] ->
  exists tail, String.concat "/" (es ++ more) = String.concat "/" es +:+ tail.
Proof.
  revert es. induction more as [|n more IH]; intros es Hne.
  - exists "". now rewrite app_nil_r, string_app_nil_r.
  - destruct (IH (es ++ [n])) as [tail Htail]; [now destruct es |].
    rewrite <- app_assoc in Htail. cbn [app] in Htail.
    rewrite Htail, concat_snoc by assumption.
    exists ("/" +:+ n +:+ tail). now rewrite !string_app_assoc.
Qed.

(** Joining a plain name to a path of plain names appends it. *)
Lemma Join_plain (es : list string) (n : string) :
  es <> [] -> forallb plainName es = true -> plainName n = true ->
  filepath_Join [strings_Join es "/"; n] = strings_Join (es ++ [n]) "/".
Proof.
  intros Hne Hplain Hn.
  destruct (join_plain_not_rooted es Hne Hplain) as [_ Hbody].
  pose proof (plainName_facts n Hn) as (Hnn & _).
  unfold filepath_Join. cbn [List.filter]. unfold nonEmpty.
  apply String.eqb_neq in Hbody, Hnn. rewrite Hbody, Hnn. cbn [negb].
  assert (Hall : forallb plainName (es ++ [n]) = true).
  { rewrite forallb_app, Hplain. cbn [forallb]. now rewrite Hn. }
  rewrite <- (Clean_plain (es ++ [n])); [| now destruct es | exact Hall].
  f_equal. unfold strings_Join at 1 3. cbn [String.concat].
  rewrite concat_snoc by assumption.
  destruct (strings_Join es "/") eqn:E; [now apply String.eqb_neq in Hbody |].
  unfold strings_Join in E. now rewrite E.
Qed.

(** A path of plain names is its own path relative to the current
    directory. *)
Lemma Rel_dot_plain (es : list string) :
  es <> [] -> forallb plainName es = true ->
  filepath_Rel "." (strings_Join es "/") = Ok (strings_Join es "/").
Proof.
  intros Hne Hplain.
  destruct (join_plain_not_rooted es Hne Hplain) as [Hroot _].
  unfold filepath_Rel. rewrite Clean_plain by assumption.
  change (filepath_Clean ".") with ".".
  destruct (String.eqb_spec (strings_Join es "/") ".") as [Hdot | _].
  - exfalso. pose proof (pathElems_plain es Hne Hplain) as Helems.
    rewrite Hdot in Helems. change (pathElems ".") with ["."] in Helems.
    rewrite <- Helems in Hplain. discriminate.
  - cbn [String.eqb Ascii.eqb Bool.eqb]. rewrite Hroot.
    change (strings_HasPrefix "" "/") with false. cbn [Bool.eqb negb].
    rewrite pathElems_plain by assumption.
    change (pathElems "") with (@nil string). reflexivity.
Qed.

(** ** The files of a component *)

Lemma fst_Walk {St : Type} (fn : string -> os.WalkArg -> St -> St * os.WalkRet)
    (fs : os.Snapshot) (root : string) (st : St) :
  fst (os.Walk fn fs root st)
  = match os.Lstat fs root with
    | Err err => fst (fn root (os.LstatFailed err) st)
    | Ok n => fst (os.walk fn root n st)
    end.
Proof.
  unfold os.Walk. destruct (os.Lstat fs root) as [n | err].
  - now destruct (os.walk fn root n st) as [st' []].
  - now destruct (fn root (os.LstatFailed err) st) as [st' []].
Qed.

Lemma namesIn_any (n : os.Node) : namesIn (fun _ => true) n = true.
Proof.
  induction n as [size | err | names IH] using Node_nested_ind;
    [reflexivity | reflexivity |].
  cbn [namesIn]. induction IH as [|[name [child | err]] rest Hchild _ IHrest];
    [reflexivity | |].
  - cbn [snd] in Hchild. cbn [andb]. now rewrite Hchild.
  - cbn [andb]. exact IHrest.
Qed.

Section FilesProperties.

Variable fs : os.Snapshot.
Variable d : analyzer.Detector.

#[local] Arguments filepath_Join : simpl never.
#[local] Arguments filepath_Rel : simpl never.
#[local] Arguments filepath_Base : simpl never.
#[local] Arguments analyzer.isSourceFile : simpl never.

Abbreviation recorded := (recordedBy (analyzer.Detector_rootPath d)).

(** The walk of [collectComponentFiles] only appends, and what it appends
    are the root-relative forms of source paths it visits; the visited paths
    keep any property [Q] that holds of the start and passes to the join
    with a listed name. *)
Lemma walk_collectFn_recorded (okName : string -> bool) (Q : string -> Prop) :
  (forall dir name,
     Q dir -> okName name = true -> Q (filepath_Join [dir; name])) ->
  forall n, namesIn okName n = true ->
  forall path files, Q path ->
    exists added,
      fst (os.walk (analyzer.collectFn d) path n files) = files ++ added
      /\ Forall (recorded Q) added.
Proof.
  intros Hjoin n.
  induction n as [size | err | names IH] using Node_nested_ind;
    intros Hnames path files Hpath.
  - cbn [os.walk os.info analyzer.collectFn os.IsDir].
    destruct (analyzer.isSourceFile path) eqn:Hsrc.
    + eexists. split; [reflexivity |]. constructor; [| constructor].
      exists path. auto.
    + exists []. split; [now rewrite app_nil_r | constructor].
  - cbn [os.walk analyzer.collectFn fst].
    exists []. split; [now rewrite app_nil_r | constructor].
  - cbn [os.walk os.info analyzer.collectFn os.IsDir].
    destruct (String.eqb (filepath_Base path) "node_modules"
              || String.eqb (filepath_Base path) "vendor"
              || String.eqb (filepath_Base path) ".git").
    { exists []. split; [now rewrite app_nil_r | constructor]. }
    cbn [namesIn] in Hnames. revert files Hnames.
    induction IH as [|[name [child | err]] rest Hchild _ IHrest];
      intros files Hnames.
    + exists []. split; [now rewrite app_nil_r | constructor].
    + cbn [snd] in Hchild.
      apply andb_prop in Hnames as [Hnames Hrest].
      apply andb_prop in Hnames as [Hname Hsub].
      destruct (Hchild Hsub (filepath_Join [path; name]) files
                  (Hjoin _ _ Hpath Hname)) as (added & Hfst & Hadded).
      destruct (os.walk (analyzer.collectFn d) (filepath_Join [path; name])
                  child files) as [files' r].
      cbn [fst] in Hfst. subst files'.
      destruct (IHrest (files ++ added) Hrest) as (added' & Hfst' & Hadded').
      destruct r as [| | e].
      * exists (added ++ added'). rewrite app_assoc. split; [exact Hfst' |].
        now apply Forall_app.
      * destruct (os.IsDir (os.info child)).
        -- exists (added ++ added'). rewrite app_assoc. split; [exact Hfst' |].
           now apply Forall_app.
        -- exists added. now split.
      * exists added. now split.
    + apply andb_prop in Hnames as [_ Hrest].
      cbn [analyzer.collectFn]. apply IHrest. exact Hrest.
Qed.

Lemma collectComponentFiles_recorded (okName : string -> bool)
    (Q : string -> Prop) (path : string) :
  (forall dir name,
     Q dir -> okName name = true -> Q (filepath_Join [dir; name])) ->
  (forall n, os.Lstat fs path = Ok n -> namesIn okName n = true) ->
  Q path ->
  Forall (recorded Q) (analyzer.collectComponentFiles fs d path).
Proof.
  intros Hjoin Hnames Hpath. unfold analyzer.collectComponentFiles.
  rewrite fst_Walk. destruct (os.Lstat fs path) as [n | err].
  - destruct (walk_collectFn_recorded okName Q Hjoin n (Hnames n eq_refl)
                path [] Hpath) as (added & -> & Hadded).
    exact Hadded.
  - cbn [analyzer.collectFn fst]. constructor.
Qed.

Lemma enrichComponent_Files (comp : analyzer.Component)
    (structure : analyzer.RepoStructure) :
  analyzer.Files (analyzer.enrichComponent fs d comp structure)
  = analyzer.collectComponentFiles fs d (analyzer.Path comp)
  /\ analyzer.Path (analyzer.enrichComponent fs d comp structure)
     = analyzer.Path comp.
Proof.
  unfold analyzer.enrichComponent.
  destruct (String.eqb _ ""); now split.
Qed.

Lemma DetectComponents_enriched (structure : analyzer.RepoStructure)
    (comps : list analyzer.Component) (comp : analyzer.Component) :
  analyzer.DetectComponents fs d structure = Ok comps ->
  In comp comps ->
  analyzer.Files comp
  = analyzer.collectComponentFiles fs d (analyzer.Path comp).
Proof.
  unfold analyzer.DetectComponents. intros [= <-] Hin.
  apply in_map_iff in Hin as (comp0 & <- & _).
  destruct (enrichComponent_Files comp0 structure) as [-> ->]. reflexivity.
Qed.

(** The walk of [collectComponentFiles] appends the source files at or
    below the path it starts from, in the order of the walk, written
    relative to the detector's root; it never fails, and it skips only at a
    directory. *)
Lemma walk_collectFn_exact (n : os.Node) :
  forall path files,
    fst (os.walk (analyzer.collectFn d) path n files)
    = files
      ++ List.map
           (fun p => orEmpty (filepath_Rel (analyzer.Detector_rootPath d) p))
           (List.filter analyzer.isSourceFile (filesUnder path n))
    /\ (snd (os.walk (analyzer.collectFn d) path n files) = os.Continue
        \/ (snd (os.walk (analyzer.collectFn d) path n files) = os.SkipDir
            /\ os.IsDir (os.info n) = true)).
Proof.
  induction n as [size | err | names IH] using Node_nested_ind;
    intros path files.
  - cbn [os.walk os.info analyzer.collectFn os.IsDir filesUnder List.filter].
    destruct (analyzer.isSourceFile path); cbn [fst snd List.map].
    + split; [reflexivity | now left].
    + split; [now rewrite app_nil_r | now left].
  - cbn [os.walk analyzer.collectFn fst snd filesUnder List.filter List.map].
    split; [now rewrite app_nil_r | now left].
  - cbn [os.walk os.info analyzer.collectFn os.IsDir filesUnder].
    fold (skipped path).
    destruct (skipped path); cbn [fst snd List.filter List.map].
    { split; [now rewrite app_nil_r | right; now split]. }
    revert files.
    induction IH as [|[name [child | err]] rest Hchild _ IHrest];
      intros files.
    + cbn [fst snd List.filter List.map].
      split; [now rewrite app_nil_r | now left].
    + cbn [snd] in Hchild.
      destruct (Hchild (filepath_Join [path; name]) files) as [Hfst Hret].
      destruct (os.walk (analyzer.collectFn d) (filepath_Join [path; name])
                  child files) as [files' r].
      cbn [fst snd] in Hfst, Hret. subst files'.
      rewrite List.filter_app, List.map_app, app_assoc.
      destruct Hret as [-> | [-> ->]]; apply IHrest.
    + cbn [analyzer.collectFn]. apply IHrest.
Qed.

(** C6 (amended).  After enrichment, every entry of a component's files is
    the path, relative to the detector's root, of a source file found at or
    below the component's path in the file system (the empty string where
    no relative path exists).  When the detector's root is the current
    directory and the component's path is a relative path of plain names,
    the component's path is a prefix of every entry. *)
Theorem Files_below_Path (structure : analyzer.RepoStructure)
    (comps : list analyzer.Component) (comp : analyzer.Component) :
  analyzer.DetectComponents fs d structure = Ok comps ->
  In comp comps ->
  (forall f, In f (analyzer.Files comp) ->
     exists n p,
       os.Lstat fs (analyzer.Path comp) = Ok n
       /\ In p (filesUnder (analyzer.Path comp) n)
       /\ analyzer.isSourceFile p = true
       /\ f = orEmpty (filepath_Rel (analyzer.Detector_rootPath d) p))
  /\ (analyzer.Detector_rootPath d = "." ->
      plainRelative (analyzer.Path comp) ->
      (forall n, os.Lstat fs (analyzer.Path comp) = Ok n ->
                 namesIn plainName n = true) ->
      forall f, In f (analyzer.Files comp) ->
                strings_HasPrefix f (analyzer.Path comp) = true).
Proof.
  intros Hdetect Hin.
  rewrite (DetectComponents_enriched structure comps comp Hdetect Hin).
  split.
  - intros f. unfold analyzer.collectComponentFiles. rewrite fst_Walk.
    destruct (os.Lstat fs (analyzer.Path comp)) as [n | err];
      [| intros []].
    destruct (walk_collectFn_exact n (analyzer.Path comp) []) as [-> _].
    cbn [app]. intros Hf.
    apply in_map_iff in Hf as (p & <- & Hp).
    apply filter_In in Hp as [Hunder Hsrc].
    exists n, p. auto.
  - intros Hroot (es & Hne & Hplain & Hpath) Hnames f Hf.
    set (Q := fun p : string =>
                exists more, forallb plainName more = true
                             /\ p = strings_Join (es ++ more) "/").
    assert (Hrec : Forall (recorded Q)
                     (analyzer.collectComponentFiles fs d (analyzer.Path comp))).
    { apply (collectComponentFiles_recorded plainName).
      - intros dir name (more & Hmore & ->) Hname.
        exists (more ++ [name]). split.
        + rewrite forallb_app, Hmore. cbn [forallb]. now rewrite Hname.
        + rewrite app_assoc. apply Join_plain;
            [now destruct es | now rewrite forallb_app, Hplain, Hmore
            | exact Hname].
      - exact Hnames.
      - exists []. split; [reflexivity | now rewrite app_nil_r]. }
    rewrite List.Forall_forall in Hrec.
    destruct (Hrec f Hf) as (p & (more & Hmore & ->) & _ & ->).
    rewrite Hroot, Rel_dot_plain;
      [| now destruct es | now rewrite forallb_app, Hplain, Hmore].
    cbn [orEmpty]. rewrite Hpath. unfold strings_Join, strings_HasPrefix.
    destruct (concat_app es more Hne) as [tail ->]. apply prefix_app.
Qed.

End FilesProperties.

(** ** The analyzer on concrete repositories *)

(** [repoBoth] has a Go manifest at its root and a directory under
    services: detection answers with the service. *)
Lemma DetectComponents_strategy_order_witness :
  analyzer.fileExists fsBoth here "go.mod" = true
  /\ analyzer.DetectComponents fsBoth here emptyStructure = Ok [serviceA].
Proof.
  split; [reflexivity |].
  etransitivity.
  - apply (proj2 (proj2 (proj2
             (DetectComponents_strategy_order fsBoth here emptyStructure)))
             "services/*" "services/a" {| os.IsDir := true; os.Size := 0 |}).
    + left. reflexivity.
    + left. reflexivity.
    + reflexivity.
    + reflexivity.
  - reflexivity.
Defined.

(** [repoMany] shows the signatures of Rust, Go and Node: Go is chosen. *)
Lemma detectSingleComponent_priority_witness :
  option_map analyzer.Language (analyzer.detectSingleComponent fsMany here)
  = Some "go".
Proof.
  etransitivity.
  - apply (proj1 (detectSingleComponent_priority fsMany here)).
  - reflexivity.
Defined.

(** C6 as stated fails for a single-component repository: the component's
    path is the current directory, written as a dot, and its one file is
    recorded as main.go. *)
Lemma Files_below_Path_counterexample :
  analyzer.DetectComponents fsSingle here emptyStructure = Ok [rootModule]
  /\ analyzer.Path rootModule = "."
  /\ analyzer.Files rootModule = ["main.go"]
  /\ strings_HasPrefix "main.go" (analyzer.Path rootModule) = false.
Proof. repeat split. Qed.

Lemma Files_below_Path_witness :
  analyzer.DetectComponents fsBoth here emptyStructure = Ok [serviceA]
  /\ analyzer.Files serviceA = ["services/a/main.go"]
  /\ strings_HasPrefix "services/a/main.go" (analyzer.Path serviceA) = true.
Proof.
  split; [reflexivity |]. split; [reflexivity |].
  apply (proj2 (Files_below_Path fsBoth here emptyStructure [serviceA] serviceA
                  eq_refl (or_introl eq_refl))).
  - reflexivity.
  - exists ["services"; "a"]. repeat split. discriminate.
  - intros n Hn. injection Hn as <-. reflexivity.
  - left. reflexivity.
Defined.

(** C5 as stated fails: the root of [repoLocked] can be examined and read,
    and the scan still returns the error of the directory below it. *)
Lemma Scan_fails_on_first_error_counterexample :
  isOk (os.Lstat fsLocked ".") = true
  /\ os.ReadDir fsLocked "."
     = ([{| os.Name := "main.go"; os.EntryIsDir := false |};
         {| os.Name := "private"; os.EntryIsDir := true |}], None)
  /\ analyzer.Scan (lib := exampleLibrary) fsLocked (analyzer.NewScanner "." [])
     = Err "failed to scan repository: permission denied".
Proof. repeat split. Qed.

Lemma Scan_fails_on_first_error_witness :
  analyzer.Scan (lib := exampleLibrary) fsSingle (analyzer.NewScanner "missing" [])
  = Err "failed to scan repository: lstat missing: no such file or directory"
  /\ analyzer.Scan (lib := exampleLibrary) fsLocked (analyzer.NewScanner "." [])
     = Err "failed to scan repository: permission denied"
  /\ exists structure,
       analyzer.Scan (lib := exampleLibrary) fsSingle (analyzer.NewScanner "." [])
       = Ok structure.
Proof.
  split; [| split].
  - apply (proj1 (Scan_fails_on_first_error (lib := exampleLibrary) fsSingle
                    (analyzer.NewScanner "missing" []))).
    reflexivity.
  - apply (proj1 (proj2 (Scan_fails_on_first_error (lib := exampleLibrary)
                           fsLocked (analyzer.NewScanner "." [])))
             (nodeOf repoLocked)); reflexivity.
  - apply (proj2 (proj2 (Scan_fails_on_first_error (lib := exampleLibrary)
                           fsSingle (analyzer.NewScanner "." [])))
             (nodeOf repoSingle)); reflexivity.
Defined.

(** C4 as stated fails for a manifest that is scanned rather than parsed:
    the crate manifest of [repoCargo] is not TOML, and its dependency is
    returned. *)
Lemma ExtractDependencies_degrades_counterexample :
  os.ReadFile fsCargo "Cargo.toml" = Ok cargoText
  /\ analyzer.ExtractDependencies (lib := exampleLibrary) fsCargo extractor
       (componentIn "rust")
     = [analyzer.external "serde" "1.0"].
Proof. split; reflexivity. Qed.

Lemma goManifestMissing : manifestsMissing fsMaven (componentIn "go").
Proof.
  split.
  - intros name Hin. vm_compute in Hin. destruct Hin as [<- | []]. reflexivity.
  - discriminate.
Defined.

Lemma ExtractDependencies_degrades_witness :
  analyzer.ExtractDependencies (lib := exampleLibrary) fsMaven extractor
    (componentIn "go") = []
  /\ analyzer.ExtractDependencies (lib := exampleLibrary) fsNode extractor
       (componentIn "javascript") = []
  /\ exists analysed,
       analyzer.Analyze (lib := exampleLibrary) fsSingle
         (analyzer.NewAnalyzer "." []) = Ok analysed.
Proof.
  split; [| split].
  - apply (proj1 (ExtractDependencies_degrades (lib := exampleLibrary) fsMaven
                    extractor (componentIn "go"))).
    exact goManifestMissing.
  - apply (proj1 (proj2 (ExtractDependencies_degrades (lib := exampleLibrary)
                           fsNode extractor (componentIn "javascript")))
             "{ not json"
             {| analyzer.PkgDependencies := []; analyzer.PkgDevDependencies := [] |}
             "invalid character 'n' looking for beginning of object key string");
      [left; reflexivity | reflexivity | reflexivity].
  - destruct (analyzer.Scan (lib := exampleLibrary) fsSingle
                (analyzer.NewScanner "." [])) as [structure | err] eqn:Hscan;
      [| discriminate Hscan].
    exact (proj2 (proj2 (ExtractDependencies_degrades (lib := exampleLibrary)
                           fsSingle extractor (componentIn "go")))
             (analyzer.NewAnalyzer "." []) structure Hscan).
Defined.

(** The manifest of [repoMaven] declares two dependencies, the second
    without a version. *)
Lemma extractJavaDependencies_positional_witness :
  length (analyzer.extractJavaDependencies (lib := exampleLibrary) fsMaven
            extractor ".") = 2%nat
  /\ exists dep,
       nth_error (analyzer.extractJavaDependencies (lib := exampleLibrary)
                    fsMaven extractor ".") 1 = Some dep
       /\ analyzer.DepName dep = "org.b:util"
       /\ analyzer.DepVersion dep = "".
Proof.
  destruct (extractJavaDependencies_positional (lib := exampleLibrary) fsMaven
              extractor "." pomText eq_refl) as [Hlen Hpos].
  split; [exact Hlen |].
  destruct (Hpos 1%nat ltac:(vm_compute; lia))
    as (dep & Hnth & Hname & _ & Hnone & _).
  exists dep. split; [exact Hnth |]. split; [exact Hname |].
  apply Hnone. vm_compute. lia.
Defined.

(** * Further properties *)

(** ** The cache: how its operations compose *)

Lemma time_Sub_monotone (t t' u : Time) :
  (t <= t')%Z -> (time_Sub t u <= time_Sub t' u)%Z.
Proof.
  intros Hle. unfold time_Sub, maxDuration, minDuration.
  repeat match goal with
         | |- context [(?a <? ?b)%Z] => destruct (Z.ltb_spec a b)
         end; lia.
Qed.

Section CacheComposition.

Variable sha256_hex : string -> string.

Abbreviation hashFiles := (cache.hashFiles sha256_hex).
Abbreviation IsStale := (cache.IsStale sha256_hex).
Abbreviation Update := (cache.Update sha256_hex).
Abbreviation GetChangedComponents := (cache.GetChangedComponents sha256_hex).
Abbreviation GetStats := (cache.GetStats sha256_hex).

(** X1.  Updating the entry of one component leaves the answer of [IsStale]
    for every other component name as it was. *)
Theorem IsStale_Update_other (m : cache.Manager) (disk disk' : cache.Disk)
    (now now' : Time) (name other : string) (files files' : list string) :
  other <> name ->
  IsStale (Update m disk now name files) disk' now' other files'
  = IsStale m disk' now' other files'.
Proof.
  intros Hne. unfold cache.IsStale, cache.Update.
  destruct (cache.enabled m) eqn:Hen; cbn [negb]; [| now rewrite Hen].
  cbn [cache.withComponents cache.enabled cache.cache cache.Components cache.ttl].
  rewrite Hen. cbn [negb]. now rewrite lookup_insert_ne.
Qed.

(** X2.  Updates of two different component names commute, also when they
    read different states of the disk and of the clock; repeating an update
    at the same instant on the same disk changes nothing more. *)
Theorem Update_commute (m : cache.Manager) (disk1 disk2 : cache.Disk)
    (t1 t2 : Time) (name1 name2 : string) (files1 files2 : list string) :
  name1 <> name2 ->
  Update (Update m disk1 t1 name1 files1) disk2 t2 name2 files2
  = Update (Update m disk2 t2 name2 files2) disk1 t1 name1 files1
  /\ Update (Update m disk1 t1 name1 files1) disk1 t1 name1 files1
     = Update m disk1 t1 name1 files1.
Proof.
  intros Hne. unfold cache.Update.
  destruct (cache.enabled m) eqn:Hen; cbn [negb]; [| now rewrite Hen].
  cbn [cache.withComponents cache.enabled cache.cache cache.Components
       cache.ttl cache.cachePath cache.Version cache.LastRun].
  rewrite Hen. cbn [negb]. unfold cache.withComponents.
  cbn [cache.enabled cache.cache cache.Components cache.ttl cache.cachePath
       cache.Version cache.LastRun].
  split.
  - now rewrite insert_insert_ne.
  - now rewrite insert_insert_eq.
Qed.

(** X3.  Waiting never makes a component fresh: if [IsStale] is true at one
    instant it is true at every later instant, the disk being the same. *)
Theorem IsStale_later (m : cache.Manager) (disk : cache.Disk)
    (now now' : Time) (name : string) (files : list string) :
  IsStale m disk now name files = true ->
  (now <= now')%Z ->
  IsStale m disk now' name files = true.
Proof.
  unfold cache.IsStale. intros Hstale Hle.
  destruct (negb (cache.enabled m)); [reflexivity |].
  destruct (cache.Components (cache.cache m) !! name) as [cached |];
    [| reflexivity].
  destruct (Z.ltb_spec (cache.ttl m) (time_Since now' (cache.LastGenerated cached)))
    as [_ | Hfresh']; [reflexivity |].
  destruct (Z.ltb_spec (cache.ttl m) (time_Since now (cache.LastGenerated cached)))
    as [Hexp | _]; [| exact Hstale].
  pose proof (time_Sub_monotone now now' (cache.LastGenerated cached) Hle).
  unfold time_Since in *. lia.
Qed.

Lemma fold_names (components : list (string * list string)) acc :
  List.fold_left (fun result '(name, _) => result ++ [name]) components acc
  = acc ++ List.map fst components.
Proof.
  revert acc. induction components as [|[name files] rest IH]; intros acc.
  - cbn. now rewrite app_nil_r.
  - cbn [List.fold_left List.map fst]. rewrite IH. now rewrite <- app_assoc.
Qed.

Lemma changedLoop_In m disk clock i components changed name :
  In name (cache.changedLoop sha256_hex m disk clock i components changed)
  <-> In name changed
      \/ exists k files,
           nth_error components k = Some (name, files)
           /\ IsStale m disk (clock (i + k)%nat) name files = true.
Proof.
  revert i changed.
  induction components as [|[n f] rest IH]; intros i changed.
  - cbn. split; [now left |].
    intros [H | (k & files & Hk & _)]; [exact H | now destruct k].
  - cbn [cache.changedLoop]. rewrite IH. split.
    + intros [Hacc | (k & files & Hk & Hs)].
      * destruct (IsStale m disk (clock i) n f) eqn:E; [| now left].
        apply in_app_or in Hacc as [H | [<- | []]]; [now left |].
        right. exists 0%nat, f. now rewrite Nat.add_0_r.
      * right. exists (S k), files. now rewrite Nat.add_succ_r.
    + intros [Hacc | (k & files & Hk & Hs)].
      * left. destruct (IsStale m disk (clock i) n f); [| exact Hacc].
        apply in_or_app. now left.
      * destruct k as [|k].
        -- cbn in Hk. injection Hk as -> ->. rewrite Nat.add_0_r in Hs.
           rewrite Hs. left. apply in_or_app. right. now left.
        -- right. exists k, files. now rewrite Nat.add_succ_r in Hs.
Qed.

(** X4.  [GetChangedComponents] returns a name exactly when [IsStale]
    answers true for it at the instant its entry is visited, on either
    branch.  So with caching disabled it returns every name, and with
    caching enabled it returns every name the cache has no entry for. *)
Theorem GetChangedComponents_stale (m : cache.Manager) (disk : cache.Disk)
    (clock : nat -> Time) (components : list (string * list string)) :
  (forall name,
     In name (GetChangedComponents m disk clock components)
     <-> exists k files,
           nth_error components k = Some (name, files)
           /\ IsStale m disk (clock k) name files = true)
  /\ (cache.enabled m = false ->
      GetChangedComponents m disk clock components = List.map fst components)
  /\ (forall name files,
        In (name, files) components ->
        cache.Components (cache.cache m) !! name = None ->
        In name (GetChangedComponents m disk clock components)).
Proof.
  assert (Hoff : cache.enabled m = false ->
                 GetChangedComponents m disk clock components
                 = List.map fst components).
  { intros Hen. unfold cache.GetChangedComponents. rewrite Hen. cbn [negb].
    now rewrite fold_names. }
  assert (Hin : forall name,
     In name (GetChangedComponents m disk clock components)
     <-> exists k files,
           nth_error components k = Some (name, files)
           /\ IsStale m disk (clock k) name files = true).
  { intros name. destruct (cache.enabled m) eqn:Hen.
    - unfold cache.GetChangedComponents. rewrite Hen. cbn [negb].
      rewrite changedLoop_In. cbn [In Nat.add]. tauto.
    - rewrite Hoff by reflexivity. rewrite in_map_iff. split.
      + intros ([n files] & <- & Hentry).
        apply In_nth_error in Hentry as [k Hk]. exists k, files.
        split; [exact Hk |]. unfold cache.IsStale. now rewrite Hen.
      + intros (k & files & Hk & _). exists (name, files).
        split; [reflexivity |]. eapply nth_error_In, Hk. }
  split; [exact Hin |]. split; [exact Hoff |].
  intros name files Hentry Hnone. apply Hin.
  apply In_nth_error in Hentry as [k Hk]. exists k, files.
  split; [exact Hk |]. unfold cache.IsStale. rewrite Hnone.
  now destruct (negb (cache.enabled m)).
Qed.

Lemma statsLoop_sum m disk clock i visit unchanged stale :
  let counts := cache.statsLoop sha256_hex m disk clock i visit unchanged stale in
  (fst counts + snd counts = unchanged + stale + Z.of_nat (length visit))%Z
  /\ (unchanged <= fst counts)%Z /\ (stale <= snd counts)%Z.
Proof.
  revert i unchanged stale.
  induction visit as [|[name cached] rest IH]; intros i unchanged stale.
  - cbn. lia.
  - cbn [cache.statsLoop length].
    destruct (IsStale m disk (clock i) name (cache.Files cached)).
    + specialize (IH (S i) unchanged (stale + 1)%Z). cbv zeta in *. lia.
    + specialize (IH (S i) (unchanged + 1)%Z stale). cbv zeta in *. lia.
Qed.

Lemma statsLoop_const m disk clock now i visit unchanged stale :
  (forall j, clock j = now) ->
  cache.statsLoop sha256_hex m disk clock i visit unchanged stale
  = ((unchanged
      + Z.of_nat (length (List.filter
           (fun e => negb (IsStale m disk now (fst e) (cache.Files (snd e))))
           visit)))%Z,
     (stale
      + Z.of_nat (length (List.filter
           (fun e => IsStale m disk now (fst e) (cache.Files (snd e)))
           visit)))%Z).
Proof.
  intros Hconst. revert i unchanged stale.
  induction visit as [|[name cached] rest IH]; intros i unchanged stale.
  - cbn. f_equal; lia.
  - cbn [cache.statsLoop List.filter fst snd]. rewrite Hconst.
    destruct (IsStale m disk now name (cache.Files cached));
      rewrite IH; cbn [negb length]; f_equal; lia.
Qed.

Lemma length_filter_perm {A} (f : A -> bool) (l l' : list A) :
  l ≡ₚ l' -> length (List.filter f l) = length (List.filter f l').
Proof.
  induction 1 as [| x l l' _ IH | x y l | l l' l'' _ IH1 _ IH2].
  - reflexivity.
  - cbn [List.filter]. destruct (f x); cbn [length]; now rewrite IH.
  - cbn [List.filter]. now destruct (f x), (f y).
  - now rewrite IH1.
Qed.

(** X5.  With caching enabled, the statistics [GetStats] reports add up:
    the counts of unchanged and of stale entries are non-negative and their
    sum is the number reported under components, in whatever order the
    entries are visited and whenever the clock is read.  When the clock
    does not advance during the loop, the order of the visit does not
    change the report. *)
Theorem GetStats_counts (m : cache.Manager) (disk : cache.Disk)
    (clock : nat -> Time) (visit : list (string * cache.ComponentCache)) :
  cache.enabled m = true ->
  visit ≡ₚ map_to_list (cache.Components (cache.cache m)) ->
  exists unchanged stale,
    GetStats m disk clock visit !! "unchanged" = Some (cache.VInt unchanged)
    /\ GetStats m disk clock visit !! "stale" = Some (cache.VInt stale)
    /\ GetStats m disk clock visit !! "components"
       = Some (cache.VInt (unchanged + stale))
    /\ (0 <= unchanged)%Z /\ (0 <= stale)%Z
    /\ forall visit' now,
         (forall i, clock i = now) ->
         visit' ≡ₚ visit ->
         GetStats m disk clock visit' = GetStats m disk clock visit.
Proof.
  intros Hen Hvisit. unfold cache.GetStats. rewrite Hen. cbn [negb].
  pose proof (statsLoop_sum m disk clock 0 visit 0 0) as Hsum.
  cbv zeta in Hsum.
  destruct (cache.statsLoop sha256_hex m disk clock 0 visit 0 0)
    as [unchanged stale] eqn:Hloop.
  cbn [fst snd] in Hsum. destruct Hsum as (Hsum & Hu & Hs).
  rewrite Hvisit, length_map_to_list in Hsum.
  exists unchanged, stale.
  split; [| split; [| split; [| split; [| split]]]]; try lia.
  - do 3 (rewrite lookup_insert_ne by discriminate). apply lookup_insert_eq.
  - do 4 (rewrite lookup_insert_ne by discriminate). apply lookup_insert_eq.
  - do 2 (rewrite lookup_insert_ne by discriminate).
    rewrite lookup_insert_eq. do 2 f_equal. lia.
  - intros visit' now Hconst Hperm.
    rewrite (statsLoop_const m disk clock now 0 visit') by exact Hconst.
    rewrite (statsLoop_const m disk clock now 0 visit) in Hloop
      by exact Hconst.
    rewrite (length_filter_perm _ visit' visit Hperm).
    rewrite (length_filter_perm _ visit' visit Hperm).
    now injection Hloop as -> ->.
Qed.

(** X6.  With caching enabled, [Clear] empties the cache in memory before it
    removes the file: afterwards no entry is left and [IsStale] is true for
    every component, also when the removal fails and [Clear] returns its
    error.  An error is returned exactly when the removal fails for a
    reason other than the file not existing. *)
Theorem Clear_all_stale {World : Type} (ops : cache.RemoveOps World)
    (m : cache.Manager) (w : World) :
  cache.enabled m = true ->
  let cleared := fst (fst (cache.Clear ops m w)) in
  cache.Components (cache.cache cleared) = ∅
  /\ (forall disk now name files, IsStale cleared disk now name files = true)
  /\ snd (fst (cache.Clear ops m w))
     = fst (cache.os_Remove ops w (cache.cachePath m))
  /\ (snd (cache.Clear ops m w) <> None <->
      exists e, snd (cache.os_Remove ops w (cache.cachePath m)) = Some e
                /\ cache.os_IsNotExist ops e = false).
Proof.
  intros Hen cleared. subst cleared.
  unfold cache.Clear. rewrite Hen. cbn [negb cache.cachePath].
  assert (Hstale : forall disk now name files,
             IsStale {| cache.cachePath := cache.cachePath m;
                        cache.cache := cache.emptyCache;
                        cache.enabled := true;
                        cache.ttl := cache.ttl m |} disk now name files = true)
    by reflexivity.
  destruct (cache.os_Remove ops w (cache.cachePath m)) as [w' [e |]];
    cbn [fst snd].
  - destruct (cache.os_IsNotExist ops e) eqn:Hne; cbn [negb fst snd].
    + split; [reflexivity |]. split; [exact Hstale |]. split; [reflexivity |].
      split; [intros H; now destruct H |].
      intros (e' & He' & Hne'). congruence.
    + split; [reflexivity |]. split; [exact Hstale |]. split; [reflexivity |].
      split; [eauto | discriminate].
  - split; [reflexivity |]. split; [exact Hstale |]. split; [reflexivity |].
    split; [intros H; now destruct H |].
    intros (e' & He' & _). discriminate.
Qed.

(** X7.  The cache sees the listed files only.  Two states of the disk
    that agree on the files listed give the same digest, the same answer
    of [IsStale] and the same entry written by [Update]: a change to any
    other file of a component is never noticed. *)
Theorem IsStale_reads_listed_files (m : cache.Manager)
    (disk disk' : cache.Disk) (now : Time) (name : string)
    (files : list string) :
  (forall file, In file files -> disk file = disk' file) ->
  hashFiles disk files = hashFiles disk' files
  /\ IsStale m disk now name files = IsStale m disk' now name files
  /\ Update m disk now name files = Update m disk' now name files.
Proof.
  intros Hagree.
  assert (Hhash : hashFiles disk files = hashFiles disk' files).
  { rewrite !(hashFiles_hashInput sha256_hex). f_equal.
    apply hashInput_ext. intros f Hf. unfold cache.fileBytes.
    now rewrite (Hagree f Hf). }
  split; [exact Hhash |]. split.
  - unfold cache.IsStale. now rewrite Hhash.
  - unfold cache.Update, cache.hashComponent. now rewrite Hhash.
Qed.

End CacheComposition.

(** ** The orchestrator's use of the cache *)

Section OrchestratorProperties.

Variable sha256_hex : string -> string.

Abbreviation hashFiles := (cache.hashFiles sha256_hex).
Abbreviation IsStale := (cache.IsStale sha256_hex).
Abbreviation Update := (cache.Update sha256_hex).
Abbreviation getComponentsToGenerate :=
  (orchestrator.getComponentsToGenerate sha256_hex).
Abbreviation updateGenerated := (orchestrator.updateGenerated sha256_hex).

Lemma staleLoop_In o disk clock i rest components comp :
  In comp (orchestrator.staleLoop sha256_hex o disk clock i rest components)
  <-> In comp components
      \/ exists k,
           nth_error rest k = Some comp
           /\ IsStale (orchestrator.cacheManager o) disk (clock (i + k)%nat)
                (analyzer.Name comp) (analyzer.Files comp) = true.
Proof.
  revert i components.
  induction rest as [|c rest IH]; intros i components.
  - cbn. split; [now left |].
    intros [H | (k & Hk & _)]; [exact H | now destruct k].
  - cbn [orchestrator.staleLoop]. rewrite IH. split.
    + intros [Hacc | (k & Hk & Hs)].
      * destruct (IsStale _ disk (clock i) (analyzer.Name c) (analyzer.Files c))
          eqn:E; [| now left].
        apply in_app_or in Hacc as [H | [<- | []]]; [now left |].
        right. exists 0%nat. now rewrite Nat.add_0_r.
      * right. exists (S k). now rewrite Nat.add_succ_r.
    + intros [Hacc | (k & Hk & Hs)].
      * left.
        destruct (IsStale _ disk (clock i) (analyzer.Name c) (analyzer.Files c));
          [| exact Hacc].
        apply in_or_app. now left.
      * destruct k as [|k].
        -- cbn in Hk. injection Hk as ->. rewrite Nat.add_0_r in Hs.
           rewrite Hs. left. apply in_or_app. right. now left.
        -- right. exists k. now rewrite Nat.add_succ_r in Hs.
Qed.

(** A component is returned exactly when it is stale at the instant it is
    looked at. *)
Lemma getComponentsToGenerate_In o disk clock structure comp :
  In comp (getComponentsToGenerate o disk clock structure)
  <-> exists k,
        nth_error (analyzer.Components structure) k = Some comp
        /\ IsStale (orchestrator.cacheManager o) disk (clock k)
             (analyzer.Name comp) (analyzer.Files comp) = true.
Proof.
  unfold orchestrator.getComponentsToGenerate. rewrite staleLoop_In.
  cbn [In Nat.add]. tauto.
Qed.

Lemma getComponentsToGenerate_nil o disk clock structure :
  (forall k comp,
     nth_error (analyzer.Components structure) k = Some comp ->
     IsStale (orchestrator.cacheManager o) disk (clock k)
       (analyzer.Name comp) (analyzer.Files comp) = false) ->
  getComponentsToGenerate o disk clock structure = [].
Proof.
  intros Hfresh.
  destruct (getComponentsToGenerate o disk clock structure) as [|comp rest]
    eqn:E; [reflexivity |].
  assert (Hin : In comp (getComponentsToGenerate o disk clock structure))
    by (rewrite E; now left).
  apply getComponentsToGenerate_In in Hin as (k & Hk & Hs).
  rewrite (Hfresh k comp Hk) in Hs. discriminate.
Qed.

(** What a fresh answer of [IsStale] says about the entry. *)
Lemma IsStale_false m disk now name files :
  IsStale m disk now name files = false ->
  exists cached,
    cache.Components (cache.cache m) !! name = Some cached
    /\ cache.FilesHash cached = hashFiles disk files.
Proof.
  unfold cache.IsStale. destruct (negb (cache.enabled m)); [discriminate |].
  destruct (cache.Components (cache.cache m) !! name) as [cached |];
    [| discriminate].
  destruct (_ <? _)%Z; [discriminate |].
  destruct (String.eqb_spec (hashFiles disk files) (cache.FilesHash cached));
    [| discriminate].
  intros _. now exists cached.
Qed.

Lemma updateGenerated_enabled o disk clock i gen :
  cache.enabled (orchestrator.cacheManager (updateGenerated o disk clock i gen))
  = cache.enabled (orchestrator.cacheManager o)
  /\ cache.ttl (orchestrator.cacheManager (updateGenerated o disk clock i gen))
     = cache.ttl (orchestrator.cacheManager o).
Proof.
  revert o i. induction gen as [|comp rest IH]; intros o i; [now split |].
  cbn [orchestrator.updateGenerated].
  destruct (IH {| orchestrator.cacheManager :=
                    Update (orchestrator.cacheManager o) disk (clock i)
                      (analyzer.Name comp) (analyzer.Files comp) |} (S i))
    as [-> ->].
  cbn [orchestrator.cacheManager]. now rewrite enabled_Update, ttl_Update.
Qed.

(** The loop leaves the entry of a name it does not update as it was. *)
Lemma updateGenerated_other o disk clock i gen name :
  ~ In name (List.map analyzer.Name gen) ->
  cache.Components
    (cache.cache (orchestrator.cacheManager (updateGenerated o disk clock i gen)))
    !! name
  = cache.Components (cache.cache (orchestrator.cacheManager o)) !! name.
Proof.
  revert o i. induction gen as [|comp rest IH]; intros o i Hnot; [reflexivity |].
  cbn [orchestrator.updateGenerated]. cbn [List.map] in Hnot.
  rewrite IH by (intros H; apply Hnot; now right).
  cbn [orchestrator.cacheManager]. unfold cache.Update.
  destruct (cache.enabled (orchestrator.cacheManager o)); [| reflexivity].
  cbn [negb cache.withComponents cache.cache cache.Components].
  apply lookup_insert_ne. intros Heq. apply Hnot. now left.
Qed.

Lemma unique_by_name (gen : list analyzer.Component) a b :
  List.NoDup (List.map analyzer.Name gen) ->
  In a gen -> In b gen -> analyzer.Name a = analyzer.Name b -> a = b.
Proof.
  induction gen as [|x rest IH]; intros Hnodup Ha Hb Hname; [destruct Ha |].
  cbn [List.map] in Hnodup. apply NoDup_cons_iff in Hnodup as [Hx Hnodup].
  destruct Ha as [-> | Ha], Hb as [-> | Hb]; try reflexivity.
  - exfalso. apply Hx. rewrite Hname. now apply in_map.
  - exfalso. apply Hx. rewrite <- Hname. now apply in_map.
  - now apply IH.
Qed.

(** After the loop, the entry under the name of an updated component is the
    one written for the last component of that name. *)
Lemma updateGenerated_last_writer o disk clock i gen comp :
  cache.enabled (orchestrator.cacheManager o) = true ->
  In comp gen ->
  exists writer k,
    nth_error gen k = Some writer
    /\ analyzer.Name writer = analyzer.Name comp
    /\ cache.Components
         (cache.cache (orchestrator.cacheManager
                         (updateGenerated o disk clock i gen)))
         !! analyzer.Name comp
       = Some {| cache.Hash :=
                   cache.hashComponent sha256_hex disk (analyzer.Name writer)
                     (analyzer.Files writer);
                 cache.FilesHash := hashFiles disk (analyzer.Files writer);
                 cache.LastGenerated := clock (i + k)%nat;
                 cache.Files := analyzer.Files writer |}.
Proof.
  revert o i comp. induction gen as [|first rest IH]; intros o i comp Hen Hin;
    [destruct Hin |].
  cbn [orchestrator.updateGenerated].
  set (o1 := {| orchestrator.cacheManager :=
                  Update (orchestrator.cacheManager o) disk (clock i)
                    (analyzer.Name first) (analyzer.Files first) |}).
  assert (Hen1 : cache.enabled (orchestrator.cacheManager o1) = true)
    by (cbn; now rewrite enabled_Update).
  destruct (in_dec String.string_dec (analyzer.Name comp)
              (List.map analyzer.Name rest)) as [Hlater | Hnot].
  - apply in_map_iff in Hlater as (later & Hname & Hlater).
    destruct (IH o1 (S i) later Hen1 Hlater) as (writer & k & Hk & Hw & Hlk).
    exists writer, (S k). rewrite Hname in Hw, Hlk.
    split; [exact Hk |]. split; [exact Hw |]. now rewrite Nat.add_succ_r.
  - destruct Hin as [-> | Hin];
      [| exfalso; apply Hnot; now apply in_map].
    exists comp, 0%nat. split; [reflexivity |]. split; [reflexivity |].
    rewrite updateGenerated_other by exact Hnot.
    subst o1. cbn [orchestrator.cacheManager]. rewrite Nat.add_0_r.
    now apply lookup_Update_enabled.
Qed.

(** X8.  A run leaves nothing for the next one.  With caching enabled and
    components of pairwise different names, once a run has updated the
    components it found stale, a second look at the same components on the
    same disk finds none to generate, as long as each component is looked
    at while the entry under its name is within the TTL. *)
Theorem getComponentsToGenerate_after_run (o : orchestrator.Orchestrator)
    (disk : cache.Disk) (reads updated reads' : nat -> Time)
    (structure : analyzer.RepoStructure) :
  cache.enabled (orchestrator.cacheManager o) = true ->
  List.NoDup (List.map analyzer.Name (analyzer.Components structure)) ->
  let o' := updateGenerated o disk updated 0
              (getComponentsToGenerate o disk reads structure) in
  (forall k comp cached,
     nth_error (analyzer.Components structure) k = Some comp ->
     cache.Components (cache.cache (orchestrator.cacheManager o'))
       !! analyzer.Name comp = Some cached ->
     (time_Since (reads' k) (cache.LastGenerated cached)
      <= cache.ttl (orchestrator.cacheManager o))%Z) ->
  getComponentsToGenerate o' disk reads' structure = [].
Proof.
  intros Hen Hnodup o' Hfresh.
  set (gen := getComponentsToGenerate o disk reads structure) in *.
  assert (Hsub : forall g, In g gen -> In g (analyzer.Components structure)).
  { intros g Hg. apply getComponentsToGenerate_In in Hg as (k & Hk & _).
    eapply nth_error_In, Hk. }
  destruct (updateGenerated_enabled o disk updated 0 gen) as [Hen' Httl'].
  fold o' in Hen', Httl'.
  assert (Hdecide : forall k comp cached,
            nth_error (analyzer.Components structure) k = Some comp ->
            cache.Components (cache.cache (orchestrator.cacheManager o'))
              !! analyzer.Name comp = Some cached ->
            cache.FilesHash cached = hashFiles disk (analyzer.Files comp) ->
            IsStale (orchestrator.cacheManager o') disk (reads' k)
              (analyzer.Name comp) (analyzer.Files comp) = false).
  { intros k comp cached Hk Hlk Hhash. unfold cache.IsStale.
    rewrite Hen', Hen, Hlk, Httl'. cbn [negb].
    pose proof (Hfresh k comp cached Hk Hlk) as Hle.
    apply Z.ltb_ge in Hle. rewrite Hle, Hhash. now rewrite String.eqb_refl. }
  apply getComponentsToGenerate_nil. intros k comp Hk.
  assert (Hcomp : In comp (analyzer.Components structure))
    by (eapply nth_error_In, Hk).
  destruct (in_dec String.string_dec (analyzer.Name comp)
              (List.map analyzer.Name gen)) as [Hupdated | Hkept].
  - apply in_map_iff in Hupdated as (g & Hname & Hg).
    assert (g = comp) as ->
      by (eapply unique_by_name; eauto).
    destruct (updateGenerated_last_writer o disk updated 0 gen comp Hen Hg)
      as (writer & j & Hj & Hw & Hlk).
    assert (writer = comp) as ->
      by (eapply unique_by_name; eauto using nth_error_In).
    fold o' in Hlk. now apply (Hdecide k comp _ Hk Hlk).
  - assert (Hwas : IsStale (orchestrator.cacheManager o) disk (reads k)
                     (analyzer.Name comp) (analyzer.Files comp) = false).
    { destruct (IsStale (orchestrator.cacheManager o) disk (reads k)
                  (analyzer.Name comp) (analyzer.Files comp)) eqn:E;
        [| reflexivity].
      exfalso. apply Hkept. apply in_map.
      apply getComponentsToGenerate_In. now exists k. }
    apply IsStale_false in Hwas as (cached & Hlk & Hhash).
    apply (Hdecide k comp cached Hk); [| exact Hhash].
    unfold o'. now rewrite updateGenerated_other.
Qed.

(** X9.  Entries are keyed by the component name alone.  When two
    components have the same name and file lists of different digests, at
    most one of them can match the entry under that name: whatever the
    cache holds, one of the two is stale at every instant, and a structure
    holding both always has something to generate. *)
Theorem getComponentsToGenerate_name_collision
    (o : orchestrator.Orchestrator) (disk : cache.Disk)
    (structure : analyzer.RepoStructure) (a b : analyzer.Component) :
  analyzer.Name a = analyzer.Name b ->
  hashFiles disk (analyzer.Files a) <> hashFiles disk (analyzer.Files b) ->
  ((forall now, IsStale (orchestrator.cacheManager o) disk now
                  (analyzer.Name a) (analyzer.Files a) = true)
   \/ (forall now, IsStale (orchestrator.cacheManager o) disk now
                     (analyzer.Name b) (analyzer.Files b) = true))
  /\ (In a (analyzer.Components structure) ->
      In b (analyzer.Components structure) ->
      forall clock, getComponentsToGenerate o disk clock structure <> []).
Proof.
  intros Hname Hdiff.
  assert (Hone :
    (forall now, IsStale (orchestrator.cacheManager o) disk now
                   (analyzer.Name a) (analyzer.Files a) = true)
    \/ (forall now, IsStale (orchestrator.cacheManager o) disk now
                      (analyzer.Name b) (analyzer.Files b) = true)).
  { unfold cache.IsStale. rewrite <- Hname.
    destruct (negb (cache.enabled (orchestrator.cacheManager o)));
      [now left |].
    destruct (cache.Components (cache.cache (orchestrator.cacheManager o))
                !! analyzer.Name a) as [cached |]; [| now left].
    destruct (String.eqb_spec (hashFiles disk (analyzer.Files a))
                (cache.FilesHash cached)) as [Ha | Ha].
    - right. intros now. destruct (_ <? _)%Z; [reflexivity |].
      destruct (String.eqb_spec (hashFiles disk (analyzer.Files b))
                  (cache.FilesHash cached)) as [Hb | Hb]; [| reflexivity].
      congruence.
    - left. intros now. now destruct (_ <? _)%Z. }
  split; [exact Hone |].
  intros Ha Hb clock Hnil.
  assert (Hnone : forall comp,
            ~ In comp (getComponentsToGenerate o disk clock structure))
    by (intros comp; rewrite Hnil; intros []).
  destruct Hone as [Hstale | Hstale].
  - apply In_nth_error in Ha as [k Hk]. apply (Hnone a).
    apply getComponentsToGenerate_In. exists k. now split.
  - apply In_nth_error in Hb as [k Hk]. apply (Hnone b).
    apply getComponentsToGenerate_In. exists k. now split.
Qed.

End OrchestratorProperties.

(** ** The orchestrator: the files handed to the model *)

Lemma substring_length_le (n : nat) (s : string) :
  (String.length (String.substring 0 n s) <= n)%nat.
Proof.
  revert s. induction n as [|n IH]; intros [|a s]; cbn; try lia.
  specialize (IH s). lia.
Qed.

Lemma substring_length_le_whole (n : nat) (s : string) :
  (String.length (String.substring 0 n s) <= String.length s)%nat.
Proof.
  revert s. induction n as [|n IH]; intros [|a s]; cbn; try lia.
  specialize (IH s). lia.
Qed.

Lemma prefix_is_substring (pre s : string) :
  String.prefix pre s
  = String.eqb (String.substring 0 (String.length pre) s) pre.
Proof.
  destruct (String.prefix pre s) eqn:Hpre.
  - apply String.prefix_correct in Hpre. rewrite Hpre.
    symmetry. apply String.eqb_refl.
  - symmetry. apply String.eqb_neq. intros Heq.
    apply String.prefix_correct in Heq. congruence.
Qed.

Lemma substring_Contains (k : nat) (s substr : string) :
  String.substring k (String.length substr) s = substr ->
  strings_Contains s substr = true.
Proof.
  revert s. induction k as [|k IH]; intros s Heq.
  - apply String.prefix_correct in Heq.
    destruct s; cbn [strings_Contains]; now rewrite Heq.
  - destruct s as [|a s].
    + cbn in Heq. subst substr. reflexivity.
    + cbn [String.substring] in Heq. cbn [strings_Contains].
      rewrite (IH s Heq). apply orb_true_r.
Qed.

(** X10.  The helper [contains] does not look inside: it answers true
    exactly when both strings are non-empty and the second is a prefix or
    a suffix of the first.  Whenever it answers true the second string
    does occur in the first; the converse fails for an occurrence in the
    middle, as of main in cmd/main.go. *)
Theorem contains_prefix_or_suffix (s substr : string) :
  orchestrator.contains s substr
  = nonEmpty s && nonEmpty substr
    && (strings_HasPrefix s substr || strings_HasSuffix s substr)
  /\ (orchestrator.contains s substr = true ->
      strings_Contains s substr = true)
  /\ (strings_Contains "cmd/main.go" "main" = true
      /\ orchestrator.contains "cmd/main.go" "main" = false).
Proof.
  assert (Hshape : orchestrator.contains s substr
                   = nonEmpty s && nonEmpty substr
                     && (strings_HasPrefix s substr
                         || strings_HasSuffix s substr)).
  { unfold orchestrator.contains, strings_HasPrefix, strings_HasSuffix,
      nonEmpty. cbv zeta.
    rewrite (prefix_is_substring substr s).
    assert (Hs : (0 <? String.length s)%nat = negb (String.eqb s ""))
      by now destruct s.
    assert (Hsub : (0 <? String.length substr)%nat
                   = negb (String.eqb substr "")) by now destruct substr.
    rewrite Hs, Hsub. f_equal.
    destruct (String.eqb_spec
                (String.substring 0 (String.length substr) s) substr)
      as [Hpre | Hpre].
    - assert (Hle : (String.length substr <=? String.length s)%nat = true).
      { apply Nat.leb_le. apply (f_equal String.length) in Hpre.
        pose proof (substring_length_le_whole (String.length substr) s).
        lia. }
      rewrite Hle. cbn [andb orb]. apply orb_true_r.
    - destruct (String.eqb_spec s substr) as [-> | _].
      + exfalso. apply Hpre. apply String.prefix_correct.
        clear. induction substr as [|a t IH]; [reflexivity |].
        cbn [String.prefix]. now destruct (ascii_dec a a).
      + reflexivity. }
  split; [exact Hshape |].
  split; [| split; reflexivity].
  rewrite Hshape. intros H.
  apply andb_prop in H as [_ H]. apply orb_prop in H as [Hpre | Hsuf].
  - unfold strings_HasPrefix in Hpre.
    destruct s; cbn [strings_Contains]; now rewrite Hpre.
  - unfold strings_HasSuffix in Hsuf. cbv zeta in Hsuf.
    apply andb_prop in Hsuf as [_ Hsuf]. apply String.eqb_eq in Hsuf.
    now apply substring_Contains in Hsuf.
Qed.

Section KeyFiles.

Variable fs : os.Snapshot.

Abbreviation takeFiles := (orchestrator.takeFiles fs).

Lemma fold_classify (files priority others : list string) :
  List.fold_left orchestrator.classify files (priority, others)
  = (priority
     ++ List.filter (fun file => orchestrator.isPriority file
                                   orchestrator.priorityPatterns) files,
     others
     ++ List.filter (fun file => negb (orchestrator.isPriority file
                                         orchestrator.priorityPatterns)) files).
Proof.
  revert priority others.
  induction files as [|file rest IH]; intros priority others.
  - cbn. now rewrite !app_nil_r.
  - cbn [List.fold_left List.filter orchestrator.classify].
    destruct (orchestrator.isPriority file orchestrator.priorityPatterns);
      cbn [negb]; rewrite IH; now rewrite <- app_assoc.
Qed.

Lemma firstn_exact {A : Type} (l more : list A) :
  List.firstn (length l) (l ++ more) = l.
Proof.
  rewrite List.firstn_app, Nat.sub_diag, List.firstn_all. cbn.
  apply app_nil_r.
Qed.

Lemma takeFiles_firstn (files : list string)
    (keyFiles : list llm.FileContent) :
  (length keyFiles <= orchestrator.maxFiles)%nat ->
  takeFiles files keyFiles
  = List.firstn orchestrator.maxFiles
      (keyFiles ++ List.flat_map (keyFileOf fs) files).
Proof.
  revert keyFiles. induction files as [|file rest IH]; intros keyFiles Hle.
  - cbn [orchestrator.takeFiles List.flat_map]. rewrite app_nil_r.
    symmetry. now apply List.firstn_all2.
  - cbn [orchestrator.takeFiles List.flat_map].
    destruct (Nat.leb_spec orchestrator.maxFiles (length keyFiles))
      as [Hfull | Hroom].
    + assert (Heq : orchestrator.maxFiles = length keyFiles) by lia.
      rewrite Heq. symmetry. apply firstn_exact.
    + unfold keyFileOf at 1.
      destruct (orchestrator.readFileContent fs file) as [content | err].
      * rewrite IH by (rewrite length_app; cbn [length]; lia).
        now rewrite <- app_assoc.
      * cbn [app]. now apply IH.
Qed.

Lemma firstn_firstn_app {A : Type} (n : nat) (l more : list A) :
  List.firstn n (List.firstn n l ++ more) = List.firstn n (l ++ more).
Proof.
  destruct (Nat.le_gt_cases (length l) n) as [Hshort | Hlong].
  - now rewrite (List.firstn_all2 l) by exact Hshort.
  - rewrite !List.firstn_app.
    rewrite List.firstn_firstn, Nat.min_id.
    rewrite List.length_firstn.
    replace (Nat.min n (length l)) with n by lia.
    replace (n - length l)%nat with 0%nat by lia.
    now rewrite Nat.sub_diag.
Qed.

Lemma readFileContent_bounded (file content : string) :
  orchestrator.readFileContent fs file = Ok content ->
  isOk (os.ReadFile fs file) = true
  /\ (Z.of_nat (String.length content) <= 50000)%Z.
Proof.
  unfold orchestrator.readFileContent.
  destruct (os.ReadFile fs file) as [whole | err]; [| discriminate].
  destruct (Z.ltb_spec 50000 (Z.of_nat (String.length whole)))
    as [Hlong | Hshort]; intros [= <-]; (split; [reflexivity |]).
  - pose proof (substring_length_le (Z.to_nat 50000) whole). lia.
  - exact Hshort.
Qed.

(** X11.  [selectKeyFiles] returns the first twenty readable files of the
    component, those a priority pattern selects before the others and
    each group in the order of the file list.  So it never returns more
    than twenty entries, every entry is a listed file that could be read,
    and no content is longer than 50000 bytes. *)
Theorem selectKeyFiles_first_readable (o : orchestrator.Orchestrator)
    (comp : analyzer.Component) :
  orchestrator.selectKeyFiles fs o comp
  = List.firstn orchestrator.maxFiles
      (List.flat_map (keyFileOf fs) (byPriority (analyzer.Files comp)))
  /\ (length (orchestrator.selectKeyFiles fs o comp) <= 20)%nat
  /\ Forall
       (fun keyFile =>
          In (llm.Path keyFile) (analyzer.Files comp)
          /\ isOk (os.ReadFile fs (llm.Path keyFile)) = true
          /\ (Z.of_nat (String.length (llm.Content keyFile)) <= 50000)%Z)
       (orchestrator.selectKeyFiles fs o comp).
Proof.
  assert (Hshape : orchestrator.selectKeyFiles fs o comp
    = List.firstn orchestrator.maxFiles
        (List.flat_map (keyFileOf fs) (byPriority (analyzer.Files comp)))).
  { unfold orchestrator.selectKeyFiles. rewrite fold_classify. cbn [app].
    rewrite (takeFiles_firstn _ []) by (cbn; lia). cbn [app].
    rewrite takeFiles_firstn by (rewrite List.length_firstn; lia).
    rewrite firstn_firstn_app. unfold byPriority.
    now rewrite List.flat_map_app. }
  split; [exact Hshape |]. rewrite Hshape. split.
  - rewrite List.length_firstn. unfold orchestrator.maxFiles. lia.
  - apply List.Forall_forall. intros keyFile Hin.
    assert (Hwhole : In keyFile
                       (List.flat_map (keyFileOf fs)
                          (byPriority (analyzer.Files comp))))
      by (rewrite <- (List.firstn_skipn orchestrator.maxFiles);
          apply in_or_app; now left).
    clear Hin. rename Hwhole into Hin.
    apply in_flat_map in Hin as (file & Hfile & Hin).
    unfold keyFileOf in Hin.
    destruct (orchestrator.readFileContent fs file) as [content | err] eqn:E;
      [| destruct Hin].
    destruct Hin as [<- | []]. cbn [llm.Path llm.Content].
    destruct (readFileContent_bounded file content E) as [Hread Hlen].
    split; [| now split].
    unfold byPriority in Hfile. apply in_app_or in Hfile.
    destruct Hfile as [H | H]; now apply filter_In in H.
Qed.

End KeyFiles.

(** ** Walks: what every callback preserves, the walk preserves *)

Lemma walk_invariant {St : Type}
    (fn : string -> os.WalkArg -> St -> St * os.WalkRet) (P : St -> Prop) :
  (forall path arg st, P st -> P (fst (fn path arg st))) ->
  forall n path st, P st -> P (fst (os.walk fn path n st)).
Proof.
  intros Hstep.
  induction n as [size | err | names IH] using Node_nested_ind;
    intros path st Hst.
  - apply Hstep, Hst.
  - apply Hstep, Hst.
  - cbn [os.walk].
    pose proof (Hstep path (os.Entry (os.info (os.Dir (Ok names)))) st Hst)
      as Hfirst.
    destruct (fn path (os.Entry (os.info (os.Dir (Ok names)))) st)
      as [st1 r1].
    cbn [fst] in Hfirst. destruct r1; [| exact Hfirst | exact Hfirst].
    clear Hst st. revert st1 Hfirst.
    induction IH as [|[name [child | err]] rest Hchild _ IHrest];
      intros st Hst; [exact Hst | |].
    + cbn [snd] in Hchild.
      pose proof (Hchild (filepath_Join [path; name]) st Hst) as Hnext.
      destruct (os.walk fn (filepath_Join [path; name]) child st)
        as [st' r].
      cbn [fst] in Hnext.
      destruct r; [now apply IHrest | | exact Hnext].
      destruct (os.IsDir (os.info child)); [now apply IHrest | exact Hnext].
    + pose proof (Hstep (filepath_Join [path; name]) (os.LstatFailed err) st
                    Hst) as Hnext.
      destruct (fn (filepath_Join [path; name]) (os.LstatFailed err) st)
        as [st' r].
      cbn [fst] in Hnext.
      destruct r; [now apply IHrest | now apply IHrest | exact Hnext].
Qed.

Lemma Walk_invariant {St : Type}
    (fn : string -> os.WalkArg -> St -> St * os.WalkRet) (P : St -> Prop)
    (fs : os.Snapshot) (root : string) (st : St) :
  (forall path arg st, P st -> P (fst (fn path arg st))) ->
  P st -> P (fst (os.Walk fn fs root st)).
Proof.
  intros Hstep Hst. unfold os.Walk.
  destruct (os.Lstat fs root) as [n | err].
  - pose proof (walk_invariant fn P Hstep n root st Hst) as H.
    destruct (os.walk fn root n st) as [st' r]. now destruct r.
  - pose proof (Hstep root (os.LstatFailed err) st Hst) as H.
    destruct (fn root (os.LstatFailed err) st) as [st' r]. now destruct r.
Qed.

(** ** The scanner: what the walk records *)

(** *** The file tree *)

Lemma Clean_nonempty (p : string) : filepath_Clean p <> "".
Proof.
  unfold filepath_Clean. cbv zeta.
  destruct (strings_HasPrefix p "/"); [discriminate |].
  destruct (String.eqb_spec
              (strings_Join
                 (List.rev (List.fold_left (cleanStep false) (pathElems p) []))
                 "/") "") as [Heq | Hne]; [discriminate | exact Hne].
Qed.

(** Under the key of the root, [dirs] lists the base names of the files in
    the root, in the order of the files. *)
Lemma groupFile_root (files : list analyzer.FileInfo) :
  forall dirs,
    List.fold_left analyzer.groupFile files dirs !! ""
    = match List.map (fun f => filepath_Base (analyzer.FiPath f))
              (List.filter atRoot files) with
      | [] => dirs !! ""
      | names => Some (default [] (dirs !! "") ++ names)
      end.
Proof.
  induction files as [|f files IH]; intros dirs; [reflexivity |].
  cbn [List.fold_left List.filter]. rewrite IH. clear IH.
  unfold analyzer.groupFile. cbv zeta.
  change (atRoot f) with (String.eqb (filepath_Dir (analyzer.FiPath f)) ".").
  destruct (String.eqb_spec (filepath_Dir (analyzer.FiPath f)) ".")
    as [Hroot | Hbelow].
  - rewrite lookup_insert_eq. cbn [List.map default from_option].
    destruct (List.map _ (List.filter _ files)) as [|name names].
    + reflexivity.
    + unfold id. now rewrite <- app_assoc.
  - rewrite lookup_insert_ne; [reflexivity |].
    apply Clean_nonempty.
Qed.

Lemma groupFiles_root (files : list analyzer.FileInfo) :
  analyzer.groupFiles files !! ""
  = match List.map (fun f => filepath_Base (analyzer.FiPath f))
            (List.filter atRoot files) with
    | [] => None
    | names => Some names
    end.
Proof.
  unfold analyzer.groupFiles. rewrite groupFile_root, lookup_empty.
  now destruct (List.map _ (List.filter atRoot files)).
Qed.

(** The keys of [dirs] are the directories of the files. *)
Lemma treeKeys_lookup (dirs : gmap string (list string)) (d : string) :
  In d (analyzer.treeKeys dirs) <-> dirs !! d <> None.
Proof.
  unfold analyzer.treeKeys. rewrite in_map_iff. split.
  - intros ([d' names] & <- & Hin). cbn [fst].
    apply list_elem_of_In, elem_of_map_to_list in Hin. congruence.
  - intros Hsome. destruct (dirs !! d) as [names |] eqn:Hd; [| congruence].
    exists (d, names). split; [reflexivity |].
    now apply list_elem_of_In, elem_of_map_to_list.
Qed.

Lemma groupFile_keys (files : list analyzer.FileInfo) :
  forall dirs d,
    List.fold_left analyzer.groupFile files dirs !! d <> None ->
    dirs !! d <> None
    \/ exists f,
         In f files
         /\ d = (if String.eqb (filepath_Dir (analyzer.FiPath f)) "."
                 then "" else filepath_Dir (analyzer.FiPath f)).
Proof.
  induction files as [|f files IH]; intros dirs d Hd; [now left |].
  cbn [List.fold_left] in Hd. apply IH in Hd as [Hd | (f' & Hin & ->)].
  - unfold analyzer.groupFile in Hd. cbv zeta in Hd.
    destruct (String.eqb_spec
                (if String.eqb (filepath_Dir (analyzer.FiPath f)) "."
                 then "" else filepath_Dir (analyzer.FiPath f)) d)
      as [<- | Hne].
    + right. exists f. split; [now left | reflexivity].
    + rewrite lookup_insert_ne in Hd by exact Hne. now left.
  - right. exists f'. split; [now right | reflexivity].
Qed.

Lemma groupFiles_flat (files : list analyzer.FileInfo) (d : string) :
  forallb atRoot files = true ->
  In d (analyzer.treeKeys (analyzer.groupFiles files)) -> d = "".
Proof.
  intros Hflat Hd. apply treeKeys_lookup in Hd.
  unfold analyzer.groupFiles in Hd.
  apply groupFile_keys in Hd as [Hd | (f & Hin & ->)].
  - now rewrite lookup_empty in Hd.
  - rewrite forallb_forall in Hflat. specialize (Hflat f Hin).
    unfold atRoot in Hflat. now rewrite Hflat.
Qed.

Lemma writeFiles_lines (names : list string) :
  forall sb,
    analyzer.writeFiles "" names sb
    = sb +:+ String.concat "" (List.map treeLine names).
Proof.
  unfold analyzer.writeFiles.
  induction names as [|name names IH]; intros sb.
  - cbn [List.fold_left List.map String.concat]. now rewrite string_app_nil_r.
  - cbn [List.fold_left List.map]. rewrite IH, string_app_assoc.
    f_equal. unfold treeLine.
    destruct names as [|name' names]; cbn [List.map String.concat].
    + now rewrite string_app_nil_r.
    + reflexivity.
Qed.

Section FileTree.

Context {lib : analyzer.Library}.
Variable dirs : gmap string (list string).

(** [printDir] only writes at the end of what has been written. *)
Lemma visitDir_appends
    (printDir' : string -> string -> analyzer.PrintState -> analyzer.PrintState)
    (dir indent : string) :
  (forall d i sb ranges,
     exists added, fst (printDir' d i (sb, ranges)) = sb +:+ added) ->
  forall keys sb ranges,
    exists added,
      fst (List.fold_left (analyzer.visitDir printDir' dir indent) keys
             (sb, ranges))
      = sb +:+ added.
Proof.
  intros Hrec keys.
  induction keys as [|d keys IH]; intros sb ranges.
  - exists "". cbn [List.fold_left fst]. now rewrite string_app_nil_r.
  - cbn [List.fold_left].
    assert (Hone : exists added,
               fst (analyzer.visitDir printDir' dir indent (sb, ranges) d)
               = sb +:+ added).
    { unfold analyzer.visitDir.
      destruct (strings_HasPrefix d dir && negb (String.eqb d dir));
        [| exists ""; now rewrite string_app_nil_r].
      destruct (strings_Split (strings_TrimPrefix d dir) "/") as [|part parts];
        [exists ""; now rewrite string_app_nil_r |].
      destruct (negb (String.eqb part ""));
        [| exists ""; now rewrite string_app_nil_r].
      destruct (Hrec d (indent +:+ "│   ")
                  (sb +:+ (indent +:+ "├── " +:+ part +:+ "/" +:+ analyzer.nl))
                  ranges) as [added ->].
      eexists. apply string_app_assoc. }
    destruct (analyzer.visitDir printDir' dir indent (sb, ranges) d)
      as [sb1 ranges1].
    destruct Hone as [added1 Hone]. cbn [fst] in Hone. subst sb1.
    destruct (IH (sb +:+ added1) ranges1) as [added ->].
    eexists. apply string_app_assoc.
Qed.

Lemma printDir_appends (fuel : nat) :
  forall dir indent sb ranges,
    exists added,
      fst (analyzer.printDir dirs fuel dir indent (sb, ranges)) = sb +:+ added.
Proof.
  induction fuel as [|fuel IH]; intros dir indent sb ranges.
  - exists "". cbn [analyzer.printDir fst]. now rewrite string_app_nil_r.
  - cbn [analyzer.printDir].
    assert (Hfiles : exists added,
               match dirs !! dir with
               | Some files => analyzer.writeFiles indent files sb
               | None => sb
               end = sb +:+ added).
    { destruct (dirs !! dir) as [files |];
        [| exists ""; now rewrite string_app_nil_r].
      unfold analyzer.writeFiles. clear IH. revert sb.
      induction files as [|file files IHfiles]; intros sb.
      - exists "". cbn [List.fold_left]. now rewrite string_app_nil_r.
      - cbn [List.fold_left].
        destruct (IHfiles (sb +:+ (indent +:+ "├── " +:+ file +:+ analyzer.nl)))
          as [added ->].
        eexists. apply string_app_assoc. }
    destruct Hfiles as [added1 ->].
    destruct (visitDir_appends (analyzer.printDir dirs fuel) dir indent IH
                (analyzer.rangeOrder ranges (analyzer.treeKeys dirs))
                (sb +:+ added1) (S ranges)) as [added ->].
    eexists. apply string_app_assoc.
Qed.

(** The keys a range visits are keys of the map. *)
Lemma insertByRank_In (rank : string -> nat) (k d : string) (l : list string) :
  In d (analyzer.insertByRank rank k l) -> d = k \/ In d l.
Proof.
  induction l as [|k' l IH]; cbn [analyzer.insertByRank].
  - intros [<- | []]. now left.
  - destruct (rank k <=? rank k')%nat.
    + intros [<- | Hin]; [now left | now right].
    + intros [<- | Hin]; [right; now left |].
      destruct (IH Hin) as [-> | Hl]; [now left | right; now right].
Qed.

Lemma rangeOrder_In (i : nat) (d : string) (keys : list string) :
  In d (analyzer.rangeOrder i keys) -> In d keys.
Proof.
  unfold analyzer.rangeOrder.
  induction keys as [|k keys IH]; cbn [List.fold_right]; [intros [] |].
  intros Hin. apply insertByRank_In in Hin as [-> | Hin];
    [now left | right; now apply IH].
Qed.

Lemma longestKey_In (d : string) (keys : list string) :
  In d keys -> (String.length d <= analyzer.longestKey keys)%nat.
Proof.
  unfold analyzer.longestKey.
  induction keys as [|k keys IH]; cbn [List.fold_right]; [intros [] |].
  intros [<- | Hin]; [lia |]. specialize (IH Hin). lia.
Qed.

Lemma proper_prefix_longer (dir d : string) :
  String.prefix dir d = true -> String.eqb d dir = false ->
  (String.length dir < String.length d)%nat.
Proof.
  revert d. induction dir as [|x dir IH]; intros d Hpre Hne.
  - destruct d as [|y d]; [discriminate | cbn [String.length]; lia].
  - destruct d as [|y d]; [discriminate |].
    cbn [String.prefix] in Hpre.
    destruct (ascii_dec x y) as [-> | _]; [| discriminate].
    cbn [String.eqb] in Hne. rewrite Ascii.eqb_refl in Hne.
    specialize (IH d Hpre Hne). cbn [String.length]. lia.
Qed.

Lemma fold_left_ext_In {A B : Type} (f g : A -> B -> A) (l : list B) :
  (forall a b, In b l -> f a b = g a b) ->
  forall a, List.fold_left f l a = List.fold_left g l a.
Proof.
  induction l as [|b l IH]; intros Hext a; [reflexivity |].
  cbn [List.fold_left]. rewrite (Hext a b) by now left.
  apply IH. intros a' b' Hin. apply Hext. now right.
Qed.

(** Fuel beyond the length still to go to the longest key changes nothing:
    the calls of [printDir] never reach the end of it. *)
Lemma printDir_fuel (n : nat) :
  forall dir indent st,
    (analyzer.longestKey (analyzer.treeKeys dirs) <= String.length dir + n)%nat ->
    forall m, (n <= m)%nat ->
      analyzer.printDir dirs (S m) dir indent st
      = analyzer.printDir dirs (S n) dir indent st.
Proof.
  induction n as [|n IH]; intros dir indent [sb ranges] Hlong m Hm;
    cbn [analyzer.printDir]; apply fold_left_ext_In;
    intros [sb' ranges'] d Hd; apply rangeOrder_In, longestKey_In in Hd;
    unfold analyzer.visitDir;
    destruct (strings_HasPrefix d dir) eqn:Hpre; cbn [andb];
      try reflexivity;
    destruct (String.eqb d dir) eqn:Hne; cbn [negb];
      try reflexivity;
    pose proof (proper_prefix_longer dir d Hpre Hne) as Hlonger.
  - lia.
  - destruct (strings_Split (strings_TrimPrefix d dir) "/") as [|part parts];
      [reflexivity |].
    destruct (negb (String.eqb part "")); [| reflexivity].
    destruct m as [|m]; [lia |].
    apply IH; lia.
Qed.

End FileTree.

Section ScanTree.

Context {lib : analyzer.Library}.

(** The tree begins with the line of the root and the lines of the files
    in the root. *)
Lemma generateFileTree_root (files : list analyzer.FileInfo) :
  exists rest,
    analyzer.generateFileTree files
    = "." +:+ analyzer.nl +:+ rootLines files +:+ rest.
Proof.
  unfold analyzer.generateFileTree. cbv zeta.
  cbn [analyzer.printDir].
  rewrite groupFiles_root.
  assert (Hstart :
            match
              match List.map (fun f => filepath_Base (analyzer.FiPath f))
                      (List.filter atRoot files) with
              | [] => None
              | names => Some names
              end
            with
            | Some names => analyzer.writeFiles "" names ("." +:+ analyzer.nl)
            | None => "." +:+ analyzer.nl
            end = ("." +:+ analyzer.nl) +:+ rootLines files).
  { unfold rootLines.
    rewrite <- (List.map_map (fun f => filepath_Base (analyzer.FiPath f))
                  treeLine).
    destruct (List.map (fun f => filepath_Base (analyzer.FiPath f))
                (List.filter atRoot files)) as [|name names].
    - reflexivity.
    - apply writeFiles_lines. }
  rewrite Hstart.
  destruct (visitDir_appends
              (analyzer.printDir (analyzer.groupFiles files)
                 (analyzer.longestKey
                    (analyzer.treeKeys (analyzer.groupFiles files))))
              "" "" (printDir_appends _ _)
              (analyzer.rangeOrder 0
                 (analyzer.treeKeys (analyzer.groupFiles files)))
              (("." +:+ analyzer.nl) +:+ rootLines files) 1)
    as [rest ->].
  exists rest. now rewrite !string_app_assoc.
Qed.

(** When every file lies in the root the tree ends there. *)
Lemma generateFileTree_flat (files : list analyzer.FileInfo) :
  forallb atRoot files = true ->
  analyzer.generateFileTree files = "." +:+ analyzer.nl +:+ rootLines files.
Proof.
  intros Hflat. unfold analyzer.generateFileTree. cbv zeta.
  cbn [analyzer.printDir].
  rewrite groupFiles_root.
  assert (Hstart :
            match
              match List.map (fun f => filepath_Base (analyzer.FiPath f))
                      (List.filter atRoot files) with
              | [] => None
              | names => Some names
              end
            with
            | Some names => analyzer.writeFiles "" names ("." +:+ analyzer.nl)
            | None => "." +:+ analyzer.nl
            end = ("." +:+ analyzer.nl) +:+ rootLines files).
  { unfold rootLines.
    rewrite <- (List.map_map (fun f => filepath_Base (analyzer.FiPath f))
                  treeLine).
    destruct (List.map (fun f => filepath_Base (analyzer.FiPath f))
                (List.filter atRoot files)) as [|name names].
    - reflexivity.
    - apply writeFiles_lines. }
  rewrite Hstart, string_app_assoc.
  assert (Hkeys : forall d,
             In d (analyzer.rangeOrder 0
                     (analyzer.treeKeys (analyzer.groupFiles files))) ->
             d = "").
  { intros d Hd. apply rangeOrder_In in Hd. now apply groupFiles_flat in Hd. }
  induction (analyzer.rangeOrder 0
               (analyzer.treeKeys (analyzer.groupFiles files)))
    as [|d keys IH]; [reflexivity |].
  cbn [List.fold_left]. rewrite (Hkeys d) by now left.
  unfold analyzer.visitDir at 2. cbn [strings_HasPrefix String.prefix
                                        String.eqb andb negb].
  apply IH. intros d' Hd'. apply Hkeys. now right.
Qed.

(** Any fuel above the length of the longest key gives the same tree. *)
Lemma generateFileTree_fuel (files : list analyzer.FileInfo) (fuel : nat) :
  (analyzer.longestKey (analyzer.treeKeys (analyzer.groupFiles files)) < fuel)%nat ->
  fst (analyzer.printDir (analyzer.groupFiles files) fuel "" ""
         ("." +:+ analyzer.nl, O))
  = analyzer.generateFileTree files.
Proof.
  intros Hfuel. destruct fuel as [|fuel]; [lia |].
  unfold analyzer.generateFileTree. cbv zeta. f_equal.
  apply printDir_fuel; cbn [String.length]; lia.
Qed.

End ScanTree.

(** The tree of two files in the root, one in a directory and one in a
    directory of that directory, the map being ranged over in the order
    its keys are listed.  From the root, each directory that has files is
    listed under the first name of its path; from a directory, a key that
    goes on with a slash is passed over. *)
Example generateFileTree_example :
  analyzer.treeKeys
    (analyzer.groupFiles
       (List.map fileAt ["main.go"; "cmd/app/run.go"; "cmd/tool.go"; "go.mod"]))
  = ["cmd/app"; "cmd"; ""]
  /\ analyzer.generateFileTree (lib := exampleLibrary)
       (List.map fileAt ["main.go"; "cmd/app/run.go"; "cmd/tool.go"; "go.mod"])
     = unlines ["."; "├── main.go"; "├── go.mod";
                "├── cmd/"; "│   ├── run.go";
                "├── cmd/"; "│   ├── tool.go"].
Proof. split; vm_compute; reflexivity. Qed.

Section ScanInventory.

Context {lib : analyzer.Library}.
Variable fs : os.Snapshot.

#[local] Arguments filepath_Rel : simpl never.
#[local] Arguments analyzer.shouldExclude : simpl never.
#[local] Arguments analyzer.detectLanguage : simpl never.
#[local] Arguments analyzer.isTestFile : simpl never.

Lemma filesOf_snoc language files f :
  filesOf language (files ++ [f])
  = (filesOf language files
     + if String.eqb (analyzer.FiLanguage f) language then 1 else 0)%nat.
Proof.
  unfold filesOf. rewrite List.filter_app, length_app. cbn [List.filter].
  now destruct (String.eqb (analyzer.FiLanguage f) language).
Qed.

Lemma scanFn_countsAgree s path arg st :
  countsAgree st -> countsAgree (fst (analyzer.scanFn s path arg st)).
Proof.
  intros Hst. unfold analyzer.scanFn.
  destruct arg as [fi | fi err | err]; [| exact Hst | exact Hst].
  destruct (analyzer.shouldExclude s path);
    [now destruct (os.IsDir fi) |].
  destruct (os.IsDir fi); [exact Hst |].
  destruct st as [[files languages] total]. cbn [fst].
  destruct Hst as [Htotal Hlang]. split.
  - rewrite length_app. cbn [length]. lia.
  - intros language. rewrite filesOf_snoc. cbn [analyzer.FiLanguage].
    specialize (Hlang language) as Hthis.
    unfold nonEmpty.
    destruct (String.eqb_spec (analyzer.detectLanguage path) "") as [Hnone | Hsome];
      cbn [negb].
    + rewrite Hnone.
      destruct (String.eqb_spec "" language) as [<- | Hne];
        [now rewrite Hthis | now rewrite Nat.add_0_r].
    + unfold analyzer.countLanguage.
      destruct (String.eqb_spec (analyzer.detectLanguage path) language)
        as [Heq | Hne].
      * subst language. rewrite lookup_insert_eq, Hthis.
        apply String.eqb_neq in Hsome. rewrite Hsome. cbn [orb].
        replace (filesOf (analyzer.detectLanguage path) files + 1 =? 0)%nat
          with false by (symmetry; apply Nat.eqb_neq; lia).
        destruct (filesOf (analyzer.detectLanguage path) files =? 0)%nat
          eqn:Hzero; cbn [default from_option]; f_equal.
        -- apply Nat.eqb_eq in Hzero. rewrite Hzero. reflexivity.
        -- unfold id. lia.
      * rewrite lookup_insert_ne by exact Hne. now rewrite Nat.add_0_r.
Qed.

Lemma scanFn_kept s path arg st :
  Forall (keptBy s) (fst (fst st)) ->
  Forall (keptBy s) (fst (fst (fst (analyzer.scanFn s path arg st)))).
Proof.
  intros Hst. unfold analyzer.scanFn.
  destruct arg as [fi | fi err | err]; [| exact Hst | exact Hst].
  destruct (analyzer.shouldExclude s path) eqn:Hex;
    [now destruct (os.IsDir fi) |].
  destruct (os.IsDir fi); [exact Hst |].
  destruct st as [[files languages] total]. cbn [fst] in *.
  apply Forall_app. split; [exact Hst |].
  constructor; [| constructor]. now exists path.
Qed.

(** X12.  When [Scan] succeeds its statistics agree with the files it
    recorded: TotalFiles is their number; a language is counted under
    Languages exactly when some recorded file has it, with the number of
    those files; files of no recognised language are counted in the total
    only.  So no count is below one or above TotalFiles.  The file tree is
    the one [generateFileTree] renders for the recorded files: it begins
    with the line of the root, a dot, followed by one line for each
    recorded file that lies in the root, in the order recorded, and
    nothing more when every recorded file lies in the root; and the
    rendering is complete, more fuel than the length of the longest
    directory key giving the same text. *)
Theorem Scan_counts (s : analyzer.Scanner) (structure : analyzer.RepoStructure) :
  analyzer.Scan fs s = Ok structure ->
  (analyzer.FileTree structure = analyzer.generateFileTree (scanned fs s)
   /\ (exists rest,
         analyzer.FileTree structure
         = "." +:+ analyzer.nl +:+ rootLines (scanned fs s) +:+ rest)
   /\ (forallb atRoot (scanned fs s) = true ->
       analyzer.FileTree structure
       = "." +:+ analyzer.nl +:+ rootLines (scanned fs s))
   /\ (forall fuel,
         (analyzer.longestKey
            (analyzer.treeKeys (analyzer.groupFiles (scanned fs s))) < fuel)%nat ->
         fst (analyzer.printDir (analyzer.groupFiles (scanned fs s)) fuel
                "" "" ("." +:+ analyzer.nl, O))
         = analyzer.FileTree structure))
  /\ analyzer.TotalFiles structure = Z.of_nat (length (scanned fs s))
  /\ analyzer.Languages structure !! "" = None
  /\ (forall language,
        language <> "" ->
        default 0%Z (analyzer.Languages structure !! language)
        = Z.of_nat (filesOf language (scanned fs s)))
  /\ (forall language count,
        analyzer.Languages structure !! language = Some count ->
        (1 <= count <= analyzer.TotalFiles structure)%Z).
Proof.
  unfold analyzer.Scan, scanned.
  pose proof (Walk_invariant (analyzer.scanFn s) countsAgree fs
                (analyzer.Scanner_rootPath s) ([], ∅, 0%Z)
                (scanFn_countsAgree s)) as Hinv.
  destruct (os.Walk (analyzer.scanFn s) fs (analyzer.Scanner_rootPath s)
              ([], ∅, 0%Z)) as [[[files languages] total] [e |]];
    [discriminate |].
  intros [= <-]. cbn [fst analyzer.FileTree analyzer.TotalFiles
                      analyzer.Languages].
  destruct Hinv as [Htotal Hlang].
  { split; [reflexivity |]. intros language. rewrite lookup_empty.
    unfold filesOf. cbn [List.filter length Nat.eqb].
    now rewrite orb_true_r. }
  cbn [fst] in *.
  split.
  { split; [reflexivity |]. split; [| split].
    - apply generateFileTree_root.
    - apply generateFileTree_flat.
    - intros fuel. apply generateFileTree_fuel. }
  split; [exact Htotal |].
  split; [now rewrite Hlang |]. split.
  - intros language Hne. rewrite Hlang.
    apply String.eqb_neq in Hne. rewrite Hne. cbn [orb].
    destruct (filesOf language files =? 0)%nat eqn:Hzero; [| reflexivity].
    apply Nat.eqb_eq in Hzero. now rewrite Hzero.
  - intros language count. rewrite Hlang.
    destruct (String.eqb language "" || (filesOf language files =? 0)%nat)
      eqn:Hnone; [discriminate |].
    intros [= <-]. apply orb_false_iff in Hnone as [_ Hpos].
    apply Nat.eqb_neq in Hpos.
    assert (filesOf language files <= length files)%nat
      by apply List.filter_length_le.
    lia.
Qed.

(** X13.  Every file [Scan] records was kept by [shouldExclude]: its
    recorded path contains none of the always-excluded names, not even as
    part of a longer name, and matches none of the configured patterns;
    its language and its test flag are those of the path visited. *)
Theorem Scan_records_kept (s : analyzer.Scanner) :
  Forall
    (fun f =>
       keptBy s f
       /\ (forall name, In name analyzer.alwaysExclude ->
             strings_Contains (analyzer.FiPath f) name = false)
       /\ (forall pattern, In pattern (analyzer.excludePatterns s) ->
             analyzer.filepath_Match pattern (analyzer.FiPath f) = false))
    (scanned fs s).
Proof.
  assert (Hkept : Forall (keptBy s) (scanned fs s)).
  { unfold scanned.
    apply (Walk_invariant (analyzer.scanFn s)
             (fun st => Forall (keptBy s) (fst (fst st)))).
    - intros path arg st. apply scanFn_kept.
    - constructor. }
  eapply List.Forall_impl; [| exact Hkept].
  intros f Hf. split; [exact Hf |].
  destruct Hf as (p & Hex & Hpath & _).
  unfold analyzer.shouldExclude in Hex. cbv zeta in Hex.
  rewrite <- Hpath in Hex. apply orb_false_iff in Hex as [Halways Hpatterns].
  split.
  - intros name Hname.
    destruct (strings_Contains (analyzer.FiPath f) name) eqn:E;
      [| reflexivity].
    assert (existsb (strings_Contains (analyzer.FiPath f))
              analyzer.alwaysExclude = true)
      by (apply existsb_exists; eauto).
    congruence.
  - intros pattern Hpattern.
    destruct (analyzer.filepath_Match pattern (analyzer.FiPath f)) eqn:E;
      [| reflexivity].
    assert (existsb (fun pattern =>
                       analyzer.filepath_Match pattern (analyzer.FiPath f))
              (analyzer.excludePatterns s) = true)
      by (apply existsb_exists; eauto).
    congruence.
Qed.

End ScanInventory.

(** ** The detector: tests, and what every component carries *)

Section DetectorInvariants.

Context {lib : analyzer.Library}.
Variable fs : os.Snapshot.

#[local] Arguments filepath_Join : simpl never.
#[local] Arguments filepath_Rel : simpl never.
#[local] Arguments filepath_Base : simpl never.
#[local] Arguments analyzer.isTestFile : simpl never.
#[local] Arguments analyzer.isSourceFile : simpl never.

#[local] Ltac settled :=
  split;
  [ reflexivity
  | split;
    [ let H := fresh in intros H; first [reflexivity | discriminate H]
    | let H := fresh in intros ? H; discriminate H ] ].

(** The walk of [hasTests] ends with the flag raised exactly when it was
    raised before or some entry has a test path; it never fails, and it
    skips only after raising the flag. *)
Lemma walk_hasTestsFn (n : os.Node) :
  forall path found,
    fst (os.walk analyzer.hasTestsFn path n found)
    = found || existsb analyzer.isTestFile (entriesOf path n)
    /\ (snd (os.walk analyzer.hasTestsFn path n found) = os.SkipDir ->
        existsb analyzer.isTestFile (entriesOf path n) = true)
    /\ (forall e, snd (os.walk analyzer.hasTestsFn path n found) <> os.Fail e).
Proof.
  induction n as [size | err | names IH] using Node_nested_ind;
    intros path found.
  - cbn [os.walk entriesOf existsb]. unfold analyzer.hasTestsFn.
    destruct (analyzer.isTestFile path); cbn [fst snd orb].
    + rewrite orb_true_r. settled.
    + rewrite orb_false_r. settled.
  - cbn [os.walk entriesOf existsb]. unfold analyzer.hasTestsFn.
    destruct (analyzer.isTestFile path); cbn [fst snd orb].
    + rewrite orb_true_r. settled.
    + rewrite orb_false_r. settled.
  - cbn [os.walk entriesOf existsb].
    destruct (analyzer.hasTestsFn path
                (os.Entry (os.info (os.Dir (Ok names)))) found)
      as [found1 r1] eqn:Hfn.
    unfold analyzer.hasTestsFn in Hfn.
    destruct (analyzer.isTestFile path); injection Hfn as <- <-;
      cbn [fst snd orb].
    + rewrite orb_true_r. settled.
    + revert found.
      induction IH as [|[name [child | err]] rest Hchild _ IHrest];
        intros found.
      * cbn [fst snd existsb]. rewrite orb_false_r.
        settled.
      * cbn [snd] in Hchild.
        destruct (Hchild (filepath_Join [path; name]) found)
          as (Hflag & Hskip & Hfail).
        destruct (os.walk analyzer.hasTestsFn (filepath_Join [path; name])
                    child found) as [found' r].
        cbn [fst snd] in Hflag, Hskip, Hfail. rewrite existsb_app.
        destruct r as [| | e]; [| | now destruct (Hfail e)].
        -- subst found'.
           destruct (IHrest (found || existsb analyzer.isTestFile
                                        (entriesOf (filepath_Join [path; name])
                                                   child)))
             as (Hflag' & Hskip' & Hfail').
           rewrite Hflag', orb_assoc.
           split; [reflexivity |]. split; [| exact Hfail'].
           intros Hs. rewrite (Hskip' Hs). apply orb_true_r.
        -- rewrite (Hskip eq_refl) in *. rewrite orb_true_r in Hflag.
           subst found'. cbn [orb].
           destruct (os.IsDir (os.info child)).
           ++ destruct (IHrest true) as (Hflag' & _ & Hfail').
              rewrite Hflag'. cbn [orb]. rewrite orb_true_r.
              split; [reflexivity |]. split; [reflexivity | exact Hfail'].
           ++ cbn [fst snd]. rewrite orb_true_r.
              settled.
      * cbn [existsb].
        destruct (analyzer.hasTestsFn (filepath_Join [path; name])
                    (os.LstatFailed err) found) as [found' r] eqn:Hfn.
        unfold analyzer.hasTestsFn in Hfn.
        destruct (analyzer.isTestFile (filepath_Join [path; name]));
          injection Hfn as <- <-; cbn [orb].
        -- destruct (IHrest true) as (Hflag' & _ & Hfail').
           rewrite Hflag'. cbn [orb]. rewrite orb_true_r.
           split; [reflexivity |]. split; [reflexivity | exact Hfail'].
        -- apply IHrest.
Qed.

(** X14.  [hasTests] answers true exactly when some entry at or below the
    component directory has a path [isTestFile] accepts: a file or a
    directory, examined or not, also below node_modules, vendor and .git,
    which this walk does not leave out.  Stopping at the first test path
    changes nothing of the answer. *)
Theorem hasTests_any_entry (d : analyzer.Detector) (path : string) :
  analyzer.hasTests fs d path
  = match os.Lstat fs path with
    | Ok n => existsb analyzer.isTestFile (entriesOf path n)
    | Err _ => analyzer.isTestFile path
    end.
Proof.
  unfold analyzer.hasTests, os.Walk.
  destruct (os.Lstat fs path) as [n | err].
  - destruct (walk_hasTestsFn n path false) as (Hflag & _ & _).
    destruct (os.walk analyzer.hasTestsFn path n false) as [found r].
    cbn [fst] in Hflag. now destruct r.
  - unfold analyzer.hasTestsFn.
    now destruct (analyzer.isTestFile path).
Qed.

Lemma analyzeDirectory_asDetected (d : analyzer.Detector) (dir : string) :
  forall comp, analyzer.analyzeDirectory fs d dir = Some comp ->
               asDetected comp.
Proof.
  intros comp. unfold analyzer.analyzeDirectory. intros [= <-].
  repeat match goal with
         | |- context [if ?b then _ else _] => destruct b
         end;
    unfold asDetected, componentTypes, componentLanguages;
    cbn; repeat split; auto 12.
Qed.

Lemma detectSingleComponent_asDetected (d : analyzer.Detector) :
  forall comp, analyzer.detectSingleComponent fs d = Some comp ->
               asDetected comp.
Proof.
  intros comp. unfold analyzer.detectSingleComponent,
    analyzer.detectGoComponentType, analyzer.detectPythonComponentType,
    analyzer.detectNodeComponentType.
  repeat match goal with
         | |- context [if ?b then _ else _] => destruct b
         end;
    intros [= <-];
    unfold asDetected, componentTypes, componentLanguages;
    cbn; repeat split; auto 12.
Qed.

Lemma detectStrategies_asDetected (d : analyzer.Detector) :
  Forall asDetected (analyzer.detectStrategies fs d).
Proof.
  assert (Hdir : forall dir,
            Forall asDetected
              match analyzer.analyzeDirectory fs d dir with
              | Some comp => [comp]
              | None => []
              end).
  { intros dir.
    pose proof (analyzeDirectory_asDetected d dir) as H.
    destruct (analyzer.analyzeDirectory fs d dir); [| constructor].
    constructor; [now apply H | constructor]. }
  assert (Hmono : Forall asDetected (analyzer.detectMonorepo fs d)).
  { unfold analyzer.detectMonorepo.
    apply List.Forall_flat_map, List.Forall_forall. intros pattern _.
    apply List.Forall_flat_map, List.Forall_forall. intros dir _.
    destruct (os.Stat fs dir) as [info | err]; [| constructor].
    destruct (os.IsDir info); [apply Hdir | constructor]. }
  assert (Hby : Forall asDetected (analyzer.detectByDirectory fs d)).
  { unfold analyzer.detectByDirectory.
    apply List.Forall_flat_map, List.Forall_forall. intros pattern _.
    apply List.Forall_flat_map, List.Forall_forall. intros m _.
    apply Hdir. }
  unfold analyzer.detectStrategies. cbv zeta. cbn [app].
  pose proof (detectSingleComponent_asDetected d) as Hsingle.
  destruct (length (analyzer.detectMonorepo fs d) =? 0)%nat eqn:Hnone;
    [| now rewrite Hnone].
  destruct (analyzer.detectSingleComponent fs d) as [comp |].
  - assert (Hboth : Forall asDetected (analyzer.detectMonorepo fs d ++ [comp])).
    { apply List.Forall_app. split; [exact Hmono |].
      constructor; [now apply Hsingle | constructor]. }
    destruct (length (analyzer.detectMonorepo fs d ++ [comp]) =? 0)%nat;
      [| exact Hboth].
    apply List.Forall_app. now split.
  - rewrite Hnone. apply List.Forall_app. now split.
Qed.

(** What enrichment makes of a component a strategy has detected. *)
Lemma strategies_enriched (d : analyzer.Detector)
    (structure : analyzer.RepoStructure) :
  Forall
    (fun comp =>
       In (analyzer.Type_ comp) componentTypes
       /\ In (analyzer.Language comp) componentLanguages
       /\ analyzer.Description comp = analyzer.generateDescription comp
       /\ analyzer.Files comp
          = analyzer.collectComponentFiles fs d (analyzer.Path comp)
       /\ analyzer.HasTests comp
          = analyzer.hasTests fs d (analyzer.Path comp)
       /\ analyzer.Dependencies comp = []
       /\ analyzer.Endpoints comp = []
       /\ analyzer.EntryPoint comp = "")
    (List.map (fun comp => analyzer.enrichComponent fs d comp structure)
       (analyzer.detectStrategies fs d)).
Proof.
  apply List.Forall_map.
  eapply List.Forall_impl; [| apply detectStrategies_asDetected].
  intros comp (Htype & Hlang & Hdesc & Hdeps & Hends & Hentry).
  unfold analyzer.enrichComponent.
  cbn [analyzer.Description analyzer.setDependencies analyzer.setHasTests
       analyzer.setFiles].
  rewrite Hdesc. cbn [String.eqb].
  assert (Hnone : analyzer.Detector_extractDependencies d
                    (analyzer.setHasTests
                       (analyzer.setFiles comp
                          (analyzer.collectComponentFiles fs d
                             (analyzer.Path comp)))
                       (analyzer.hasTests fs d
                          (analyzer.Path
                             (analyzer.setFiles comp
                                (analyzer.collectComponentFiles fs d
                                   (analyzer.Path comp)))))) = []).
  { unfold analyzer.Detector_extractDependencies.
    repeat match goal with
           | |- context [if ?b then _ else _] => destruct b
           end; reflexivity. }
  cbn. cbn in Hnone. rewrite Hnone.
  repeat split; assumption.
Qed.

(** X15.  [DetectComponents] never fails and does not read the scan
    result it is handed.  Every component it returns has one of the three
    types and a known language or none; its description is the generated
    one; its files and its test flag are those of the walks of its
    directory; it carries no dependency, no endpoint and no entry point. *)
Theorem DetectComponents_invariants (d : analyzer.Detector)
    (structure : analyzer.RepoStructure) :
  exists components,
    analyzer.DetectComponents fs d structure = Ok components
    /\ (forall structure',
          analyzer.DetectComponents fs d structure' = Ok components)
    /\ Forall
         (fun comp =>
            In (analyzer.Type_ comp) componentTypes
            /\ In (analyzer.Language comp) componentLanguages
            /\ analyzer.Description comp = analyzer.generateDescription comp
            /\ analyzer.Files comp
               = analyzer.collectComponentFiles fs d (analyzer.Path comp)
            /\ analyzer.HasTests comp
               = analyzer.hasTests fs d (analyzer.Path comp)
            /\ analyzer.Dependencies comp = []
            /\ analyzer.Endpoints comp = []
            /\ analyzer.EntryPoint comp = "")
         components.
Proof.
  eexists. split; [reflexivity |]. split; [reflexivity |].
  apply strategies_enriched.
Qed.

(** X16.  Every file the detector takes for a source file has a language
    the scanner knows; but the files of four languages the scanner
    counts, C#, Kotlin, Swift and shell, are never source files. *)
Theorem isSourceFile_language (path : string) :
  (analyzer.isSourceFile path = true -> analyzer.detectLanguage path <> "")
  /\ (In (analyzer.detectLanguage path) ["csharp"; "kotlin"; "swift"; "shell"] ->
      analyzer.isSourceFile path = false).
Proof.
  unfold analyzer.isSourceFile, analyzer.detectLanguage. cbv zeta.
  generalize (strings_ToLower (filepath_Ext path)). intros ext. split.
  - intros Hsource. apply existsb_exists in Hsource as (known & Hin & Heq).
    apply String.eqb_eq in Heq. subst known.
    unfold analyzer.sourceExts in Hin. cbn [In] in Hin.
    repeat destruct Hin as [<- | Hin]; try discriminate. destruct Hin.
  - destruct (List.find _ analyzer.languageMap) as [[known language] |] eqn:Hfind.
    + apply List.find_some in Hfind as [Hin Heq].
      cbn [fst] in Heq. apply String.eqb_eq in Heq. subst known.
      unfold analyzer.languageMap in Hin. cbn [In] in Hin.
      repeat destruct Hin as [[= <- <-] | Hin];
        try (cbn [In]; intros H;
             repeat destruct H as [H | H]; try discriminate H;
             try reflexivity; now destruct H).
    + cbn [In]. intros H.
      repeat destruct H as [H | H]; try discriminate H. destruct H.
Qed.

Lemma analyzeDirectory_path (d : analyzer.Detector) (dir : string) :
  forall comp, analyzer.analyzeDirectory fs d dir = Some comp ->
               analyzer.Path comp = dir
               /\ analyzer.Name comp = filepath_Base dir.
Proof.
  intros comp. unfold analyzer.analyzeDirectory. intros [= <-].
  repeat match goal with
         | |- context [if ?b then _ else _] => destruct b
         end; now split.
Qed.

Lemma map_flat_map_ext {A B C : Type} (g : B -> C) (F : A -> list B)
    (G : A -> list C) (l : list A) :
  (forall a, List.map g (F a) = G a) ->
  List.map g (List.flat_map F l) = List.flat_map G l.
Proof.
  intros H. induction l as [|a l IH]; [reflexivity |].
  cbn [List.flat_map]. now rewrite List.map_app, H, IH.
Qed.

(** X17.  The two strategies that read directories return one component
    per match, in the order of the patterns and of the matches: the
    monorepo strategy one for each match that is a directory, the
    entry-point strategy one for the directory of each match, so that a
    directory holding several matches is returned several times.  Each
    component is named after the last element of its path. *)
Theorem strategies_one_per_match (d : analyzer.Detector) :
  List.map analyzer.Path (analyzer.detectMonorepo fs d)
  = List.flat_map
      (fun pattern =>
         List.filter
           (fun dir => match os.Stat fs dir with
                       | Ok info => os.IsDir info
                       | Err _ => false
                       end)
           (os.Glob fs (filepath_Join [analyzer.Detector_rootPath d; pattern])))
      analyzer.monorepoPatterns
  /\ List.map analyzer.Path (analyzer.detectByDirectory fs d)
     = List.flat_map
         (fun pattern =>
            List.map filepath_Dir
              (os.Glob fs
                 (filepath_Join [analyzer.Detector_rootPath d; pattern])))
         analyzer.entryPoints
  /\ Forall (fun comp => analyzer.Name comp
                         = filepath_Base (analyzer.Path comp))
       (analyzer.detectMonorepo fs d ++ analyzer.detectByDirectory fs d).
Proof.
  assert (Hone : forall dir,
            exists comp,
              analyzer.analyzeDirectory fs d dir = Some comp
              /\ analyzer.Path comp = dir
              /\ analyzer.Name comp = filepath_Base dir).
  { intros dir.
    destruct (analyzer.analyzeDirectory fs d dir) as [comp |] eqn:E;
      [| unfold analyzer.analyzeDirectory in E; discriminate].
    exists comp. split; [reflexivity |].
    exact (analyzeDirectory_path d dir comp E). }
  split; [| split].
  - unfold analyzer.detectMonorepo. apply map_flat_map_ext. intros pattern.
    induction (os.Glob fs _) as [|dir dirs IH]; [reflexivity |].
    cbn [List.flat_map List.filter]. rewrite List.map_app, IH.
    destruct (os.Stat fs dir) as [info | err]; [| reflexivity].
    destruct (os.IsDir info); [| reflexivity].
    destruct (Hone dir) as (comp & -> & <- & _). reflexivity.
  - unfold analyzer.detectByDirectory. apply map_flat_map_ext. intros pattern.
    induction (os.Glob fs _) as [|m ms IH]; [reflexivity |].
    cbn [List.flat_map List.map]. rewrite List.map_app, IH.
    destruct (Hone (filepath_Dir m)) as (comp & -> & <- & _). reflexivity.
  - apply List.Forall_app. split.
    + unfold analyzer.detectMonorepo.
      apply List.Forall_flat_map, List.Forall_forall. intros pattern _.
      apply List.Forall_flat_map, List.Forall_forall. intros dir _.
      destruct (os.Stat fs dir) as [info | err]; [| constructor].
      destruct (os.IsDir info); [| constructor].
      destruct (Hone dir) as (comp & -> & Hpath & Hname).
      constructor; [congruence | constructor].
    + unfold analyzer.detectByDirectory.
      apply List.Forall_flat_map, List.Forall_forall. intros pattern _.
      apply List.Forall_flat_map, List.Forall_forall. intros m _.
      destruct (Hone (filepath_Dir m)) as (comp & -> & Hpath & Hname).
      constructor; [congruence | constructor].
Qed.

(** *** The files of a component, exactly *)

(** X18.  The files of a component are exactly the source files at or
    below its path, in the order of the walk and written relative to the
    detector's root: nothing below a directory named node_modules, vendor
    or .git, nothing below a directory whose names cannot be read, no
    entry that cannot be examined, and no file whose extension is not a
    source extension.  When the path itself cannot be examined there are
    no files. *)
Theorem collectComponentFiles_exact (d : analyzer.Detector) (path : string) :
  analyzer.collectComponentFiles fs d path
  = match os.Lstat fs path with
    | Ok n =>
        List.map
          (fun p => orEmpty (filepath_Rel (analyzer.Detector_rootPath d) p))
          (List.filter analyzer.isSourceFile (filesUnder path n))
    | Err _ => []
    end.
Proof.
  unfold analyzer.collectComponentFiles. rewrite fst_Walk.
  destruct (os.Lstat fs path) as [n | err]; [| reflexivity].
  now destruct (walk_collectFn_exact d n path []) as [-> _].
Qed.

End DetectorInvariants.

(** ** The analyzer: how the three steps compose *)

Section AnalyzeProperties.

Context {lib : analyzer.Library}.
Variable fs : os.Snapshot.

(** X19.  [Analyze] fails exactly when the walk of the scan fails, with the
    error of the walk wrapped twice; it never reports a failed component
    detection.  When it succeeds, the result carries the statistics of the
    scan unchanged, and every component carries the dependencies and the
    endpoints the metadata extractor reads for it next to the files, the
    test flag and the description the detector gave it. *)
Theorem Analyze_outcome (a : analyzer.Analyzer) :
  (forall e,
     analyzer.Analyze fs a = Err e
     <-> exists cause,
           snd (os.Walk (analyzer.scanFn (analyzer.scanner a)) fs
                  (analyzer.Scanner_rootPath (analyzer.scanner a))
                  ([], ∅, 0%Z)) = Some cause
           /\ e = "scan failed: failed to scan repository: " +:+ cause)
  /\ (forall e,
        analyzer.Analyze fs a <> Err ("component detection failed: " +:+ e))
  /\ (forall result,
        analyzer.Analyze fs a = Ok result ->
        exists structure,
          analyzer.Scan fs (analyzer.scanner a) = Ok structure
          /\ analyzer.RootPath result = analyzer.RootPath structure
          /\ analyzer.FileTree result = analyzer.FileTree structure
          /\ analyzer.Languages result = analyzer.Languages structure
          /\ analyzer.TotalFiles result = analyzer.TotalFiles structure
          /\ Forall
               (fun comp =>
                  analyzer.Dependencies comp
                  = analyzer.ExtractDependencies fs (analyzer.metadata a) comp
                  /\ analyzer.Endpoints comp
                     = analyzer.extractEndpoints fs (analyzer.metadata a) comp
                  /\ analyzer.Files comp
                     = analyzer.collectComponentFiles fs (analyzer.detector a)
                         (analyzer.Path comp)
                  /\ analyzer.HasTests comp
                     = analyzer.hasTests fs (analyzer.detector a)
                         (analyzer.Path comp)
                  /\ analyzer.Description comp
                     = analyzer.generateDescription comp
                  /\ In (analyzer.Type_ comp) componentTypes
                  /\ In (analyzer.Language comp) componentLanguages)
               (analyzer.Components result)).
Proof.
  assert (Herr : forall e,
     analyzer.Analyze fs a = Err e
     <-> exists cause,
           snd (os.Walk (analyzer.scanFn (analyzer.scanner a)) fs
                  (analyzer.Scanner_rootPath (analyzer.scanner a))
                  ([], ∅, 0%Z)) = Some cause
           /\ e = "scan failed: failed to scan repository: " +:+ cause).
  { intros e. unfold analyzer.Analyze, analyzer.Scan.
    destruct (os.Walk (analyzer.scanFn (analyzer.scanner a)) fs
                (analyzer.Scanner_rootPath (analyzer.scanner a)) ([], ∅, 0%Z))
      as [[[files languages] total] [cause |]]; cbn [snd].
    - split.
      + intros [= <-]. now exists cause.
      + now intros (cause' & [= <-] & ->).
    - split; [discriminate |]. intros (cause' & Hnone & _). discriminate. }
  split; [exact Herr |]. split.
  - intros e He. apply Herr in He as (cause & _ & He). discriminate.
  - intros result. unfold analyzer.Analyze.
    destruct (analyzer.Scan fs (analyzer.scanner a)) as [structure | e];
      [| discriminate].
    pose proof (strategies_enriched fs (analyzer.detector a) structure)
      as Hall.
    unfold analyzer.DetectComponents. cbv zeta.
    intros [= <-]. exists structure. split; [reflexivity |].
    cbn [analyzer.setComponents analyzer.RootPath analyzer.FileTree
         analyzer.Languages analyzer.TotalFiles analyzer.Components].
    do 4 (split; [reflexivity |]).
    apply List.Forall_map. eapply List.Forall_impl; [| exact Hall].
    intros comp (Htype & Hlang & Hdesc & Hfiles & Htests & _).
    unfold analyzer.ExtractMetadata. cbn.
    repeat split; assumption.
Qed.

End AnalyzeProperties.

(** ** The metadata extractor: reading go.mod back *)

Lemma printable_not_space (a : ascii) : printable a = true -> isSpace a = false.
Proof.
  unfold printable, isSpace. intros H.
  apply andb_prop in H as [Hlo Hhi].
  apply Nat.leb_le in Hlo. apply Nat.leb_le in Hhi.
  apply orb_false_iff. split.
  - apply andb_false_iff. right. apply Nat.leb_gt. lia.
  - apply Nat.eqb_neq. lia.
Qed.

Lemma printable_not_nl (a : ascii) :
  printable a = true -> a <> ascii_of_nat 10.
Proof. intros H ->. vm_compute in H. discriminate. Qed.

Lemma allChars_app (f : ascii -> bool) (a b : string) :
  allChars f (a +:+ b) = allChars f a && allChars f b.
Proof.
  induction a as [|x a IH]; [reflexivity |].
  cbn [String.append allChars]. now rewrite IH, andb_assoc.
Qed.

Lemma word_facts (w : string) :
  word w = true -> w <> "" /\ allChars printable w = true.
Proof.
  unfold word, nonEmpty. intros H. apply andb_prop in H as [Hne Hall].
  split; [| exact Hall]. apply negb_true_iff in Hne.
  now apply String.eqb_neq in Hne.
Qed.

Lemma printable_inLine (w : string) :
  allChars printable w = true -> allChars inLine w = true.
Proof.
  induction w as [|a w IH]; [reflexivity |].
  cbn [allChars]. intros H. apply andb_prop in H as [Ha Hw].
  rewrite IH by exact Hw. rewrite andb_true_r.
  apply negb_true_iff, Ascii.eqb_neq. intros Heq.
  now apply (printable_not_nl a Ha).
Qed.

(** *** Lines *)

Lemma splitGo_line (l cur s : string) :
  allChars inLine l = true ->
  splitGo analyzer.nl 0 cur (l +:+ analyzer.nl +:+ s)
  = String.rev (String.rev_app l cur) :: splitGo analyzer.nl 0 "" s.
Proof.
  revert cur. induction l as [|a l IH]; intros cur Hall.
  - cbn [String.append String.rev_app].
    change (analyzer.nl +:+ s) with (String (ascii_of_nat 10) s).
    cbn [splitGo]. unfold analyzer.nl at 1. cbn [String.prefix].
    destruct (ascii_dec (ascii_of_nat 10) (ascii_of_nat 10)); [| congruence].
    now rewrite prefix_empty.
  - cbn [allChars] in Hall. apply andb_prop in Hall as [Ha Hall].
    apply negb_true_iff, Ascii.eqb_neq in Ha.
    cbn [String.append splitGo]. unfold analyzer.nl at 1.
    cbn [String.prefix].
    destruct (ascii_dec (ascii_of_nat 10) a); [congruence |].
    cbn [String.rev_app]. now apply IH.
Qed.

Lemma Split_unlines (lines : list string) :
  Forall (fun l => allChars inLine l = true) lines ->
  strings_Split (unlines lines) analyzer.nl = lines ++ [""].
Proof.
  intros Hlines. change (strings_Split (unlines lines) analyzer.nl)
    with (splitGo analyzer.nl 0 "" (unlines lines)).
  induction Hlines as [|l rest Hl _ IH]; [reflexivity |].
  cbn [unlines app]. rewrite splitGo_line by exact Hl.
  now rewrite rev_rev_app, IH.
Qed.

(** *** White space *)

Lemma trimRight_word (s w : string) :
  w <> "" -> allChars printable w = true ->
  trimRightFunc isSpace (s +:+ w) = s +:+ w.
Proof.
  intros Hne Hall.
  assert (Hw : forall v, allChars printable v = true ->
                         trimRightFunc isSpace v = v).
  { induction v as [|a v IH]; [reflexivity |].
    cbn [allChars]. intros H. apply andb_prop in H as [Ha Hv].
    cbn [trimRightFunc]. rewrite IH by exact Hv.
    rewrite (printable_not_space a Ha). now destruct v. }
  induction s as [|a s IH]; [now apply Hw |].
  cbn [String.append trimRightFunc]. rewrite IH.
  destruct (s +:+ w) eqn:E; [| reflexivity].
  destruct s; [cbn in E; congruence | discriminate].
Qed.

Lemma trimLeft_word (w s : string) :
  w <> "" -> allChars printable w = true ->
  trimLeftFunc isSpace (w +:+ s) = w +:+ s.
Proof.
  intros Hne Hall. destruct w as [|a w]; [congruence |].
  cbn [allChars] in Hall. apply andb_prop in Hall as [Ha _].
  cbn [String.append trimLeftFunc]. now rewrite (printable_not_space a Ha).
Qed.

(** *** Fields *)

Lemma rev_app_nonempty (w acc : string) :
  acc <> "" -> String.rev_app w acc <> "".
Proof.
  revert acc. induction w as [|a w IH]; intros acc Hacc; [exact Hacc |].
  cbn [String.rev_app]. now apply IH.
Qed.

Lemma rev_app_word_nonempty (w : string) :
  w <> "" -> String.rev_app w "" <> "".
Proof.
  destruct w as [|a w]; [congruence |]. intros _.
  cbn [String.rev_app]. now apply rev_app_nonempty.
Qed.

Lemma fieldsGo_word (w cur s : string) :
  allChars printable w = true ->
  fieldsGo cur (w +:+ s) = fieldsGo (String.rev_app w cur) s.
Proof.
  revert cur. induction w as [|a w IH]; intros cur Hall; [reflexivity |].
  cbn [allChars] in Hall. apply andb_prop in Hall as [Ha Hw].
  cbn [String.append fieldsGo]. rewrite (printable_not_space a Ha).
  cbn [String.rev_app]. now apply IH.
Qed.

Lemma fieldsGo_space (cur s : string) :
  cur <> "" ->
  fieldsGo cur (" " +:+ s) = String.rev cur :: fieldsGo "" s.
Proof.
  intros Hcur. change (" " +:+ s) with (String " " s). cbn [fieldsGo].
  change (isSpace " ") with true. cbv iota. now destruct cur.
Qed.

Lemma Fields_two (name version rest : string) :
  word name = true -> word version = true ->
  rest = "" \/ (exists more, rest = " " +:+ more) ->
  exists others,
    strings_Fields (name +:+ " " +:+ version +:+ rest)
    = name :: version :: others.
Proof.
  intros Hname Hversion Hrest.
  apply word_facts in Hname as [Hn Hnall].
  apply word_facts in Hversion as [Hv Hvall].
  unfold strings_Fields.
  rewrite fieldsGo_word by exact Hnall.
  rewrite fieldsGo_space by now apply rev_app_word_nonempty.
  rewrite rev_rev_app. rewrite fieldsGo_word by exact Hvall.
  destruct Hrest as [-> | [more ->]].
  - exists []. cbn [fieldsGo].
    pose proof (rev_app_word_nonempty version Hv) as Hne.
    destruct (String.rev_app version "") eqn:E; [congruence |].
    rewrite <- E. now rewrite rev_rev_app.
  - rewrite fieldsGo_space by now apply rev_app_word_nonempty.
    rewrite rev_rev_app. eauto.
Qed.

(** *** The keyword *)

Lemma prefix_word (p n x r : string) :
  allChars printable p = true -> allChars printable n = true ->
  String.prefix (p +:+ " " +:+ x) (n +:+ " " +:+ r) = true -> p = n.
Proof.
  revert n. induction p as [|a p IH]; intros [|b n] Hp Hn Hpre.
  - reflexivity.
  - cbn [String.append String.prefix] in Hpre.
    cbn [allChars] in Hn. apply andb_prop in Hn as [Hb _].
    destruct (ascii_dec " " b) as [<- | _]; [| discriminate].
    vm_compute in Hb. discriminate.
  - cbn [String.append String.prefix] in Hpre.
    cbn [allChars] in Hp. apply andb_prop in Hp as [Ha _].
    destruct (ascii_dec a " ") as [-> | _]; [| discriminate].
    vm_compute in Ha. discriminate.
  - cbn [String.append String.prefix] in Hpre.
    cbn [allChars] in Hp, Hn.
    apply andb_prop in Hp as [_ Hp]. apply andb_prop in Hn as [_ Hn].
    destruct (ascii_dec a b) as [-> | _]; [| discriminate].
    f_equal. now apply IH.
Qed.

Lemma not_keyword (name rest x : string) :
  word name = true -> name <> "require" ->
  String.prefix ("require " +:+ x) (name +:+ " " +:+ rest) = false.
Proof.
  intros Hname Hne. apply word_facts in Hname as [_ Hall].
  destruct (String.prefix ("require " +:+ x) (name +:+ " " +:+ rest)) eqn:E;
    [| reflexivity].
  exfalso. apply Hne. symmetry.
  apply (prefix_word "require" name x rest); [reflexivity | exact Hall |].
  exact E.
Qed.

(** *** One line of a require block *)

Lemma goModLine_requirement (deps : list analyzer.Dependency)
    (r : Requirement) :
  readable r = true ->
  analyzer.goModLine (true, deps) (requireLine r)
  = (true, deps ++ [dependencyOf r]).
Proof.
  unfold readable. intros H.
  apply andb_prop in H as [H Hkey]. apply andb_prop in H as [Hname Hversion].
  apply negb_true_iff, String.eqb_neq in Hkey.
  set (rest := if ReqIndirect r then " // indirect" else "").
  assert (Hrest : rest = "" \/ exists more, rest = " " +:+ more)
    by (subst rest; destruct (ReqIndirect r); [right; now eexists | now left]).
  set (line := ReqPath r +:+ " " +:+ ReqVersion r +:+ rest).
  assert (Htrim : strings_TrimSpace (requireLine r) = line).
  { unfold strings_TrimSpace, requireLine. fold rest. fold line.
    change (tab +:+ line) with (String (ascii_of_nat 9) line).
    cbn [trimLeftFunc]. change (isSpace (ascii_of_nat 9)) with true.
    cbv iota. destruct (word_facts _ Hname) as [Hn Hnall].
    subst line. rewrite trimLeft_word by assumption.
    destruct (word_facts _ Hversion) as [Hv Hvall].
    subst rest. destruct (ReqIndirect r).
    - replace (ReqPath r +:+ " " +:+ ReqVersion r +:+ " // indirect")
        with ((ReqPath r +:+ " " +:+ ReqVersion r +:+ " // ") +:+ "indirect")
        by (now rewrite !string_app_assoc).
      now apply trimRight_word.
    - rewrite string_app_nil_r.
      replace (ReqPath r +:+ " " +:+ ReqVersion r)
        with ((ReqPath r +:+ " ") +:+ ReqVersion r)
        by (now rewrite !string_app_assoc).
      now apply trimRight_word. }
  assert (Hopen : strings_HasPrefix line "require (" = false)
    by (subst line; apply (not_keyword _ _ "("); assumption).
  assert (Hreq : strings_HasPrefix line "require " = false)
    by (subst line; apply (not_keyword _ _ ""); assumption).
  assert (Hpre : strings_TrimPrefix line "require " = line)
    by (unfold strings_TrimPrefix; now rewrite Hreq).
  assert (Hclose : String.eqb line ")" = false).
  { apply String.eqb_neq. intros Heq.
    apply (f_equal String.length) in Heq. subst line.
    rewrite !string_length_app in Heq. cbn [String.length] in Heq.
    destruct (word_facts _ Hname) as [Hn _].
    destruct (ReqPath r); [congruence | cbn [String.length] in Heq; lia]. }
  destruct (Fields_two (ReqPath r) (ReqVersion r) rest Hname Hversion Hrest)
    as [others Hfields].
  fold line in Hfields.
  unfold analyzer.goModLine. rewrite Htrim. cbv zeta.
  rewrite Hopen, Hclose, Hreq, Hpre, Hfields. reflexivity.
Qed.

Lemma fold_requirements (reqs : list Requirement)
    (deps : list analyzer.Dependency) :
  forallb readable reqs = true ->
  List.fold_left analyzer.goModLine (List.map requireLine reqs) (true, deps)
  = (true, deps ++ List.map dependencyOf reqs).
Proof.
  revert deps. induction reqs as [|r reqs IH]; intros deps Hall.
  - cbn. now rewrite app_nil_r.
  - cbn [forallb] in Hall. apply andb_prop in Hall as [Hr Hall].
    cbn [List.map List.fold_left]. rewrite goModLine_requirement by exact Hr.
    rewrite IH by exact Hall. now rewrite <- app_assoc.
Qed.

Lemma requireLine_inLine (r : Requirement) :
  readable r = true -> allChars inLine (requireLine r) = true.
Proof.
  unfold readable. intros H.
  apply andb_prop in H as [H _]. apply andb_prop in H as [Hname Hversion].
  apply word_facts in Hname as [_ Hname].
  apply word_facts in Hversion as [_ Hversion].
  unfold requireLine. rewrite !allChars_app.
  rewrite (printable_inLine _ Hname), (printable_inLine _ Hversion).
  now destruct (ReqIndirect r).
Qed.

Section GoModProperties.

Context {lib : analyzer.Library}.
Variable fs : os.Snapshot.

(** X20.  Reading go.mod back.  For a go.mod file as the go command
    writes it, a module line and a go line followed by one require block,
    the extractor returns the requirements of the block in their order,
    each with its version, the indirect ones included, when the module
    path, the version of the language and every required path and version
    are words of printable characters and no path is the keyword itself. *)
Theorem extractGoDependencies_reads_block (m : analyzer.MetadataExtractor)
    (path module_ goVersion : string) (reqs : list Requirement) :
  os.ReadFile fs (analyzer.manifestPath path "go.mod")
  = Ok (goMod module_ goVersion reqs) ->
  word module_ = true ->
  word goVersion = true ->
  forallb readable reqs = true ->
  analyzer.extractGoDependencies fs m path = List.map dependencyOf reqs.
Proof.
  intros Hread Hmodule Hversion Hreqs.
  unfold analyzer.extractGoDependencies. rewrite Hread.
  destruct (word_facts _ Hmodule) as [Hne Hall].
  destruct (word_facts _ Hversion) as [Hvne Hvall].
  unfold goMod. rewrite Split_unlines.
  - cbn [app]. cbn [List.fold_left].
    assert (Hfirst : analyzer.goModLine (false, []) ("module " +:+ module_)
                     = (false, [])).
    { unfold analyzer.goModLine.
      assert (Htrim : strings_TrimSpace ("module " +:+ module_)
                      = "module " +:+ module_).
      { unfold strings_TrimSpace.
        change (trimLeftFunc isSpace ("module " +:+ module_))
          with ("module " +:+ module_).
        now apply trimRight_word. }
      rewrite Htrim. reflexivity. }
    assert (Hblank : analyzer.goModLine (false, []) "" = (false, []))
      by reflexivity.
    assert (Hgo : analyzer.goModLine (false, []) ("go " +:+ goVersion)
                  = (false, [])).
    { unfold analyzer.goModLine.
      assert (Htrim : strings_TrimSpace ("go " +:+ goVersion)
                      = "go " +:+ goVersion).
      { unfold strings_TrimSpace.
        change (trimLeftFunc isSpace ("go " +:+ goVersion))
          with ("go " +:+ goVersion).
        now apply trimRight_word. }
      rewrite Htrim. reflexivity. }
    assert (Hopen : analyzer.goModLine (false, []) "require (" = (true, []))
      by reflexivity.
    rewrite Hfirst, Hblank, Hgo, Hblank, Hopen.
    rewrite List.fold_left_app, List.fold_left_app.
    rewrite fold_requirements by exact Hreqs. reflexivity.
  - constructor; [| constructor; [reflexivity |]; constructor;
                    [| repeat (constructor; [reflexivity |])]].
    + rewrite allChars_app. now rewrite (printable_inLine _ Hall).
    + rewrite allChars_app. now rewrite (printable_inLine _ Hvall).
    + apply List.Forall_app. split.
      * apply List.Forall_forall. intros l Hl.
        apply in_map_iff in Hl as (r & <- & Hr).
        apply requireLine_inLine.
        rewrite forallb_forall in Hreqs. now apply Hreqs.
      * constructor; [reflexivity | constructor].
Qed.

End GoModProperties.

(** ** The metadata extractor: what every result satisfies *)

Lemma fold_left_preserves {A B : Type} (P : A -> Prop) (f : A -> B -> A)
    (l : list B) (init : A) :
  (forall a x, P a -> P (f a x)) -> P init -> P (List.fold_left f l init).
Proof.
  intros Hstep. revert init.
  induction l as [|x l IH]; intros init Hinit; [exact Hinit |].
  cbn [List.fold_left]. apply IH, Hstep, Hinit.
Qed.

Lemma prefix_shorter (a b s : string) :
  String.prefix (a +:+ b) s = true -> String.prefix a s = true.
Proof.
  revert s. induction a as [|x a IH]; intros s H; [apply prefix_empty |].
  destruct s as [|y s]; [discriminate |].
  cbn [String.append String.prefix] in *.
  destruct (ascii_dec x y); [now apply IH | discriminate].
Qed.

Section ExtractorInvariants.

Context {lib : analyzer.Library}.
Variable fs : os.Snapshot.

Abbreviation allExternal :=
  (Forall (fun dep => analyzer.DepType dep = "external")).

Lemma allExternal_snoc deps name version :
  allExternal deps -> allExternal (deps ++ [analyzer.external name version]).
Proof.
  intros H. apply List.Forall_app. split; [exact H |].
  constructor; [reflexivity | constructor].
Qed.

Lemma goModLine_external st line :
  allExternal (snd st) -> allExternal (snd (analyzer.goModLine st line)).
Proof.
  destruct st as [inRequire deps]. unfold analyzer.goModLine. cbn [snd].
  intros H.
  repeat match goal with
         | |- context [if ?b then _ else _] => destruct b
         end; cbn [snd]; auto using allExternal_snoc.
Qed.

Lemma sectionLine_external isHeader st line :
  allExternal (snd st) ->
  allExternal (snd (analyzer.sectionLine isHeader st line)).
Proof.
  destruct st as [inDeps deps]. unfold analyzer.sectionLine. cbn [snd].
  intros H.
  repeat match goal with
         | |- context [if ?b then _ else _] => destruct b
         end; cbn [snd]; auto using allExternal_snoc.
Qed.

Lemma requirementsLine_external deps line :
  allExternal deps -> allExternal (analyzer.requirementsLine deps line).
Proof.
  unfold analyzer.requirementsLine. intros H.
  repeat match goal with
         | |- context [if ?b then _ else _] => destruct b
         end; auto using allExternal_snoc.
Qed.

Lemma gradleLine_external deps line :
  allExternal deps -> allExternal (analyzer.gradleLine deps line).
Proof.
  unfold analyzer.gradleLine. intros H.
  repeat match goal with
         | |- context [if ?b then _ else _] => destruct b
         end; auto using allExternal_snoc.
Qed.

Lemma gemLine_external deps line :
  allExternal deps -> allExternal (analyzer.gemLine deps line).
Proof.
  unfold analyzer.gemLine. intros H.
  repeat match goal with
         | |- context [if ?b then _ else _] => destruct b
         end; auto using allExternal_snoc.
Qed.

Lemma pomLoop_external fuel i groups artifacts versions deps :
  allExternal deps ->
  allExternal (analyzer.pomLoop fuel i groups artifacts versions deps).
Proof.
  revert i deps. induction fuel as [|fuel IH]; intros i deps H; [exact H |].
  cbn [analyzer.pomLoop].
  destruct ((i <? length groups)%nat && (i <? length artifacts)%nat);
    [| exact H].
  apply IH. now apply allExternal_snoc.
Qed.

Lemma packageReferences_external deps text :
  allExternal deps -> allExternal (analyzer.packageReferences deps text).
Proof.
  unfold analyzer.packageReferences. intros H.
  apply fold_left_preserves; [| exact H].
  intros acc mt Hacc.
  destruct (3 <=? length mt)%nat; auto using allExternal_snoc.
Qed.

Lemma csprojEntry_external path deps file :
  allExternal deps -> allExternal (analyzer.csprojEntry fs path deps file).
Proof.
  unfold analyzer.csprojEntry. intros H.
  destruct (negb (os.EntryIsDir file)
            && strings_HasSuffix (os.Name file) ".csproj"); [| exact H].
  destruct (os.ReadFile fs _); [| exact H].
  now apply packageReferences_external.
Qed.

(** X21.  Whatever the manifests hold, every dependency
    [ExtractDependencies] returns is marked external; and for a component
    of a language without a manifest parser, or of no language, it returns
    none. *)
Theorem ExtractDependencies_external (m : analyzer.MetadataExtractor)
    (comp : analyzer.Component) :
  Forall (fun dep => analyzer.DepType dep = "external")
    (analyzer.ExtractDependencies fs m comp)
  /\ (In (analyzer.Language comp) languagesWithoutManifest ->
      analyzer.ExtractDependencies fs m comp = []).
Proof.
  split.
  - unfold analyzer.ExtractDependencies. cbv zeta.
    repeat match goal with
           | |- context [if ?b then _ else _] => destruct b
           end; [| | | | | | | constructor].
    + unfold analyzer.extractGoDependencies.
      destruct (os.ReadFile fs _); [| constructor].
      apply (fold_left_preserves (fun st => allExternal (snd st)));
        [apply goModLine_external | constructor].
    + unfold analyzer.extractPythonDependencies.
      destruct (os.ReadFile fs _).
      * apply fold_left_preserves;
          [apply requirementsLine_external | constructor].
      * destruct (os.ReadFile fs _); [| constructor].
        apply (fold_left_preserves (fun st => allExternal (snd st)));
          [apply sectionLine_external | constructor].
    + unfold analyzer.extractNodeDependencies.
      destruct (os.ReadFile fs _); [| constructor].
      destruct (analyzer.json_Unmarshal _) as [pkg [err |]]; [constructor |].
      apply fold_left_preserves; [| constructor].
      intros deps [name version] H. now apply allExternal_snoc.
    + unfold analyzer.extractRustDependencies.
      destruct (os.ReadFile fs _); [| constructor].
      apply (fold_left_preserves (fun st => allExternal (snd st)));
        [apply sectionLine_external | constructor].
    + unfold analyzer.extractJavaDependencies.
      destruct (os.ReadFile fs _).
      * apply pomLoop_external. constructor.
      * destruct (os.ReadFile fs _); [| constructor].
        apply fold_left_preserves; [apply gradleLine_external | constructor].
    + unfold analyzer.extractRubyDependencies.
      destruct (os.ReadFile fs _); [| constructor].
      apply fold_left_preserves; [apply gemLine_external | constructor].
    + unfold analyzer.extractCSharpDependencies.
      destruct (os.ReadDir fs _) as [files [err |]]; [constructor |].
      apply fold_left_preserves; [apply csprojEntry_external | constructor].
  - unfold languagesWithoutManifest, analyzer.ExtractDependencies.
    cbn [In]. intros H.
    repeat destruct H as [<- | H]; try reflexivity. destruct H.
Qed.

(** *** Manifests without their section *)

Lemma fold_goModLine_outside lines :
  Forall (fun line =>
            strings_HasPrefix (strings_TrimSpace line) "require " = false)
         lines ->
  List.fold_left analyzer.goModLine lines (false, []) = (false, []).
Proof.
  induction 1 as [|line lines Hline _ IH]; [reflexivity |].
  cbn [List.fold_left].
  assert (Hstep : analyzer.goModLine (false, []) line = (false, [])).
  { unfold analyzer.goModLine. cbv zeta. rewrite Hline.
    destruct (strings_HasPrefix (strings_TrimSpace line) "require (") eqn:E;
      [| reflexivity].
    unfold strings_HasPrefix in *.
    change "require (" with ("require " +:+ "(") in E.
    apply prefix_shorter in E. congruence. }
  now rewrite Hstep.
Qed.

Lemma fold_sectionLine_outside isHeader lines deps :
  Forall (fun line => isHeader (strings_TrimSpace line) = false) lines ->
  List.fold_left (analyzer.sectionLine isHeader) lines (false, deps)
  = (false, deps).
Proof.
  induction 1 as [|line lines Hline _ IH]; [reflexivity |].
  cbn [List.fold_left].
  assert (Hstep : analyzer.sectionLine isHeader (false, deps) line
                  = (false, deps)).
  { unfold analyzer.sectionLine. cbv zeta. now rewrite Hline. }
  now rewrite Hstep.
Qed.

(** X22.  A manifest of ASCII text without its section yields nothing.  A
    go.mod none of whose lines, white space trimmed, starts with the
    require keyword and a space, a Cargo.toml without a line starting with
    the dependencies header, and a pyproject.toml (read when
    requirements.txt cannot be) without a line holding one of its two
    headers, all give no dependency, whatever else they hold.  The text is
    taken to be ASCII, so that the white space trimmed from a line is the
    white space Go trims. *)
Theorem manifest_without_section (m : analyzer.MetadataExtractor)
    (path : string) :
  (forall content,
     os.ReadFile fs (analyzer.manifestPath path "go.mod") = Ok content ->
     asciiText content = true ->
     Forall (fun line =>
               strings_HasPrefix (strings_TrimSpace line) "require " = false)
            (strings_Split content analyzer.nl) ->
     analyzer.extractGoDependencies fs m path = [])
  /\ (forall content,
        os.ReadFile fs (analyzer.manifestPath path "Cargo.toml") = Ok content ->
        asciiText content = true ->
        Forall (fun line =>
                  analyzer.cargoHeader (strings_TrimSpace line) = false)
               (strings_Split content analyzer.nl) ->
        analyzer.extractRustDependencies fs m path = [])
  /\ (forall content,
        isOk (os.ReadFile fs (analyzer.manifestPath path "requirements.txt"))
        = false ->
        os.ReadFile fs (analyzer.manifestPath path "pyproject.toml")
        = Ok content ->
        asciiText content = true ->
        Forall (fun line =>
                  analyzer.pyprojectHeader (strings_TrimSpace line) = false)
               (strings_Split content analyzer.nl) ->
        analyzer.extractPythonDependencies fs m path = []).
Proof.
  split; [| split].
  - intros content Hread _ Hlines. unfold analyzer.extractGoDependencies.
    rewrite Hread. now rewrite fold_goModLine_outside.
  - intros content Hread _ Hlines. unfold analyzer.extractRustDependencies.
    rewrite Hread. now rewrite fold_sectionLine_outside.
  - intros content Hreq Hread _ Hlines.
    unfold analyzer.extractPythonDependencies.
    destruct (os.ReadFile fs (analyzer.manifestPath path "requirements.txt"));
      [discriminate |].
    rewrite Hread. now rewrite fold_sectionLine_outside.
Qed.

(** *** Endpoints *)

Abbreviation wellFormedEndpoint :=
  (fun e : analyzer.Endpoint =>
     In (analyzer.EpMethod e) httpMethods
     /\ analyzer.EpDescription e = analyzer.EpMethod e +:+ " endpoint").

Lemma endpointOfMatch_app endpoints mt :
  analyzer.endpointOfMatch endpoints mt
  = endpoints ++ analyzer.endpointOfMatch [] mt
  /\ Forall wellFormedEndpoint (analyzer.endpointOfMatch [] mt).
Proof.
  unfold analyzer.endpointOfMatch.
  destruct (2 <=? length mt)%nat;
    [| split; [now rewrite app_nil_r | constructor]].
  split; [reflexivity |]. cbn [app].
  constructor; [| constructor]. unfold httpMethods.
  repeat match goal with
         | |- context [if ?b then _ else _] => destruct b
         end; cbn; auto 8.
Qed.

Lemma fold_appending {E X : Type} (P : E -> Prop)
    (f : list E -> X -> list E) :
  (forall acc x, f acc x = acc ++ f [] x) ->
  (forall x, Forall P (f [] x)) ->
  forall l acc,
    List.fold_left f l acc = acc ++ List.fold_left f l []
    /\ Forall P (List.fold_left f l []).
Proof.
  intros Happ HP. induction l as [|x l IH]; intros acc.
  - cbn. split; [now rewrite app_nil_r | constructor].
  - cbn [List.fold_left]. rewrite (Happ acc x).
    destruct (IH (acc ++ f [] x)) as [-> Hrest].
    destruct (IH (f [] x)) as [-> _].
    split; [now rewrite app_assoc |].
    apply List.Forall_app. split; [apply HP | exact Hrest].
Qed.

(** The endpoints read from one text, and from one file. *)
Lemma matchEndpoints_app (found : list (list string)) endpoints :
  List.fold_left analyzer.endpointOfMatch found endpoints
  = endpoints ++ List.fold_left analyzer.endpointOfMatch found []
  /\ Forall wellFormedEndpoint
       (List.fold_left analyzer.endpointOfMatch found []).
Proof.
  apply (fold_appending wellFormedEndpoint analyzer.endpointOfMatch).
  - intros acc mt. apply endpointOfMatch_app.
  - intros mt. apply (endpointOfMatch_app []).
Qed.

Lemma textEndpoints_app text endpoints :
  let step := fun endpoints pattern =>
    List.fold_left analyzer.endpointOfMatch
      (analyzer.regexp_FindAllStringSubmatch pattern text) endpoints in
  List.fold_left step analyzer.endpointPatterns endpoints
  = endpoints ++ List.fold_left step analyzer.endpointPatterns []
  /\ Forall wellFormedEndpoint
       (List.fold_left step analyzer.endpointPatterns []).
Proof.
  intros step. apply (fold_appending wellFormedEndpoint step).
  - intros acc pattern. apply matchEndpoints_app.
  - intros pattern. apply (matchEndpoints_app _ []).
Qed.

Lemma fileEndpoints_app files endpoints :
  let step := fun endpoints file =>
    match os.ReadFile fs file with
    | Err _ => endpoints
    | Ok text =>
        List.fold_left
          (fun endpoints pattern =>
             List.fold_left analyzer.endpointOfMatch
               (analyzer.regexp_FindAllStringSubmatch pattern text) endpoints)
          analyzer.endpointPatterns endpoints
    end in
  List.fold_left step files endpoints
  = endpoints ++ List.fold_left step files []
  /\ Forall wellFormedEndpoint (List.fold_left step files []).
Proof.
  intros step. apply (fold_appending wellFormedEndpoint step).
  - intros acc file. unfold step.
    destruct (os.ReadFile fs file) as [text | err];
      [apply textEndpoints_app | now rewrite app_nil_r].
  - intros file. unfold step.
    destruct (os.ReadFile fs file) as [text | err];
      [apply (textEndpoints_app text []) | constructor].
Qed.

Lemma fileEndpoints_readable files endpoints :
  let step := fun endpoints file =>
    match os.ReadFile fs file with
    | Err _ => endpoints
    | Ok text =>
        List.fold_left
          (fun endpoints pattern =>
             List.fold_left analyzer.endpointOfMatch
               (analyzer.regexp_FindAllStringSubmatch pattern text) endpoints)
          analyzer.endpointPatterns endpoints
    end in
  List.fold_left step files endpoints
  = List.fold_left step
      (List.filter (fun file => isOk (os.ReadFile fs file)) files) endpoints.
Proof.
  intros step. revert endpoints.
  induction files as [|file rest IH]; intros endpoints; [reflexivity |].
  cbn [List.fold_left List.filter].
  destruct (os.ReadFile fs file) as [text | err] eqn:Hread; cbn [isOk].
  - cbn [List.fold_left]. rewrite IH. f_equal.
  - rewrite IH. f_equal. unfold step. now rewrite Hread.
Qed.

(** X23.  Every endpoint [extractEndpoints] returns has one of the four
    methods and the description made from its method.  Files that cannot
    be read contribute nothing, and the endpoints come in the order of the
    files: those of a longer list are those of its first part followed by
    those of the rest. *)
Theorem extractEndpoints_invariants (m : analyzer.MetadataExtractor)
    (comp : analyzer.Component) :
  Forall (fun e =>
            In (analyzer.EpMethod e) httpMethods
            /\ analyzer.EpDescription e = analyzer.EpMethod e +:+ " endpoint")
    (analyzer.extractEndpoints fs m comp)
  /\ analyzer.extractEndpoints fs m comp
     = analyzer.extractEndpoints fs m
         (analyzer.setFiles comp
            (List.filter (fun file => isOk (os.ReadFile fs file))
               (analyzer.Files comp)))
  /\ (forall more,
        analyzer.extractEndpoints fs m
          (analyzer.setFiles comp (analyzer.Files comp ++ more))
        = analyzer.extractEndpoints fs m comp
          ++ analyzer.extractEndpoints fs m (analyzer.setFiles comp more)).
Proof.
  unfold analyzer.extractEndpoints. cbn [analyzer.Files analyzer.setFiles].
  split; [apply (fileEndpoints_app (analyzer.Files comp) []) |].
  split; [apply fileEndpoints_readable |].
  intros more. rewrite List.fold_left_app. apply fileEndpoints_app.
Qed.

End ExtractorInvariants.

(** ** The metadata extractor: reading Cargo.toml back *)

Lemma plainChar_facts (a : ascii) :
  plainChar a = true ->
  printable a = true
  /\ a <> "="%char /\ a <> "["%char
  /\ inCutset (analyzer.dq +:+ "'") a = false.
Proof.
  unfold plainChar. intros H. apply andb_prop in H as [Hp Hcut].
  apply negb_true_iff in Hcut. split; [exact Hp |].
  cbn [inCutset String.append analyzer.dq] in Hcut.
  apply orb_false_iff in Hcut as [Heq Hcut].
  apply orb_false_iff in Hcut as [Hbr Hcut].
  apply Ascii.eqb_neq in Heq. apply Ascii.eqb_neq in Hbr.
  split; [congruence |]. split; [congruence |]. exact Hcut.
Qed.

Lemma plainWord_facts (w : string) :
  plainWord w = true ->
  w <> "" /\ allChars plainChar w = true /\ allChars printable w = true
  /\ word w = true.
Proof.
  unfold plainWord, word, nonEmpty. intros H.
  apply andb_prop in H as [Hne Hall].
  assert (Hprint : allChars printable w = true).
  { clear Hne. induction w as [|a w IH]; [reflexivity |].
    cbn [allChars] in *. apply andb_prop in Hall as [Ha Hw].
    destruct (plainChar_facts a Ha) as [-> _]. now apply IH. }
  split; [| split; [exact Hall | split; [exact Hprint |]]].
  - apply negb_true_iff in Hne. now apply String.eqb_neq in Hne.
  - now rewrite Hne, Hprint.
Qed.

Lemma splitGo_equals_piece (l cur s : string) :
  allChars (fun a => negb (Ascii.eqb "="%char a)) l = true ->
  splitGo "=" 0 cur (l +:+ s) = splitGo "=" 0 (String.rev_app l cur) s.
Proof.
  revert cur. induction l as [|a l IH]; intros cur Hall; [reflexivity |].
  cbn [allChars] in Hall. apply andb_prop in Hall as [Ha Hall].
  apply negb_true_iff, Ascii.eqb_neq in Ha.
  cbn [String.append splitGo String.prefix].
  destruct (ascii_dec "="%char a); [congruence |].
  cbn [String.rev_app]. now apply IH.
Qed.

Lemma Split_equals (l r : string) :
  allChars (fun a => negb (Ascii.eqb "="%char a)) l = true ->
  allChars (fun a => negb (Ascii.eqb "="%char a)) r = true ->
  strings_Split (l +:+ "=" +:+ r) "=" = [l; r].
Proof.
  intros Hl Hr.
  change (strings_Split (l +:+ "=" +:+ r) "=")
    with (splitGo "=" 0 "" (l +:+ "=" +:+ r)).
  rewrite splitGo_equals_piece by exact Hl.
  change ("=" +:+ r) with (String "="%char r). cbn [splitGo String.prefix].
  destruct (ascii_dec "="%char "="%char); [| congruence].
  rewrite prefix_empty, rev_rev_app. cbn [String.length Nat.sub].
  rewrite <- (string_app_nil_r r) at 1.
  rewrite splitGo_equals_piece by exact Hr.
  cbn [splitGo]. now rewrite rev_rev_app.
Qed.

Lemma Contains_equals (l r : string) :
  strings_Contains (l +:+ "=" +:+ r) "=" = true.
Proof.
  change ("=" +:+ r) with (String "="%char r).
  induction l as [|a l IH].
  - cbn [String.append strings_Contains String.prefix].
    destruct (ascii_dec "="%char "="%char); [| congruence].
    now rewrite prefix_empty.
  - cbn [String.append strings_Contains]. rewrite IH. apply orb_true_r.
Qed.

Lemma trimRight_space (s : string) :
  trimRightFunc isSpace (s +:+ " ") = trimRightFunc isSpace s.
Proof.
  induction s as [|a s IH]; [reflexivity |].
  cbn [String.append trimRightFunc]. now rewrite IH.
Qed.

Lemma trimRight_strip (f : ascii -> bool) (w : string) (c : ascii) :
  allChars (fun a => negb (f a)) w = true -> f c = true ->
  trimRightFunc f (w +:+ String c "") = w.
Proof.
  intros Hall Hc. induction w as [|a w IH].
  - cbn [String.append trimRightFunc]. now rewrite Hc.
  - cbn [allChars] in Hall. apply andb_prop in Hall as [Ha Hw].
    apply negb_true_iff in Ha.
    cbn [String.append trimRightFunc]. rewrite IH by exact Hw.
    rewrite Ha. now destruct w.
Qed.

Lemma plain_without_equals (w : string) :
  allChars plainChar w = true ->
  allChars (fun a => negb (Ascii.eqb "="%char a)) w = true.
Proof.
  induction w as [|a w IH]; [reflexivity |].
  cbn [allChars]. intros H. apply andb_prop in H as [Ha Hw].
  rewrite IH by exact Hw. rewrite andb_true_r.
  destruct (plainChar_facts a Ha) as (_ & Heq & _).
  apply negb_true_iff, Ascii.eqb_neq. congruence.
Qed.

Lemma plain_without_quotes (w : string) :
  allChars plainChar w = true ->
  allChars (fun a => negb (inCutset (analyzer.dq +:+ "'") a)) w = true.
Proof.
  induction w as [|a w IH]; [reflexivity |].
  cbn [allChars]. intros H. apply andb_prop in H as [Ha Hw].
  rewrite IH by exact Hw. rewrite andb_true_r.
  destruct (plainChar_facts a Ha) as (_ & _ & _ & Hq). now rewrite Hq.
Qed.

(** *** One line of a crate *)

Section CrateLine.

Variable c : Crate.
Hypothesis Hreadable : readableCrate c = true.

Lemma crateLine_trimmed : strings_TrimSpace (crateLine c) = crateLine c.
Proof.
  unfold readableCrate in Hreadable.
  apply andb_prop in Hreadable as [Hname Hversion].
  destruct (plainWord_facts _ Hname) as (Hn & _ & Hnp & _).
  unfold strings_TrimSpace, crateLine.
  rewrite trimLeft_word by assumption.
  replace (CrateName c +:+ " = " +:+ analyzer.dq +:+ CrateVersion c
           +:+ analyzer.dq)
    with ((CrateName c +:+ " = " +:+ analyzer.dq +:+ CrateVersion c)
          +:+ analyzer.dq)
    by (now rewrite !string_app_assoc).
  apply trimRight_word; [discriminate | reflexivity].
Qed.

Lemma crateLine_no_bracket : strings_HasPrefix (crateLine c) "[" = false.
Proof.
  unfold readableCrate in Hreadable.
  apply andb_prop in Hreadable as [Hname _].
  destruct (plainWord_facts _ Hname) as (Hn & Hall & _).
  unfold strings_HasPrefix, crateLine.
  destruct (CrateName c) as [|a name]; [congruence |].
  cbn [allChars] in Hall. apply andb_prop in Hall as [Ha _].
  destruct (plainChar_facts a Ha) as (_ & _ & Hbr & _).
  cbn [String.append String.prefix].
  destruct (ascii_dec "["%char a); [congruence | reflexivity].
Qed.

Lemma crateLine_no_header :
  analyzer.cargoHeader (strings_TrimSpace (crateLine c)) = false.
Proof.
  rewrite crateLine_trimmed. unfold analyzer.cargoHeader.
  pose proof crateLine_no_bracket as Hbr.
  unfold strings_HasPrefix in *.
  destruct (String.prefix "[dependencies]" (crateLine c)) eqn:E;
    [| reflexivity].
  change "[dependencies]" with ("[" +:+ "dependencies]") in E.
  apply prefix_shorter in E. congruence.
Qed.

Lemma sectionLine_crate (deps : list analyzer.Dependency) :
  analyzer.sectionLine analyzer.cargoHeader (true, deps) (crateLine c)
  = (true, deps ++ [crateDependency c]).
Proof.
  pose proof crateLine_no_header as Hheader.
  pose proof crateLine_no_bracket as Hbracket.
  pose proof crateLine_trimmed as Htrim.
  unfold readableCrate in Hreadable.
  apply andb_prop in Hreadable as [Hname Hversion].
  destruct (plainWord_facts _ Hname) as (Hn & Hnall & Hnp & _).
  destruct (plainWord_facts _ Hversion) as (Hv & Hvall & Hvp & _).
  assert (Hshape : crateLine c
                   = (CrateName c +:+ " ") +:+ "="
                     +:+ (" " +:+ analyzer.dq +:+ CrateVersion c
                          +:+ analyzer.dq))
    by (unfold crateLine; now rewrite !string_app_assoc).
  assert (Hcontains : strings_Contains (crateLine c) "=" = true)
    by (rewrite Hshape; apply Contains_equals).
  assert (Hsplit : strings_Split (crateLine c) "="
                   = [CrateName c +:+ " ";
                      " " +:+ analyzer.dq +:+ CrateVersion c +:+ analyzer.dq]).
  { rewrite Hshape. apply Split_equals.
    - rewrite allChars_app. now rewrite plain_without_equals.
    - change (" " +:+ analyzer.dq +:+ CrateVersion c +:+ analyzer.dq)
        with (String " " (String (ascii_of_nat 34)
                (CrateVersion c +:+ analyzer.dq))).
      cbn [allChars]. rewrite allChars_app.
      now rewrite plain_without_equals. }
  assert (Hleft : strings_TrimSpace (CrateName c +:+ " ") = CrateName c).
  { unfold strings_TrimSpace. rewrite trimLeft_word by assumption.
    rewrite trimRight_space. rewrite <- (string_app_nil_r (CrateName c)) at 1.
    rewrite <- (string_app_nil_r (CrateName c)) at 2.
    change (CrateName c +:+ "") with ("" +:+ CrateName c +:+ "").
    rewrite string_app_nil_r. now apply (trimRight_word ""). }
  assert (Hright : strings_Trim
                     (strings_TrimSpace
                        (" " +:+ analyzer.dq +:+ CrateVersion c +:+ analyzer.dq))
                     (analyzer.dq +:+ "'")
                   = CrateVersion c).
  { assert (Hinner : strings_TrimSpace
                       (" " +:+ analyzer.dq +:+ CrateVersion c +:+ analyzer.dq)
                     = analyzer.dq +:+ CrateVersion c +:+ analyzer.dq).
    { unfold strings_TrimSpace.
      change (trimLeftFunc isSpace
                (" " +:+ analyzer.dq +:+ CrateVersion c +:+ analyzer.dq))
        with (analyzer.dq +:+ CrateVersion c +:+ analyzer.dq).
      replace (analyzer.dq +:+ CrateVersion c +:+ analyzer.dq)
        with ((analyzer.dq +:+ CrateVersion c) +:+ analyzer.dq)
        by (now rewrite !string_app_assoc).
      apply trimRight_word; [discriminate | reflexivity]. }
    rewrite Hinner. unfold strings_Trim.
    change (analyzer.dq +:+ CrateVersion c +:+ analyzer.dq)
      with (String (ascii_of_nat 34) (CrateVersion c +:+ analyzer.dq)).
    cbn [trimLeftFunc].
    change (inCutset (analyzer.dq +:+ "'") (ascii_of_nat 34)) with true.
    cbv iota.
    pose proof (plain_without_quotes _ Hvall) as Hq.
    destruct (CrateVersion c) as [|a version] eqn:Eversion; [congruence |].
    cbn [allChars] in Hq. apply andb_prop in Hq as [Ha Hrest].
    apply negb_true_iff in Ha.
    cbn [String.append trimLeftFunc]. rewrite Ha.
    change (String a (version +:+ analyzer.dq))
      with (String a version +:+ String (ascii_of_nat 34) "").
    apply trimRight_strip; [| reflexivity].
    cbn [allChars]. now rewrite Ha, Hrest. }
  unfold analyzer.sectionLine. cbv zeta.
  rewrite Htrim in Hheader. rewrite Htrim, Hheader, Hbracket, Hcontains, Hsplit.
  cbn [andb length Nat.leb nth]. rewrite Hleft, Hright. reflexivity.
Qed.

Lemma crateLine_inLine : allChars inLine (crateLine c) = true.
Proof.
  unfold readableCrate in Hreadable.
  apply andb_prop in Hreadable as [Hname Hversion].
  destruct (plainWord_facts _ Hname) as (_ & _ & Hnp & _).
  destruct (plainWord_facts _ Hversion) as (_ & _ & Hvp & _).
  unfold crateLine. rewrite !allChars_app.
  now rewrite (printable_inLine _ Hnp), (printable_inLine _ Hvp).
Qed.

End CrateLine.

Lemma fold_crates (crates : list Crate) (deps : list analyzer.Dependency) :
  forallb readableCrate crates = true ->
  List.fold_left (analyzer.sectionLine analyzer.cargoHeader)
    (List.map crateLine crates) (true, deps)
  = (true, deps ++ List.map crateDependency crates).
Proof.
  revert deps. induction crates as [|c crates IH]; intros deps Hall.
  - cbn. now rewrite app_nil_r.
  - cbn [forallb] in Hall. apply andb_prop in Hall as [Hc Hall].
    cbn [List.map List.fold_left]. rewrite sectionLine_crate by exact Hc.
    rewrite IH by exact Hall. now rewrite <- app_assoc.
Qed.

Section CargoProperties.

Context {lib : analyzer.Library}.
Variable fs : os.Snapshot.

(** X24.  Reading Cargo.toml back.  For a manifest with a package
    section, a dependencies section of lines of the form name, equals
    sign, quoted version, and a section of development dependencies of
    the same form after it, the extractor returns exactly the crates of
    the dependencies section, in order, each with its version without the
    quotes, and none of the development dependencies, when names and
    versions are plain words. *)
Theorem extractRustDependencies_reads_section
    (m : analyzer.MetadataExtractor) (path package : string)
    (crates devCrates : list Crate) :
  os.ReadFile fs (analyzer.manifestPath path "Cargo.toml")
  = Ok (cargoToml package crates devCrates) ->
  word package = true ->
  forallb readableCrate crates = true ->
  forallb readableCrate devCrates = true ->
  analyzer.extractRustDependencies fs m path
  = List.map crateDependency crates.
Proof.
  intros Hread Hpackage Hcrates Hdev.
  unfold analyzer.extractRustDependencies. rewrite Hread.
  destruct (word_facts _ Hpackage) as [Hne Hall].
  assert (Hlines : forall cs, forallb readableCrate cs = true ->
            Forall (fun l => allChars inLine l = true) (List.map crateLine cs)).
  { intros cs Hcs. apply List.Forall_forall. intros l Hl.
    apply in_map_iff in Hl as (c & <- & Hc).
    apply crateLine_inLine. rewrite forallb_forall in Hcs. now apply Hcs. }
  unfold cargoToml. rewrite Split_unlines.
  - cbn [app]. cbn [List.fold_left].
    assert (Hsection : analyzer.sectionLine analyzer.cargoHeader (false, [])
                         "[package]" = (false, [])) by reflexivity.
    assert (Hname : analyzer.sectionLine analyzer.cargoHeader (false, [])
                      ("name = " +:+ analyzer.dq +:+ package +:+ analyzer.dq)
                    = (false, [])).
    { unfold analyzer.sectionLine. cbv zeta.
      assert (Htrim : strings_TrimSpace
                        ("name = " +:+ analyzer.dq +:+ package +:+ analyzer.dq)
                      = "name = " +:+ analyzer.dq +:+ package +:+ analyzer.dq).
      { unfold strings_TrimSpace.
        change (trimLeftFunc isSpace
                  ("name = " +:+ analyzer.dq +:+ package +:+ analyzer.dq))
          with ("name = " +:+ analyzer.dq +:+ package +:+ analyzer.dq).
        replace ("name = " +:+ analyzer.dq +:+ package +:+ analyzer.dq)
          with (("name = " +:+ analyzer.dq +:+ package) +:+ analyzer.dq)
          by (now rewrite !string_app_assoc).
        apply trimRight_word; [discriminate | reflexivity]. }
      rewrite Htrim. reflexivity. }
    assert (Hblank : analyzer.sectionLine analyzer.cargoHeader (false, []) ""
                     = (false, [])) by reflexivity.
    assert (Hopen : analyzer.sectionLine analyzer.cargoHeader (false, [])
                      "[dependencies]" = (true, [])) by reflexivity.
    rewrite Hsection, Hname, Hblank, Hopen.
    rewrite !List.fold_left_app.
    rewrite fold_crates by exact Hcrates. cbn [app List.fold_left].
    assert (Hblank' : forall deps,
              analyzer.sectionLine analyzer.cargoHeader (true, deps) ""
              = (true, deps)) by reflexivity.
    assert (Hclose : forall deps,
              analyzer.sectionLine analyzer.cargoHeader (true, deps)
                "[dev-dependencies]" = (false, deps)) by reflexivity.
    rewrite Hblank', Hclose.
    rewrite fold_sectionLine_outside.
    + reflexivity.
    + apply List.Forall_forall. intros l Hl.
      apply in_map_iff in Hl as (c & <- & Hc).
      apply crateLine_no_header. rewrite forallb_forall in Hdev.
      now apply Hdev.
  - constructor; [reflexivity |]. constructor.
    { rewrite !allChars_app. now rewrite (printable_inLine _ Hall). }
    constructor; [reflexivity |]. constructor; [reflexivity |].
    apply List.Forall_app. split; [now apply Hlines |].
    constructor; [reflexivity |]. constructor; [reflexivity |].
    now apply Hlines.
Qed.

End CargoProperties.

(** *** The further properties on concrete inputs *)

Lemma IsStale_Update_other_witness :
  cache.IsStale exampleDigest
    (cache.Update exampleDigest enabledWithEntry diskBefore 1000%Z "web"
       ["b.go"])
    diskAfter 2000%Z "api" ["a.go"]
  = cache.IsStale exampleDigest enabledWithEntry diskAfter 2000%Z "api"
      ["a.go"].
Proof.
  apply (IsStale_Update_other exampleDigest enabledWithEntry diskBefore
           diskAfter 1000%Z 2000%Z "web" "api" ["b.go"] ["a.go"]).
  discriminate.
Defined.

Lemma Update_commute_witness :
  cache.Update exampleDigest
    (cache.Update exampleDigest enabledManager diskBefore 1000%Z "api"
       ["a.go"])
    diskAfter 2000%Z "web" ["b.go"]
  = cache.Update exampleDigest
      (cache.Update exampleDigest enabledManager diskAfter 2000%Z "web"
         ["b.go"])
      diskBefore 1000%Z "api" ["a.go"]
  /\ cache.Update exampleDigest
       (cache.Update exampleDigest enabledManager diskBefore 1000%Z "api"
          ["a.go"])
       diskBefore 1000%Z "api" ["a.go"]
     = cache.Update exampleDigest enabledManager diskBefore 1000%Z "api"
         ["a.go"].
Proof.
  apply (Update_commute exampleDigest enabledManager diskBefore diskAfter
           1000%Z 2000%Z "api" "web" ["a.go"] ["b.go"]).
  discriminate.
Defined.

Lemma IsStale_later_witness :
  cache.IsStale exampleDigest enabledWithEntry diskBefore (3 * oneDay)%Z
    "api" ["a.go"; "b.go"] = true.
Proof.
  apply (IsStale_later exampleDigest enabledWithEntry diskBefore
           (2 * oneDay)%Z (3 * oneDay)%Z "api" ["a.go"; "b.go"]).
  - reflexivity.
  - vm_compute. discriminate.
Defined.

Lemma GetStats_counts_witness :
  exists unchanged stale,
    cache.GetStats exampleDigest enabledWithEntry diskBefore (fun _ => 1000%Z)
      [("api", staleEntry)] !! "unchanged" = Some (cache.VInt unchanged)
    /\ cache.GetStats exampleDigest enabledWithEntry diskBefore
         (fun _ => 1000%Z) [("api", staleEntry)] !! "stale"
       = Some (cache.VInt stale)
    /\ cache.GetStats exampleDigest enabledWithEntry diskBefore
         (fun _ => 1000%Z) [("api", staleEntry)] !! "components"
       = Some (cache.VInt (unchanged + stale))
    /\ (0 <= unchanged)%Z /\ (0 <= stale)%Z.
Proof.
  destruct (GetStats_counts exampleDigest enabledWithEntry diskBefore
              (fun _ => 1000%Z) [("api", staleEntry)])
    as (unchanged & stale & H1 & H2 & H3 & H4 & H5 & _).
  - reflexivity.
  - unfold enabledWithEntry, cache.withComponents.
    cbn [cache.Components cache.cache]. now rewrite map_to_list_singleton.
  - exists unchanged, stale. repeat split; assumption.
Defined.

Lemma Clear_all_stale_witness :
  cache.Components
    (cache.cache (fst (fst (cache.Clear lockedOps enabledWithEntry cacheFile))))
  = ∅
  /\ cache.IsStale exampleDigest
       (fst (fst (cache.Clear lockedOps enabledWithEntry cacheFile)))
       diskBefore 1000%Z "api" ["gone.go"] = true
  /\ snd (cache.Clear lockedOps enabledWithEntry cacheFile) <> None
  /\ snd (cache.Clear removeOps enabledWithEntry ∅) = None.
Proof.
  pose proof (Clear_all_stale exampleDigest lockedOps enabledWithEntry cacheFile
                eq_refl) as H.
  cbv zeta in H. destruct H as (Hempty & Hstale & _ & Herr).
  split; [exact Hempty |]. split; [apply Hstale |]. split.
  - apply Herr. eexists. split; reflexivity.
  - reflexivity.
Defined.

Lemma getComponentsToGenerate_after_run_witness :
  orchestrator.getComponentsToGenerate exampleDigest
    (orchestratorOf enabledManager) diskBefore (fun _ => 1000%Z) structureTwo
  = [apiComponent; webComponent]
  /\ orchestrator.getComponentsToGenerate exampleDigest
       (orchestrator.updateGenerated exampleDigest
          (orchestratorOf enabledManager) diskBefore (fun _ => 1500%Z) 0
          (orchestrator.getComponentsToGenerate exampleDigest
             (orchestratorOf enabledManager) diskBefore (fun _ => 1000%Z)
             structureTwo))
       diskBefore (fun _ => 2000%Z) structureTwo
     = [].
Proof.
  split; [reflexivity |].
  apply (getComponentsToGenerate_after_run exampleDigest
           (orchestratorOf enabledManager) diskBefore (fun _ => 1000%Z)
           (fun _ => 1500%Z) (fun _ => 2000%Z) structureTwo).
  - reflexivity.
  - repeat constructor; cbn; intuition discriminate.
  - intros k comp cached Hk Hlk.
    destruct k as [|[|k]]; cbn in Hk; [| | now destruct k];
      injection Hk as <-; vm_compute in Hlk; injection Hlk as <-;
      vm_compute; discriminate.
Defined.

Lemma getComponentsToGenerate_name_collision_witness :
  ((forall now, cache.IsStale exampleDigest enabledWithEntry diskBefore now
                  "api" ["a.go"] = true)
   \/ (forall now, cache.IsStale exampleDigest enabledWithEntry diskBefore now
                     "api" ["b.go"] = true))
  /\ orchestrator.getComponentsToGenerate exampleDigest
       (orchestrator.updateGenerated exampleDigest
          (orchestratorOf enabledManager) diskBefore (fun _ => 1500%Z) 0
          [apiComponent; apiTwin])
       diskBefore (fun _ => 2000%Z) structureTwins
     <> [].
Proof.
  split.
  - apply (getComponentsToGenerate_name_collision exampleDigest
             (orchestratorOf enabledWithEntry) diskBefore structureTwins
             apiComponent apiTwin);
      [reflexivity | vm_compute; discriminate].
  - apply (getComponentsToGenerate_name_collision exampleDigest
             (orchestrator.updateGenerated exampleDigest
                (orchestratorOf enabledManager) diskBefore (fun _ => 1500%Z) 0
                [apiComponent; apiTwin])
             diskBefore structureTwins apiComponent apiTwin);
      [reflexivity | vm_compute; discriminate | now left | right; now left].
Defined.

Lemma IsStale_reads_listed_files_witness :
  cache.IsStale exampleDigest enabledWithEntry diskAfter 1000%Z "api" ["b.go"]
  = cache.IsStale exampleDigest enabledWithEntry diskEdited 1000%Z "api"
      ["b.go"]
  /\ diskAfter "a.go" <> diskEdited "a.go".
Proof.
  split.
  - apply (IsStale_reads_listed_files exampleDigest enabledWithEntry diskAfter
             diskEdited 1000%Z "api" ["b.go"]).
    intros file [<- | []]. reflexivity.
  - vm_compute. discriminate.
Defined.

Lemma Scan_counts_witness :
  analyzer.Scan (lib := exampleLibrary) fsSingle scannerHere = Ok scanOfSingle
  /\ analyzer.FileTree scanOfSingle
     = "." +:+ analyzer.nl
       +:+ rootLines (scanned (lib := exampleLibrary) fsSingle scannerHere)
  /\ analyzer.TotalFiles scanOfSingle
     = Z.of_nat (length (scanned (lib := exampleLibrary) fsSingle scannerHere))
  /\ default 0%Z (analyzer.Languages scanOfSingle !! "go")
     = Z.of_nat (filesOf "go"
                   (scanned (lib := exampleLibrary) fsSingle scannerHere)).
Proof.
  assert (Hscan : analyzer.Scan (lib := exampleLibrary) fsSingle scannerHere
                  = Ok scanOfSingle)
    by reflexivity.
  split; [exact Hscan |].
  destruct (Scan_counts (lib := exampleLibrary) fsSingle scannerHere
              scanOfSingle Hscan)
    as ((_ & _ & Hflat & _) & Htotal & _ & Hlang & _).
  split; [apply Hflat; reflexivity |].
  split; [exact Htotal |]. apply Hlang. discriminate.
Defined.

(** The go.mod of [repoSingle] is one module line. *)
Lemma manifest_without_section_witness :
  analyzer.extractGoDependencies fsSingle extractor "." = [].
Proof.
  apply (proj1 (manifest_without_section (lib := exampleLibrary) fsSingle
                  extractor ".")
           "module example.com/app");
    [reflexivity | reflexivity | repeat constructor].
Defined.

Lemma extractGoDependencies_reads_block_witness :
  analyzer.extractGoDependencies fsGoMod extractor "."
  = [analyzer.external "github.com/spf13/cobra" "v1.8.0";
     analyzer.external "golang.org/x/sys" "v0.15.0"].
Proof.
  apply (extractGoDependencies_reads_block fsGoMod extractor "."
           "example.com/app" "1.21" requirementsOfApp);
    reflexivity.
Defined.

Lemma extractRustDependencies_reads_section_witness :
  analyzer.extractRustDependencies fsCrates extractor "."
  = [analyzer.external "serde" "1.0"; analyzer.external "tokio" "1.35"].
Proof.
  apply (extractRustDependencies_reads_section fsCrates extractor "." "app"
           [ {| CrateName := "serde"; CrateVersion := "1.0" |};
             {| CrateName := "tokio"; CrateVersion := "1.35" |} ]
           [ {| CrateName := "criterion"; CrateVersion := "0.5" |} ]);
    reflexivity.
Defined.
